(** * Stella: the SDL sound back end (SoundSDL)

    A shallow embedding of [SoundSDL] and of its nested clip player
    [SoundSDL::WavHandlerSDL]: the volume controls, the pull callback
    handed to the resampler, the choice of the resampler, the realtime
    device callback and the WAV clip player.

    Conventions.
    - C++ integers are [Z]; where the source relies on a width, the
      wrap-around or the range is written out.
    - [float] and [double] are IEEE 754 binary32 and binary64, modelled by
      [spec_float] with the matching precision (modules [F32], [F64]).
    - Pointers that may be null are [option]; a byte is a [Z] in [0,256).
    - A method that can throw returns a [result]; a conversion, a
      dereference or a read of the clip whose behaviour is undefined in
      C++ returns [None].
    - Collaborators whose code is not at hand (AudioQueue, the
      resamplers, the SDL library, Console) are interfaces: type classes,
      records of functions or explicit function arguments. *)

From Stdlib Require Import ZArith Bool String Floats.SpecFloat.
From stdpp Require Import base option list.

Local Open Scope Z_scope.

(** ** Fixed-width integers *)

Definition to_uInt32 (z : Z) : Z := z mod 2 ^ 32.

Definition to_Int32 (z : Z) : Z := (z + 2 ^ 31) mod 2 ^ 32 - 2 ^ 31.

Definition in_Int32 (z : Z) : Prop := - 2 ^ 31 <= z < 2 ^ 31.

Definition in_uInt32 (z : Z) : Prop := 0 <= z < 2 ^ 32.

(** Modelled from the spec: [BSPF::clamp] lives in bspf.hxx, which is not
    among the sources; "clamped to [0,100]" is the usual three-way
    clamp. *)
Definition clamp (val lower upper : Z) : Z :=
  if val <? lower then lower else if val >? upper then upper else val.

(** ** Floating point *)

(** Exact rounding of a finite float to the nearest integer, halfway cases
    away from zero ([std::round]); [None] for infinities and NaN. *)
Definition SFround_half_away (x : spec_float) : option Z :=
  match x with
  | S754_zero _ => Some 0
  | S754_finite s m e =>
      let mag :=
        match e with
        | Zneg p => (2 * Zpos m + 2 ^ Zpos p) / (2 * 2 ^ Zpos p)
        | _ => Zpos m * 2 ^ e
        end in
      Some (if s then - mag else mag)
  | _ => None
  end.

(** "round(x)" as the specification means it, said without a division:
    the integer [z] is the one nearest to the finite float
    [x = +/- m * 2^e], and of two integers equally near the one farther
    from zero.  With [a] the magnitude of [z] (sign as [x]'s), that is
    [a - 1/2 <= m * 2^e < a + 1/2]. *)
Definition rounds_to (x : spec_float) (z : Z) : Prop :=
  match x with
  | S754_zero _ => z = 0
  | S754_finite s m e =>
      let a := if s then - z else z in
      match e with
      | Zneg p =>
          2 ^ Zpos p * (2 * a - 1) <= 2 * Zpos m < 2 ^ Zpos p * (2 * a + 1)
      | _ => a = Zpos m * 2 ^ e
      end
  | _ => False
  end.

(** Truncation toward zero (conversion of a floating value to an integer
    type); [None] for infinities and NaN. *)
Definition SFtrunc (x : spec_float) : option Z :=
  match x with
  | S754_zero _ => Some 0
  | S754_finite s m e =>
      let mag :=
        match e with
        | Zneg p => Zpos m / 2 ^ Zpos p
        | _ => Zpos m * 2 ^ e
        end in
      Some (if s then - mag else mag)
  | _ => None
  end.

Module F32.
Definition prec : Z := 24.
Definition emax : Z := 128.
Definition of_Z (z : Z) : spec_float := binary_normalize prec emax z 0 false.
Definition mul : spec_float -> spec_float -> spec_float := SFmul prec emax.
Definition div : spec_float -> spec_float -> spec_float := SFdiv prec emax.
Definition zero : spec_float := S754_zero false.
Definition one : spec_float := of_Z 1.
End F32.

Module F64.
Definition prec : Z := 53.
Definition emax : Z := 1024.
Definition of_Z (z : Z) : spec_float := binary_normalize prec emax z 0 false.
Definition mul : spec_float -> spec_float -> spec_float := SFmul prec emax.
Definition div : spec_float -> spec_float -> spec_float := SFdiv prec emax.
Definition one : spec_float := of_Z 1.
(** Conversion of a double to [int]: truncation; undefined when the
    truncated value is out of range. *)
Definition to_int (x : spec_float) : option Z :=
  z ← SFtrunc x; guard (- 2 ^ 31 <= z < 2 ^ 31);; Some z.
(** [std::round(x)] converted to [uInt32] / [int].  [std::round] returns
    a double that holds an integer: the integer nearest to [x], halfway
    cases away from zero, which a double always holds exactly (a double
    of magnitude 2^52 or more is an integer already).  The conversion of
    that double is the integer itself; it is undefined when the integer
    is out of the range of the target type, and for infinities and
    NaN. *)
Definition round_to_uInt32 (x : spec_float) : option Z :=
  z ← SFround_half_away x; guard (0 <= z < 2 ^ 32);; Some z.
Definition round_to_int (x : spec_float) : option Z :=
  z ← SFround_half_away x; guard (- 2 ^ 31 <= z < 2 ^ 31);; Some z.
End F64.

Arguments F32.of_Z : simpl never.
Arguments F32.mul : simpl never.
Arguments F32.div : simpl never.
Arguments F64.of_Z : simpl never.
Arguments F64.mul : simpl never.
Arguments F64.div : simpl never.

(** [0 <= x <= 1] on floats; false for NaN. *)
Definition in_unit_interval (x : spec_float) : bool :=
  SFleb F32.zero x && SFleb x F32.one.

(** [static_cast<float>(volume) / 100.F] *)
Definition percent_factor (v : Z) : spec_float :=
  F32.div (F32.of_Z v) (F32.of_Z 100).

(** ** Results of methods that may throw

    [Throw what s]: an exception left the method; [s] is the object as the
    method left it at the [throw].  [Undefined]: the method ran into
    undefined behaviour (a null pointer was dereferenced). *)
Inductive result (S : Type) : Type :=
  | Ok (s : S)
  | Throw (what : string) (s : S)
  | Undefined.
Arguments Ok {S} s.
Arguments Throw {S} what s.
Arguments Undefined {S}.

Definition and_then {S : Type} (r : result S) (k : S -> result S) : result S :=
  match r with
  | Ok s => k s
  | Throw what s => Throw what s
  | Undefined => Undefined
  end.

(** The object a method leaves behind, whether it returned or threw. *)
Definition state_of {S : Type} (r : result S) : option S :=
  match r with
  | Ok s => Some s
  | Throw _ s => Some s
  | Undefined => None
  end.

Notation "r >>> k" := (and_then r k) (at level 61, left associativity).

(** ** Collaborators *)

(** Modelled from the spec: the [AudioSettings] class is not among the
    sources; the configuration surface names the sample rate, the fragment
    size, the device selector, the enabled flag, the volume (0-100) and
    the resampling quality.  The quality selectors are numbered as
    [SoundSDL::about] prints them ("Quality 1, nearest neighbor",
    "Quality 2, Lanczos (a = 2)", "Quality 3, Lanczos (a = 3)"). *)
Module AudioSettings.
Record t : Type := Build {
  sampleRate : Z;
  fragmentSize : Z;
  device : Z;
  volume : Z;
  enabled : bool;
  resamplingQuality : Z;
}.

Definition setVolume (v : Z) (a : t) : t :=
  Build (sampleRate a) (fragmentSize a) (device a) v (enabled a)
        (resamplingQuality a).

Definition nearestNeighbour : Z := 1.
Definition lanczos_2 : Z := 2.
Definition lanczos_3 : Z := 3.

Definition recognized (quality : Z) : Prop :=
  quality = nearestNeighbour \/ quality = lanczos_2 \/ quality = lanczos_3.
End AudioSettings.

(** Modelled from the spec: [EmulationTiming] is not among the sources;
    the two values [SoundSDL] reads from it. *)
Module EmulationTiming.
Record t : Type := Build {
  audioSampleRate : Z;
  prebufferFragmentCount : Z;
}.
End EmulationTiming.

(** A fragment handle: a non-null [Int16*]; the null pointer is [None]. *)
Definition Fragment : Type := positive.

(** The interface of [AudioQueue] as [SoundSDL] uses it.  [dequeue q prev]
    hands back the fragment [prev] and returns the next fragment, or
    [None] when nothing is ready. *)
Module AudioQueue.
Class Ops (Q : Type) : Type := {
  size : Q -> Z;
  dequeue : Q -> option Fragment -> option Fragment * Q;
  ignoreOverflows : Q -> bool -> Q;
  fragmentSize : Q -> Z;
  isStereo : Q -> bool;
}.
End AudioQueue.

(** The interface of the resamplers.  The two constructors stand for
    [make_unique<SimpleResampler>(from, to, cb)] and
    [make_unique<LanczosResampler>(from, to, cb, a)].  The callback [cb]
    is always the closure [nextFragmentCallback] below; it captures the
    sound object, so the model does not store it in the resampler: it is
    run, on the object, by whoever runs [fillFragment].

    [fillFragment r buf length] writes [length] floats into the byte
    buffer [buf] and may call [cb] on the way, any number of times.  It
    is given as a [Fill]: either the resampler is done, with its new
    state and the buffer as it leaves it, or it calls [cb] and goes on
    with the fragment (or the null pointer) that the call returned. *)
Module Resampler.
Record Format : Type := Build_Format {
  sampleRate : Z;
  fragmentSize : Z;
  stereo : bool;
}.

Inductive Fill (R : Type) : Type :=
  | Filled (r : R) (buf : list Z)
  | Pull (continue : option Fragment -> Fill R).
Arguments Filled {R} r buf.
Arguments Pull {R} continue.

Class Ops (R : Type) : Type := {
  SimpleResampler : Format -> Format -> R;
  LanczosResampler : Format -> Format -> Z -> R;
  fillFragment : R -> list Z -> Z -> Fill R;
}.
End Resampler.

(** *** The SDL audio library *)

Record SDL_AudioSpec : Type := Build_SDL_AudioSpec {
  freq : Z;
  format : Z;
  channels : Z;
  silence : Z;
  samples : Z;
}.

(** [SDL_zero(spec)] *)
Definition SDL_zero : SDL_AudioSpec := Build_SDL_AudioSpec 0 0 0 0 0.

Definition AUDIO_F32SYS : Z := 33056.
Definition SDL_MIX_MAXVOLUME : Z := 128.

Inductive SDL_AudioStatus : Type :=
  | SDL_AUDIO_STOPPED
  | SDL_AUDIO_PLAYING
  | SDL_AUDIO_PAUSED.

(** What the SDL library answers.  A load that fails returns [None] and
    leaves the output arguments as they were; [SDL_OpenAudioDevice]
    returns the device id (0 on failure) and the obtained format. *)
Record SDL : Type := Build_SDL {
  SDL_OpenAudioDevice : option string -> SDL_AudioSpec -> Z * SDL_AudioSpec;
  SDL_LoadWAV : string -> option (SDL_AudioSpec * list Z);
  (** [cvt.len_mult] as [SDL_BuildAudioCVT] sets it for a rate change *)
  SDL_cvt_len_mult : SDL_AudioSpec -> Z -> Z;
  (** [SDL_ConvertAudio]: format, source rate, target rate, [cvt.len],
      buffer; returns the buffer after conversion and [cvt.len_cvt] *)
  SDL_ConvertAudio : SDL_AudioSpec -> Z -> Z -> Z -> list Z -> list Z * Z;
  (** [SDL_MixAudioFormat dst src format len volume] *)
  SDL_MixAudioFormat : list Z -> list Z -> Z -> Z -> Z -> list Z;
}.

(** Calls into SDL made by the clip player, kept as a trace. *)
Inductive SDLCall : Type :=
  | CallLoadWAV (fileName : string)
  | CallFreeWAV
  | CallOpenAudioDevice (device : option string)
  | CallCloseAudioDevice (id : Z)
  | CallPauseAudioDevice (id : Z) (pause_on : bool).

(** *** Floats in memory

    The device buffer is handed over as bytes and used as an array of
    [float].  How a [float] is laid out in four bytes belongs to the
    platform.  So do the sign and the payload of a NaN, which
    [spec_float] does not hold: [product_nan c factor] is the four bytes
    the platform stores for the product of the float in the bytes [c]
    and [factor] when that product is a NaN. *)
Class Float32Layout : Type := {
  float_of_bytes : Z * Z * Z * Z -> spec_float;
  bytes_of_float : spec_float -> Z * Z * Z * Z;
  product_nan : Z * Z * Z * Z -> spec_float -> Z * Z * Z * Z;
}.

(** The little-endian IEEE 754 binary32 layout. *)
Definition bits_of_binary32 (x : spec_float) : Z :=
  match x with
  | S754_zero s => if s then 2 ^ 31 else 0
  | S754_infinity s => (if s then 2 ^ 31 else 0) + 255 * 2 ^ 23
  | S754_nan => 255 * 2 ^ 23 + 2 ^ 22
  | S754_finite s m e =>
      (if s then 2 ^ 31 else 0)
      + (if Zpos m <? 2 ^ 23 then Zpos m
         else (e + 150) * 2 ^ 23 + (Zpos m - 2 ^ 23))
  end.

Definition binary32_of_bits (b : Z) : spec_float :=
  let s := 2 ^ 31 <=? b in
  let bexp := (b / 2 ^ 23) mod 256 in
  let frac := b mod 2 ^ 23 in
  if bexp =? 255 then (if frac =? 0 then S754_infinity s else S754_nan)
  else if bexp =? 0 then
    match frac with
    | Zpos m => S754_finite s m (-149)
    | _ => S754_zero s
    end
  else
    match frac + 2 ^ 23 with
    | Zpos m => S754_finite s m (bexp - 150)
    | _ => S754_zero s
    end.

Definition le_bytes (b : Z) : Z * Z * Z * Z :=
  (b mod 256, (b / 2 ^ 8) mod 256, (b / 2 ^ 16) mod 256, (b / 2 ^ 24) mod 256).

Definition of_le_bytes (c : Z * Z * Z * Z) : Z :=
  let '(b0, b1, b2, b3) := c in
  b0 + b1 * 2 ^ 8 + b2 * 2 ^ 16 + b3 * 2 ^ 24.

(** A NaN product as x86 SSE stores it: a NaN operand is kept, made
    quiet; the product of an infinity and a zero is the default NaN. *)
Definition product_nan_bits (b : Z) (factor : spec_float) : Z :=
  match binary32_of_bits b, factor with
  | S754_nan, _ => Z.lor b (2 ^ 22)
  | _, S754_nan => bits_of_binary32 S754_nan
  | _, _ => 2 ^ 31 + 255 * 2 ^ 23 + 2 ^ 22
  end.

Definition LittleEndian32 : Float32Layout :=
  {| float_of_bytes c := binary32_of_bits (of_le_bytes c);
     bytes_of_float x := le_bytes (bits_of_binary32 x);
     product_nan c factor := le_bytes (product_nan_bits (of_le_bytes c) factor) |}.

(** [SDL_memset(stream, c, len)] on a buffer given as a list of bytes. *)
Definition SDL_memset (stream : list Z) (c : Z) (len : Z) : list Z :=
  replicate (Z.to_nat len) c ++ drop (Z.to_nat len) stream.

(** ** The clip player, [SoundSDL::WavHandlerSDL] *)

Module WavHandlerSDL.

(** The object.  [myBuffer] is the decoded clip ([nullptr] is [None]),
    [myPos] the read position as an offset into it.  [calls] is a ghost
    field: the calls made into SDL so far, the latest first. *)
Record t : Type := Build {
  myFilename : string;
  myLength : Z;
  myDevice : Z;
  myBuffer : option (list Z);
  mySpeed : spec_float;
  myCvtBuffer : option (list Z);
  myCvtBufferSize : Z;
  mySpec : SDL_AudioSpec;
  myPos : Z;
  myRemaining : Z;
  calls : list SDLCall;
}.

(** The object as constructed (member initialisers of the class). *)
Definition init : t :=
  Build EmptyString 0 0 None F64.one None 0 SDL_zero 0 0 [].

Definition set_myFilename (x : string) (w : t) : t :=
  Build x (myLength w) (myDevice w) (myBuffer w) (mySpeed w) (myCvtBuffer w)
        (myCvtBufferSize w) (mySpec w) (myPos w) (myRemaining w) (calls w).

Definition set_myLength (x : Z) (w : t) : t :=
  Build (myFilename w) x (myDevice w) (myBuffer w) (mySpeed w) (myCvtBuffer w)
        (myCvtBufferSize w) (mySpec w) (myPos w) (myRemaining w) (calls w).

Definition set_myDevice (x : Z) (w : t) : t :=
  Build (myFilename w) (myLength w) x (myBuffer w) (mySpeed w) (myCvtBuffer w)
        (myCvtBufferSize w) (mySpec w) (myPos w) (myRemaining w) (calls w).

Definition set_myBuffer (x : option (list Z)) (w : t) : t :=
  Build (myFilename w) (myLength w) (myDevice w) x (mySpeed w) (myCvtBuffer w)
        (myCvtBufferSize w) (mySpec w) (myPos w) (myRemaining w) (calls w).

Definition set_mySpeed (x : spec_float) (w : t) : t :=
  Build (myFilename w) (myLength w) (myDevice w) (myBuffer w) x (myCvtBuffer w)
        (myCvtBufferSize w) (mySpec w) (myPos w) (myRemaining w) (calls w).

Definition set_myCvtBuffer (x : option (list Z)) (n : Z) (w : t) : t :=
  Build (myFilename w) (myLength w) (myDevice w) (myBuffer w) (mySpeed w) x
        n (mySpec w) (myPos w) (myRemaining w) (calls w).

Definition set_mySpec (x : SDL_AudioSpec) (w : t) : t :=
  Build (myFilename w) (myLength w) (myDevice w) (myBuffer w) (mySpeed w)
        (myCvtBuffer w) (myCvtBufferSize w) x (myPos w) (myRemaining w)
        (calls w).

Definition set_myPos (x : Z) (w : t) : t :=
  Build (myFilename w) (myLength w) (myDevice w) (myBuffer w) (mySpeed w)
        (myCvtBuffer w) (myCvtBufferSize w) (mySpec w) x (myRemaining w)
        (calls w).

Definition set_myRemaining (x : Z) (w : t) : t :=
  Build (myFilename w) (myLength w) (myDevice w) (myBuffer w) (mySpeed w)
        (myCvtBuffer w) (myCvtBufferSize w) (mySpec w) (myPos w) x (calls w).

Definition call (c : SDLCall) (w : t) : t :=
  Build (myFilename w) (myLength w) (myDevice w) (myBuffer w) (mySpeed w)
        (myCvtBuffer w) (myCvtBufferSize w) (mySpec w) (myPos w)
        (myRemaining w) (c :: calls w).

Definition setSpeed (speed : spec_float) (w : t) : t := set_mySpeed speed w.

Definition pause (state : bool) (w : t) : t :=
  if myDevice w =? 0 then w else call (CallPauseAudioDevice (myDevice w) state) w.

(** The first part of [play]: load the WAV file unless the same file is
    still loaded.  [None] is the early [return false]. *)
Definition play_load (sdl : SDL) (fileName : string) (w : t) : option t * t :=
  if negb (String.eqb fileName (myFilename w)) || bool_decide (myBuffer w = None)
  then
    let w1 :=
      match myBuffer w with
      | Some _ => set_myBuffer None (call CallFreeWAV w)
      | None => w
      end in
    let w2 := call (CallLoadWAV fileName) (set_mySpec SDL_zero w1) in
    match SDL_LoadWAV sdl fileName with
    | None => (None, w2)
    | Some (spec, buf) =>
        let w3 := set_myLength (Z.of_nat (length buf))
                    (set_myBuffer (Some buf) (set_mySpec spec w2)) in
        (Some w3, w3)
    end
  else (Some w, w).

Definition play (sdl : SDL) (fileName : string) (device : option string)
    (position length : Z) (w : t) : bool * t :=
  match play_load sdl fileName w with
  | (None, w') => (false, w')
  | (Some w1, _) =>
      if position >? myLength w1 then (false, w1)
      else
        let w2 := set_myFilename fileName w1 in
        let w3 :=
          set_myRemaining
            (if length =? 0 then myLength w2
             else Z.min length (myLength w2 - position)) w2 in
        let w4 := set_myPos position w3 in
        (* Open audio device *)
        if myDevice w4 =? 0 then
          let w5 :=
            set_myDevice (fst (SDL_OpenAudioDevice sdl device (mySpec w4)))
              (call (CallOpenAudioDevice device) w4) in
          if myDevice w5 =? 0 then (false, w5)
          else (true, pause false w5)
        else (true, w4)
  end.

(** [len / mySpeed]: [len] is a [uInt32], the quotient a [double]. *)
Definition lengthQuotient (len : Z) (speed : spec_float) : spec_float :=
  F64.div (F64.of_Z len) speed.

(** [len = std::round(len / mySpeed)], from [double] back to [uInt32]. *)
Definition convertedLength (len : Z) (speed : spec_float) : option Z :=
  F64.round_to_uInt32 (lengthQuotient len speed).

(** [static_cast<double>(freq) * origLen / len]: a product and a
    quotient of doubles. *)
Definition rateQuotient (freq origLen len : Z) : spec_float :=
  F64.div (F64.mul (F64.of_Z freq) (F64.of_Z origLen)) (F64.of_Z len).

(** [newFreq = std::round(static_cast<double>(freq) * origLen / len)],
    stored in an [int]. *)
Definition newFreq (freq origLen len : Z) : option Z :=
  F64.round_to_int (rateQuotient freq origLen len).

(** [SDL_MIX_MAXVOLUME * myVolumeFactor], passed as an [int]. *)
Definition mixVolume (volumeFactor : spec_float) : option Z :=
  F64.to_int (F32.mul (F32.of_Z SDL_MIX_MAXVOLUME) volumeFactor).

(** [myPos += len; myRemaining -= len;] *)
Definition advance (len : Z) (w : t) : t :=
  set_myRemaining (myRemaining w - len) (set_myPos (myPos w + len) w).

(** The bytes of the decoded clip from [myPos] on. *)
Definition atPos (w : t) : list Z :=
  drop (Z.to_nat (myPos w)) (default [] (myBuffer w)).

(** The [n] bytes read through the pointer [myPos] ([n] is an [int] or
    a [uInt32] handed to SDL).  Nothing is read when [n] is 0.  Otherwise
    the read is defined only when a decoded clip is loaded and the [n]
    bytes lie inside it; [None] is a read through a null or dangling
    pointer, or past the end of the buffer. *)
Definition readAtPos (n : Z) (w : t) : option (list Z) :=
  if n =? 0 then Some []
  else
    buf ← myBuffer w;
    guard (0 <= myPos w /\ 0 < n /\ myPos w + n <= Z.of_nat (length buf));;
    Some (take (Z.to_nat n) (atPos w)).

Definition processWav (sdl : SDL) (volumeFactor : spec_float)
    (stream : list Z) (len : Z) (w : t) : option (t * list Z) :=
  let stream0 := SDL_memset stream (silence (mySpec w)) len in
  if myRemaining w =? 0 then Some (w, stream0)
  else
    volume ← mixVolume volumeFactor;
    if negb (SFeqb (mySpeed w) F64.one) then
      let origLen := to_Int32 len in
      len1 ← convertedLength len (mySpeed w);
      newFreq ← newFreq (freq (mySpec w)) origLen len1;
      let len2 := if len1 >? myRemaining w then myRemaining w else len1 in
      let cvt_len := to_Int32 (to_uInt32 (len2 * channels (mySpec w))) in
      let need := cvt_len * SDL_cvt_len_mult sdl (mySpec w) newFreq in
      let w1 :=
        if bool_decide (myCvtBuffer w = None) || (myCvtBufferSize w <? need)
        then set_myCvtBuffer (Some (replicate (Z.to_nat need) 0)) need w
        else w in
      (* Read original data into conversion buffer *)
      original ← readAtPos cvt_len w;
      let buf :=
        original ++ drop (Z.to_nat cvt_len) (default [] (myCvtBuffer w1)) in
      let converted :=
        SDL_ConvertAudio sdl (mySpec w) (freq (mySpec w)) newFreq cvt_len buf in
      let w2 := set_myCvtBuffer (Some (fst converted)) (myCvtBufferSize w1) w1 in
      (* Mix volume adjusted WAV data into silent buffer *)
      let stream1 :=
        SDL_MixAudioFormat sdl stream0 (fst converted) (format (mySpec w))
          (snd converted) volume in
      Some (advance len2 w2, stream1)
    else
      let len2 := if len >? myRemaining w then myRemaining w else len in
      (* Mix volume adjusted WAV data into silent buffer *)
      original ← readAtPos len2 w;
      let stream1 :=
        SDL_MixAudioFormat sdl stream0 original (format (mySpec w)) len2
          volume in
      Some (advance len2 w, stream1).

(** The static [callback]: [len] arrives as an [int]. *)
Definition callback (sdl : SDL) (volumeFactor : spec_float)
    (stream : list Z) (len : Z) (w : t) : option (t * list Z) :=
  processWav sdl volumeFactor stream (to_uInt32 len) w.

Definition stop (w : t) : t :=
  let w1 :=
    match myBuffer w with
    | Some _ =>
        set_myBuffer None
          (call CallFreeWAV
             (set_myDevice 0
                (call (CallCloseAudioDevice (myDevice w))
                   (set_myRemaining 0 w))))
    | None => w
    end in
  match myCvtBuffer w1 with
  | Some _ => set_myCvtBuffer None 0 w1
  | None => w1
  end.

(** How often the clip player has asked SDL to decode a file. *)
Definition is_load (c : SDLCall) : bool :=
  match c with
  | CallLoadWAV _ => true
  | _ => false
  end.

Definition decodes (w : t) : Z :=
  Z.of_nat (length (List.filter is_load (calls w))).

(** The destructor [~WavHandlerSDL]. *)
Definition destroy (w : t) : t :=
  if myDevice w =? 0 then w
  else call CallFreeWAV (call (CallCloseAudioDevice (myDevice w)) w).

(** [n] callbacks in a row, each asking for [len] bytes; what is written
    to the buffers is dropped. *)
Fixpoint processWav_n (sdl : SDL) (volumeFactor : spec_float)
    (stream : list Z) (len : Z) (n : nat) (w : t) : option t :=
  match n with
  | O => Some w
  | S k =>
      processed ← processWav sdl volumeFactor stream len w;
      processWav_n sdl volumeFactor stream len k (fst processed)
  end.

(** The clip player as a transition system.  The arguments are
    [uInt32] values. *)
Inductive Operation : Type :=
  | OpPlay (sdl : SDL) (fileName : string) (device : option string)
      (position length : Z)
  | OpStop
  | OpProcessWav (sdl : SDL) (volumeFactor : spec_float) (stream : list Z)
      (len : Z)
  | OpPause (state : bool)
  | OpSetSpeed (speed : spec_float).

Definition well_typed (op : Operation) : Prop :=
  match op with
  | OpPlay _ _ _ position length => in_uInt32 position /\ in_uInt32 length
  | OpProcessWav _ _ _ len => in_uInt32 len
  | _ => True
  end.

Definition perform (op : Operation) (w : t) : option t :=
  match op with
  | OpPlay sdl fileName device position length =>
      Some (snd (play sdl fileName device position length w))
  | OpStop => Some (stop w)
  | OpProcessWav sdl volumeFactor stream len =>
      option_map fst (processWav sdl volumeFactor stream len w)
  | OpPause state => Some (pause state w)
  | OpSetSpeed speed => Some (setSpeed speed w)
  end.

Inductive reachable : t -> Prop :=
  | reachable_init : reachable init
  | reachable_perform (w w' : t) (op : Operation) :
      reachable w -> well_typed op -> perform op w = Some w' ->
      reachable w'.

(** What every reachable clip player satisfies. *)
Definition consistent (w : t) : Prop :=
  (forall buf, myBuffer w = Some buf -> myLength w = Z.of_nat (length buf))
  /\ 0 <= myRemaining w
  /\ 0 <= myPos w.

End WavHandlerSDL.

(** ** The sound object, [SoundSDL] *)

Section SoundSDL.

Context {Q R : Type} `{!AudioQueue.Ops Q} `{!Resampler.Ops R}.

(** The members of [SoundSDL] that its methods read or write.
    [myVolumeFactor] is the static member, one per process.
    [myDeviceStatus] is a ghost field: what [SDL_GetAudioDeviceStatus]
    answers for [myDevice].  [myAboutString] only feeds the log and is
    left out. *)
Record SoundSDL : Type := Build_SoundSDL {
  myAudioSettings : AudioSettings.t;
  myIsInitializedFlag : bool;
  myDevices : list string;
  myDevice : Z;
  myDeviceId : Z;
  myHardwareSpec : SDL_AudioSpec;
  myDeviceStatus : SDL_AudioStatus;
  myAudioQueue : option Q;
  myEmulationTiming : option EmulationTiming.t;
  myResampler : option R;
  myUnderrun : bool;
  myCurrentFragment : option Fragment;
  myVolumeFactor : spec_float;
  myWavHandler : WavHandlerSDL.t;
}.

Definition set_myAudioSettings (x : AudioSettings.t) (s : SoundSDL) : SoundSDL :=
  Build_SoundSDL x (myIsInitializedFlag s) (myDevices s) (myDevice s)
    (myDeviceId s) (myHardwareSpec s) (myDeviceStatus s) (myAudioQueue s)
    (myEmulationTiming s) (myResampler s) (myUnderrun s)
    (myCurrentFragment s) (myVolumeFactor s) (myWavHandler s).

Definition set_myIsInitializedFlag (x : bool) (s : SoundSDL) : SoundSDL :=
  Build_SoundSDL (myAudioSettings s) x (myDevices s) (myDevice s)
    (myDeviceId s) (myHardwareSpec s) (myDeviceStatus s) (myAudioQueue s)
    (myEmulationTiming s) (myResampler s) (myUnderrun s)
    (myCurrentFragment s) (myVolumeFactor s) (myWavHandler s).

Definition set_myDevices (x : list string) (s : SoundSDL) : SoundSDL :=
  Build_SoundSDL (myAudioSettings s) (myIsInitializedFlag s) x (myDevice s)
    (myDeviceId s) (myHardwareSpec s) (myDeviceStatus s) (myAudioQueue s)
    (myEmulationTiming s) (myResampler s) (myUnderrun s)
    (myCurrentFragment s) (myVolumeFactor s) (myWavHandler s).

Definition set_myDevice (x : Z) (s : SoundSDL) : SoundSDL :=
  Build_SoundSDL (myAudioSettings s) (myIsInitializedFlag s) (myDevices s) x
    (myDeviceId s) (myHardwareSpec s) (myDeviceStatus s) (myAudioQueue s)
    (myEmulationTiming s) (myResampler s) (myUnderrun s)
    (myCurrentFragment s) (myVolumeFactor s) (myWavHandler s).

Definition set_myDeviceId (x : Z) (s : SoundSDL) : SoundSDL :=
  Build_SoundSDL (myAudioSettings s) (myIsInitializedFlag s) (myDevices s)
    (myDevice s) x (myHardwareSpec s) (myDeviceStatus s) (myAudioQueue s)
    (myEmulationTiming s) (myResampler s) (myUnderrun s)
    (myCurrentFragment s) (myVolumeFactor s) (myWavHandler s).

Definition set_myHardwareSpec (x : SDL_AudioSpec) (s : SoundSDL) : SoundSDL :=
  Build_SoundSDL (myAudioSettings s) (myIsInitializedFlag s) (myDevices s)
    (myDevice s) (myDeviceId s) x (myDeviceStatus s) (myAudioQueue s)
    (myEmulationTiming s) (myResampler s) (myUnderrun s)
    (myCurrentFragment s) (myVolumeFactor s) (myWavHandler s).

Definition set_myDeviceStatus (x : SDL_AudioStatus) (s : SoundSDL) : SoundSDL :=
  Build_SoundSDL (myAudioSettings s) (myIsInitializedFlag s) (myDevices s)
    (myDevice s) (myDeviceId s) (myHardwareSpec s) x (myAudioQueue s)
    (myEmulationTiming s) (myResampler s) (myUnderrun s)
    (myCurrentFragment s) (myVolumeFactor s) (myWavHandler s).

Definition set_myAudioQueue (x : option Q) (s : SoundSDL) : SoundSDL :=
  Build_SoundSDL (myAudioSettings s) (myIsInitializedFlag s) (myDevices s)
    (myDevice s) (myDeviceId s) (myHardwareSpec s) (myDeviceStatus s) x
    (myEmulationTiming s) (myResampler s) (myUnderrun s)
    (myCurrentFragment s) (myVolumeFactor s) (myWavHandler s).

Definition set_myEmulationTiming (x : option EmulationTiming.t) (s : SoundSDL) : SoundSDL :=
  Build_SoundSDL (myAudioSettings s) (myIsInitializedFlag s) (myDevices s)
    (myDevice s) (myDeviceId s) (myHardwareSpec s) (myDeviceStatus s)
    (myAudioQueue s) x (myResampler s) (myUnderrun s) (myCurrentFragment s)
    (myVolumeFactor s) (myWavHandler s).

Definition set_myResampler (x : option R) (s : SoundSDL) : SoundSDL :=
  Build_SoundSDL (myAudioSettings s) (myIsInitializedFlag s) (myDevices s)
    (myDevice s) (myDeviceId s) (myHardwareSpec s) (myDeviceStatus s)
    (myAudioQueue s) (myEmulationTiming s) x (myUnderrun s)
    (myCurrentFragment s) (myVolumeFactor s) (myWavHandler s).

Definition set_myUnderrun (x : bool) (s : SoundSDL) : SoundSDL :=
  Build_SoundSDL (myAudioSettings s) (myIsInitializedFlag s) (myDevices s)
    (myDevice s) (myDeviceId s) (myHardwareSpec s) (myDeviceStatus s)
    (myAudioQueue s) (myEmulationTiming s) (myResampler s) x
    (myCurrentFragment s) (myVolumeFactor s) (myWavHandler s).

Definition set_myCurrentFragment (x : option Fragment) (s : SoundSDL) : SoundSDL :=
  Build_SoundSDL (myAudioSettings s) (myIsInitializedFlag s) (myDevices s)
    (myDevice s) (myDeviceId s) (myHardwareSpec s) (myDeviceStatus s)
    (myAudioQueue s) (myEmulationTiming s) (myResampler s) (myUnderrun s) x
    (myVolumeFactor s) (myWavHandler s).

Definition set_myVolumeFactor (x : spec_float) (s : SoundSDL) : SoundSDL :=
  Build_SoundSDL (myAudioSettings s) (myIsInitializedFlag s) (myDevices s)
    (myDevice s) (myDeviceId s) (myHardwareSpec s) (myDeviceStatus s)
    (myAudioQueue s) (myEmulationTiming s) (myResampler s) (myUnderrun s)
    (myCurrentFragment s) x (myWavHandler s).

Definition set_myWavHandler (x : WavHandlerSDL.t) (s : SoundSDL) : SoundSDL :=
  Build_SoundSDL (myAudioSettings s) (myIsInitializedFlag s) (myDevices s)
    (myDevice s) (myDeviceId s) (myHardwareSpec s) (myDeviceStatus s)
    (myAudioQueue s) (myEmulationTiming s) (myResampler s) (myUnderrun s)
    (myCurrentFragment s) (myVolumeFactor s) x.

Context `{!Float32Layout}.

Definition stored_volume (s : SoundSDL) : Z :=
  AudioSettings.volume (myAudioSettings s).

Definition factor_in_unit (s : SoundSDL) : Prop :=
  in_unit_interval (myVolumeFactor s) = true.

(** *** Device handling *)

(** [pause]: returns whether the device was paused before. *)
Definition pause (enable : bool) (s : SoundSDL) : bool * SoundSDL :=
  let wasPaused :=
    match myDeviceStatus s with
    | SDL_AUDIO_PAUSED => true
    | _ => false
    end in
  if myIsInitializedFlag s then
    (wasPaused,
     set_myWavHandler (WavHandlerSDL.pause enable (myWavHandler s))
       (set_myDeviceStatus
          (if enable then SDL_AUDIO_PAUSED else SDL_AUDIO_PLAYING) s))
  else (wasPaused, s).

(** [myDevices.at(i).first]: [None] is [std::out_of_range]. *)
Definition deviceName (s : SoundSDL) (i : Z) : option string :=
  if i <? 0 then None else myDevices s !! Z.to_nat i.

(** [openDevice]; the [bool] it returns is the new [myIsInitializedFlag].
    A device is opened paused. *)
Definition openDevice (sdl : SDL) (s : SoundSDL) : result SoundSDL :=
  let desired :=
    Build_SDL_AudioSpec
      (AudioSettings.sampleRate (myAudioSettings s)) AUDIO_F32SYS 2 0
      (AudioSettings.fragmentSize (myAudioSettings s) mod 2 ^ 16) in
  let s1 :=
    if myIsInitializedFlag s then set_myDeviceStatus SDL_AUDIO_STOPPED s
    else s in
  let s2 :=
    set_myDeviceId
      (clamp (AudioSettings.device (myAudioSettings s)) 0
             (to_uInt32 (Z.of_nat (length (myDevices s)) - 1))) s1 in
  let opened (device : option string) : result SoundSDL :=
    let answer := SDL_OpenAudioDevice sdl device desired in
    let s3 := set_myHardwareSpec (snd answer) (set_myDevice (fst answer) s2) in
    if myDevice s3 =? 0 then Ok (set_myIsInitializedFlag false s3)
    else Ok (set_myIsInitializedFlag true
               (set_myDeviceStatus SDL_AUDIO_PAUSED s3)) in
  if myDeviceId s2 =? 0 then opened None
  else
    match deviceName s2 (myDeviceId s2) with
    | Some name => opened (Some name)
    | None => Throw "out_of_range" s2
    end.

(** *** Volume *)

(** [setVolume(uInt32 volume)]: the argument is converted to [uInt32]. *)
Definition setVolume (volume : Z) (s : SoundSDL) : SoundSDL :=
  let volume := to_uInt32 volume in
  if myIsInitializedFlag s && (volume <=? 100) then
    let s1 :=
      set_myAudioSettings
        (AudioSettings.setVolume volume (myAudioSettings s)) s in
    set_myVolumeFactor
      (if AudioSettings.enabled (myAudioSettings s1)
       then percent_factor volume
       else F32.zero) s1
  else s.

Definition mute (enable : bool) (s : SoundSDL) : SoundSDL :=
  if enable then set_myVolumeFactor F32.zero s
  else setVolume (AudioSettings.volume (myAudioSettings s)) s.

Definition setEnabled (enable : bool) (s : SoundSDL) : SoundSDL :=
  snd (pause (negb enable) (mute (negb enable) s)).

(** [toggleMute]; the on-screen message is not modelled. *)
Definition toggleMute (s : SoundSDL) : SoundSDL :=
  let wasMuted := SFeqb (myVolumeFactor s) F32.zero in
  mute (negb wasMuted) s.

(** [adjustVolume].  [initializeAudio] is
    [myOSystem.console().initializeAudio()], a method of [Console]; the
    on-screen gauge is not modelled.  The arithmetic is that of [int]. *)
Definition adjustVolume (initializeAudio : SoundSDL -> result SoundSDL)
    (direction : Z) (s : SoundSDL) : result SoundSDL :=
  let percent := to_Int32 (AudioSettings.volume (myAudioSettings s)) in
  let percent := clamp (to_Int32 (percent + to_Int32 (direction * 2))) 0 100 in
  (* Enable audio if it is currently disabled *)
  let enabled := AudioSettings.enabled (myAudioSettings s) in
  (if (percent >? 0) && negb (direction =? 0) && negb enabled
   then initializeAudio (setEnabled true s)
   else Ok s)
  >>> fun s1 => Ok (setVolume percent s1).

(** *** The resampler and its pull callback *)

(** The closure [nextFragmentCallback] built in [initResampler].  It
    captures [this], so it is a function of the object; [None] is the
    dereference of a null [myAudioQueue] or [myEmulationTiming]. *)
Definition nextFragmentCallback (s : SoundSDL)
    : option (option Fragment * SoundSDL) :=
  q ← myAudioQueue s;
  pulled ←
    (if myUnderrun s then
       t ← myEmulationTiming s;
       Some (if AudioQueue.size q >=? EmulationTiming.prebufferFragmentCount t
             then AudioQueue.dequeue q (myCurrentFragment s)
             else (None, q))
     else Some (AudioQueue.dequeue q (myCurrentFragment s)));
  let nextFragment := fst pulled in
  let s1 :=
    set_myUnderrun (bool_decide (nextFragment = None))
      (set_myAudioQueue (Some (snd pulled)) s) in
  let s2 :=
    match nextFragment with
    | Some f => set_myCurrentFragment (Some f) s1
    | None => s1
    end in
  Some (nextFragment, s2).

Definition initResampler (s : SoundSDL) : result SoundSDL :=
  match myEmulationTiming s, myAudioQueue s with
  | Some t, Some q =>
      let formatFrom :=
        Resampler.Build_Format (EmulationTiming.audioSampleRate t)
          (AudioQueue.fragmentSize q) (AudioQueue.isStereo q) in
      let formatTo :=
        Resampler.Build_Format (freq (myHardwareSpec s))
          (samples (myHardwareSpec s)) (channels (myHardwareSpec s) >? 1) in
      let quality := AudioSettings.resamplingQuality (myAudioSettings s) in
      if quality =? AudioSettings.nearestNeighbour then
        Ok (set_myResampler
              (Some (Resampler.SimpleResampler formatFrom formatTo)) s)
      else if quality =? AudioSettings.lanczos_2 then
        Ok (set_myResampler
              (Some (Resampler.LanczosResampler formatFrom formatTo 2)) s)
      else if quality =? AudioSettings.lanczos_3 then
        Ok (set_myResampler
              (Some (Resampler.LanczosResampler formatFrom formatTo 3)) s)
      else Throw "invalid resampling quality" s
  | _, _ => Undefined
  end.

(** *** The realtime device callback *)

(** [s[i]] for [s = reinterpret_cast<float*>(stream)]; a byte read out of
    bounds is read as 0. *)
Definition cell (stream : list Z) (i : Z) : Z * Z * Z * Z :=
  let at_ (k : Z) := default 0 (stream !! Z.to_nat (4 * i + k)) in
  (at_ 0, at_ 1, at_ 2, at_ 3).

Definition read_float (stream : list Z) (i : Z) : spec_float :=
  float_of_bytes (cell stream i).

Definition write_cell (stream : list Z) (i : Z) (c : Z * Z * Z * Z) : list Z :=
  let '(b0, b1, b2, b3) := c in
  <[Z.to_nat (4 * i + 3) := b3]>
    (<[Z.to_nat (4 * i + 2) := b2]>
       (<[Z.to_nat (4 * i + 1) := b1]>
          (<[Z.to_nat (4 * i) := b0]> stream))).

(** [x * factor] for the [float] [x] held in the bytes [c], as bytes.
    IEEE 754 fixes the product unless it is a NaN. *)
Definition multiply_cell (c : Z * Z * Z * Z) (factor : spec_float)
    : Z * Z * Z * Z :=
  match F32.mul (float_of_bytes c) factor with
  | S754_nan => product_nan c factor
  | product => bytes_of_float product
  end.

(** [for(i = from; i < from + steps; ++i) s[i] *= factor;] *)
Fixpoint scale (steps : nat) (from : Z) (factor : spec_float)
    (stream : list Z) : list Z :=
  match steps with
  | O => stream
  | S k =>
      scale k (from + 1) factor
        (write_cell stream from (multiply_cell (cell stream from) factor))
  end.

(** A [fillFragment] run on the object: each call of the resampler's
    callback is a call of the closure [nextFragmentCallback], which works
    on the members of the object.  [None] when the closure dereferences
    a null pointer. *)
Fixpoint runFill (fill : Resampler.Fill R) (s : SoundSDL)
    : option (R * list Z * SoundSDL) :=
  match fill with
  | Resampler.Filled r buf => Some (r, buf, s)
  | Resampler.Pull continue =>
      pulled ← nextFragmentCallback s;
      runFill (continue (fst pulled)) (snd pulled)
  end.

(** [callback]: the object after the call and the buffer after the
    call.  [myVolumeFactor] is read after [fillFragment] has run. *)
Definition callback (s : SoundSDL) (stream : list Z) (len : Z)
    : option (SoundSDL * list Z) :=
  match myAudioQueue s, myResampler s with
  | Some _, Some r =>
      let length := to_uInt32 (Z.shiftr len 2) in
      filled ← runFill (Resampler.fillFragment r stream length) s;
      let s1 := snd filled in
      Some (set_myResampler (Some (fst (fst filled))) s1,
            scale (Z.to_nat length) 0 (myVolumeFactor s1) (snd (fst filled)))
  | _, _ => Some (s, SDL_memset stream 0 len)
  end.

(** *** Opening the pipeline *)

(** [about] only builds a string, but [myDevices.at(myDeviceId)] in it
    throws when the index is out of range. *)
Definition about_throws (s : SoundSDL) : bool :=
  bool_decide (deviceName s (myDeviceId s) = None).

Definition open (sdl : SDL) (audioQueue : Q)
    (emulationTiming : EmulationTiming.t) (s : SoundSDL) : result SoundSDL :=
  let settings := myAudioSettings s in
  (if negb (AudioSettings.sampleRate settings
            =? to_uInt32 (freq (myHardwareSpec s)))
      || negb (AudioSettings.fragmentSize settings
               =? to_uInt32 (samples (myHardwareSpec s)))
      || negb (AudioSettings.device settings =? myDeviceId s)
   then openDevice sdl s
   else Ok s)
  >>> fun s1 =>
  let s2 := set_myEmulationTiming (Some emulationTiming) s1 in
  let s3 :=
    set_myWavHandler
      (WavHandlerSDL.setSpeed
         (F64.div (F64.of_Z (262 * 60 * 2))
                  (F64.of_Z (EmulationTiming.audioSampleRate emulationTiming)))
         (myWavHandler s2)) s2 in
  let audioQueue :=
    AudioQueue.ignoreOverflows audioQueue
      (negb (AudioSettings.enabled settings)) in
  if negb (AudioSettings.enabled settings) then Ok s3
  else
    let s4 :=
      set_myCurrentFragment None
        (set_myUnderrun true (set_myAudioQueue (Some audioQueue) s3)) in
    (* Adjust volume to that defined in settings *)
    let s5 := setVolume (AudioSettings.volume (myAudioSettings s4)) s4 in
    initResampler s5
    >>> fun s6 =>
    if about_throws s6 then Throw "out_of_range" s6
    else Ok (snd (pause false s6)).

(** *** The clip player seen from [SoundSDL] *)

Definition playWav (sdl : SDL) (fileName : string) (position length : Z)
    (s : SoundSDL) : result (bool * SoundSDL) :=
  let play (device : option string) :=
    let played :=
      WavHandlerSDL.play sdl fileName device position length
        (myWavHandler s) in
    Ok (fst played, set_myWavHandler (snd played) s) in
  if myDeviceId s =? 0 then play None
  else
    match deviceName s (myDeviceId s) with
    | Some name => play (Some name)
    | None => Throw "out_of_range" (false, s)
    end.

Definition stopWav (s : SoundSDL) : SoundSDL :=
  set_myWavHandler (WavHandlerSDL.stop (myWavHandler s)) s.

End SoundSDL.

Arguments SoundSDL : clear implicits.
Arguments Build_SoundSDL {Q R}.

(** ** Enumerating the audio devices *)

(** [VariantList]: device names with their ids. *)
Definition VariantList : Type := list (string * Z).

(** The loop of [queryHardware]: [steps] rounds from index [i] on. *)
Fixpoint queryHardware_from (SDL_GetAudioDeviceName : Z -> string)
    (steps : nat) (i : Z) (devices : VariantList) : VariantList :=
  match steps with
  | O => devices
  | S k =>
      queryHardware_from SDL_GetAudioDeviceName k (i + 1)
        (devices ++ [(SDL_GetAudioDeviceName i, i + 1)])
  end.

(** [queryHardware(devices)]; [numDevices] is what
    [SDL_GetNumAudioDevices(0)] answers.  The log lines are not
    modelled. *)
Definition queryHardware (numDevices : Z)
    (SDL_GetAudioDeviceName : Z -> string) (devices : VariantList)
    : VariantList :=
  queryHardware_from SDL_GetAudioDeviceName (Z.to_nat numDevices) 0
    (devices ++ [("Default"%string, 0)]).

(** ** The operations of the sound object, as a transition system *)

Section Operations.

Context {Q R : Type} `{!AudioQueue.Ops Q} `{!Resampler.Ops R}.
Context `{!Float32Layout}.

Inductive Operation : Type :=
  | OpSetEnabled (enable : bool)
  | OpOpen (sdl : SDL) (audioQueue : Q) (emulationTiming : EmulationTiming.t)
  | OpMute (enable : bool)
  | OpToggleMute
  | OpPause (enable : bool)
  | OpSetVolume (volume : Z)
  | OpAdjustVolume (direction : Z)
  | OpNextFragment
  | OpCallback (stream : list Z) (len : Z)
  | OpPlayWav (sdl : SDL) (fileName : string) (position length : Z)
  | OpStopWav
  | OpWavCallback (sdl : SDL) (stream : list Z) (len : Z).

(** One operation on the object; values returned to the caller and the
    contents of the audio buffers are dropped. *)
Definition perform (initializeAudio : SoundSDL Q R -> result (SoundSDL Q R))
    (op : Operation) (s : SoundSDL Q R) : result (SoundSDL Q R) :=
  match op with
  | OpSetEnabled enable => Ok (setEnabled enable s)
  | OpOpen sdl audioQueue emulationTiming =>
      open sdl audioQueue emulationTiming s
  | OpMute enable => Ok (mute enable s)
  | OpToggleMute => Ok (toggleMute s)
  | OpPause enable => Ok (snd (pause enable s))
  | OpSetVolume volume => Ok (setVolume volume s)
  | OpAdjustVolume direction => adjustVolume initializeAudio direction s
  | OpNextFragment =>
      match nextFragmentCallback s with
      | Some pulled => Ok (snd pulled)
      | None => Undefined
      end
  | OpCallback stream len =>
      match callback s stream len with
      | Some called => Ok (fst called)
      | None => Undefined
      end
  | OpPlayWav sdl fileName position length =>
      match playWav sdl fileName position length s with
      | Ok played => Ok (snd played)
      | Throw what played => Throw what (snd played)
      | Undefined => Undefined
      end
  | OpStopWav => Ok (stopWav s)
  | OpWavCallback sdl stream len =>
      match
        WavHandlerSDL.callback sdl (myVolumeFactor s) stream len
          (myWavHandler s)
      with
      | Some processed => Ok (set_myWavHandler (fst processed) s)
      | None => Undefined
      end
  end.

(** The objects that can be observed: start with the static
    [myVolumeFactor] at its initialiser [0.F], then perform operations;
    an operation that throws leaves the object as it was at the throw. *)
Inductive reachable (initializeAudio : SoundSDL Q R -> result (SoundSDL Q R))
    : SoundSDL Q R -> Prop :=
  | reachable_start (s : SoundSDL Q R) :
      myVolumeFactor s = F32.zero -> reachable initializeAudio s
  | reachable_step (s s' : SoundSDL Q R) (op : Operation) :
      reachable initializeAudio s ->
      state_of (perform initializeAudio op s) = Some s' ->
      reachable initializeAudio s'.

End Operations.

(** ** Sample collaborators

    Small, concrete stand-ins for the collaborators, used to run the
    model on examples. *)

(** Modelled from the spec: the fragment queue as a FIFO; [dequeue] never
    blocks and "returns empty immediately if nothing is available". *)
#[export] Instance FifoQueue : AudioQueue.Ops (list Fragment) := {|
  AudioQueue.size q := Z.of_nat (length q);
  AudioQueue.dequeue q prev :=
    match q with
    | [] => (None, [])
    | f :: q' => (Some f, q')
    end;
  AudioQueue.ignoreOverflows q _ := q;
  AudioQueue.fragmentSize _ := 512;
  AudioQueue.isStereo _ := false;
|}.

(** A resampler that remembers how it was built; each [fillFragment]
    asks for one fragment and fills every sample with the same value,
    one half. *)
Inductive ToneResampler : Type :=
  | Simple (from to : Resampler.Format)
  | Lanczos (from to : Resampler.Format) (a : Z).

Definition one_half : spec_float := S754_finite false 8388608 (-24).

Fixpoint fill_tone (n : nat) (buf : list Z) : list Z :=
  match n with
  | O => buf
  | S k =>
      let '(b0, b1, b2, b3) := le_bytes (bits_of_binary32 one_half) in
      b0 :: b1 :: b2 :: b3 :: fill_tone k (drop 4 buf)
  end.

#[export] Instance Tone : Resampler.Ops ToneResampler := {|
  Resampler.SimpleResampler := Simple;
  Resampler.LanczosResampler := Lanczos;
  Resampler.fillFragment r buf n :=
    Resampler.Pull (fun _ => Resampler.Filled r (fill_tone (Z.to_nat n) buf));
|}.

Definition sample_spec : SDL_AudioSpec := Build_SDL_AudioSpec 31400 8 1 128 512.

(** An SDL in which ["clip.wav"] is the only file that loads, every
    device opens as device 2 with the format asked for, a rate conversion
    keeps the buffer, and mixing overwrites. *)
Definition sample_sdl : SDL := {|
  SDL_OpenAudioDevice _ desired := (2, desired);
  SDL_LoadWAV name :=
    if String.eqb name "clip.wav"
    then Some (sample_spec, [10; 20; 30; 40; 50; 60; 70; 80])
    else None;
  SDL_cvt_len_mult _ _ := 2;
  SDL_ConvertAudio _ _ _ len buf := (buf, len);
  SDL_MixAudioFormat dst src _ len _ :=
    take (Z.to_nat len) src ++ drop (Z.to_nat len) dst;
|}.

(** The clip player after ["clip.wav"] was played from offset 2 for 4
    frames. *)
Definition sample_wav : WavHandlerSDL.t :=
  snd (WavHandlerSDL.play sample_sdl "clip.wav" None 2 4 WavHandlerSDL.init).

(** The double nearest to 1.3. *)
Definition speed_1_3 : spec_float := S754_finite false 5854679515581645 (-52).

Definition sample_settings : AudioSettings.t :=
  AudioSettings.Build 44100 512 0 50 true AudioSettings.lanczos_2.

Definition sample_timing : EmulationTiming.t := EmulationTiming.Build 31400 3.

(** An opened pipeline: device initialized, queue and resampler attached,
    three fragments queued, volume 50. *)
Definition sample_sound : SoundSDL (list Fragment) ToneResampler :=
  Build_SoundSDL sample_settings true ["Default"%string] 1 0
    (Build_SDL_AudioSpec 44100 AUDIO_F32SYS 2 0 512) SDL_AUDIO_PLAYING
    (Some [1; 2; 3]%positive) (Some sample_timing)
    (Some (Lanczos (Resampler.Build_Format 31400 512 false)
                   (Resampler.Build_Format 44100 512 true) 2))
    false None one_half WavHandlerSDL.init.

(** The same object when no audio device could be opened. *)
Definition sample_sound_no_device : SoundSDL (list Fragment) ToneResampler :=
  set_myVolumeFactor F32.zero
    (set_myDevice 0 (set_myIsInitializedFlag false sample_sound)).

(** The sample pipeline with sound disabled in the settings and the
    output silent. *)
Definition sample_sound_disabled : SoundSDL (list Fragment) ToneResampler :=
  set_myVolumeFactor F32.zero
    (set_myAudioSettings
       (AudioSettings.Build 44100 512 0 50 false AudioSettings.lanczos_2)
       sample_sound).

(** An object whose audio subsystem did not start: no device list, not
    initialized, and device 1 asked for in the settings. *)
Definition sample_sound_no_audio : SoundSDL (list Fragment) ToneResampler :=
  set_myDevices []
    (set_myAudioSettings
       (AudioSettings.Build 44100 512 1 50 true AudioSettings.lanczos_2)
       sample_sound_no_device).

(** The sample pipeline in underrun with two fragments queued, one short
    of the prebuffer count. *)
Definition sample_sound_starved : SoundSDL (list Fragment) ToneResampler :=
  set_myAudioQueue (Some [1; 2]%positive) (set_myUnderrun true sample_sound).

(** The starved pipeline while it still holds the fragment it played
    last. *)
Definition sample_sound_starved_holding
    : SoundSDL (list Fragment) ToneResampler :=
  set_myCurrentFragment (Some 7%positive) sample_sound_starved.

(** An SDL like [sample_sdl] in which no device can be opened. *)
Definition sample_sdl_no_device : SDL := {|
  SDL_OpenAudioDevice _ desired := (0, desired);
  SDL_LoadWAV := SDL_LoadWAV sample_sdl;
  SDL_cvt_len_mult := SDL_cvt_len_mult sample_sdl;
  SDL_ConvertAudio := SDL_ConvertAudio sample_sdl;
  SDL_MixAudioFormat := SDL_MixAudioFormat sample_sdl;
|}.

(** The clip player after a [play] of ["clip.wav"] that could not open
    a device. *)
Definition sample_wav_no_device : WavHandlerSDL.t :=
  snd (WavHandlerSDL.play sample_sdl_no_device "clip.wav" None 0 0
         WavHandlerSDL.init).

(** * Properties *)

(** ** Arithmetic helpers *)

Lemma to_uInt32_id (z : Z) : in_uInt32 z -> to_uInt32 z = z.
Proof. unfold in_uInt32, to_uInt32. intros Hz. apply Z.mod_small. lia. Qed.

Lemma to_Int32_id (z : Z) : in_Int32 z -> to_Int32 z = z.
Proof.
  unfold in_Int32, to_Int32. intros Hz.
  rewrite Z.mod_small by lia. lia.
Qed.

Lemma clamp_range (val lower upper : Z) :
  lower <= upper -> lower <= clamp val lower upper <= upper.
Proof.
  unfold clamp. intros Hlu.
  destruct (Z.ltb_spec val lower); [lia|].
  destruct (Z.gtb_spec val upper); lia.
Qed.

Lemma clamp_inside (val lower upper : Z) :
  lower <= val <= upper -> clamp val lower upper = val.
Proof.
  unfold clamp. intros Hv.
  destruct (Z.ltb_spec val lower); [lia|].
  destruct (Z.gtb_spec val upper); lia.
Qed.

(** ** The volume factor as a float *)

Lemma percent_factor_table :
  forallb (fun n => in_unit_interval (percent_factor (Z.of_nat n)))
          (seq 0 101) = true.
Proof. vm_compute. reflexivity. Qed.

Lemma percent_factor_unit (v : Z) :
  0 <= v <= 100 -> in_unit_interval (percent_factor v) = true.
Proof.
  intros Hv.
  pose proof percent_factor_table as Htable.
  rewrite forallb_forall in Htable.
  specialize (Htable (Z.to_nat v)).
  rewrite Z2Nat.id in Htable by lia.
  apply Htable, in_seq. lia.
Qed.

Section VolumeProperties.

Context {Q R : Type} `{!AudioQueue.Ops Q} `{!Resampler.Ops R}.

Implicit Types s : SoundSDL Q R.

(** What [setVolume] does, branch by branch. *)
Lemma setVolume_stored s (v : Z) :
  myIsInitializedFlag s = true -> in_uInt32 v -> v <= 100 ->
  stored_volume (setVolume v s) = v
  /\ myVolumeFactor (setVolume v s)
     = (if AudioSettings.enabled (myAudioSettings s)
        then percent_factor v else F32.zero)
  /\ myIsInitializedFlag (setVolume v s) = true.
Proof.
  intros Hinit Hv Hle. unfold setVolume, stored_volume.
  rewrite to_uInt32_id by assumption. rewrite Hinit.
  destruct (Z.leb_spec v 100); [|lia]. simpl. auto.
Qed.

Lemma setVolume_ignored s (v : Z) :
  in_uInt32 v -> 100 < v -> setVolume v s = s.
Proof.
  intros Hv Hgt. unfold setVolume.
  rewrite to_uInt32_id by assumption.
  destruct (Z.leb_spec v 100); [lia|]. now rewrite andb_false_r.
Qed.

Lemma setVolume_not_initialized s (v : Z) :
  myIsInitializedFlag s = false -> setVolume v s = s.
Proof. intros Hinit. unfold setVolume. now rewrite Hinit. Qed.

Lemma setVolume_factor_in_unit s (v : Z) :
  factor_in_unit s -> factor_in_unit (setVolume v s).
Proof.
  unfold factor_in_unit, setVolume. intros Hs.
  destruct (myIsInitializedFlag s); [|exact Hs].
  destruct (Z.leb_spec (to_uInt32 v) 100) as [Hle|]; [|exact Hs].
  simpl. destruct (AudioSettings.enabled (myAudioSettings s)).
  - apply percent_factor_unit. unfold to_uInt32 in *.
    pose proof (Z.mod_pos_bound v (2 ^ 32)). lia.
  - reflexivity.
Qed.

Lemma setVolume_flag s (v : Z) :
  myIsInitializedFlag (setVolume v s) = myIsInitializedFlag s.
Proof.
  unfold setVolume.
  destruct (myIsInitializedFlag s) eqn:Hinit; [|assumption].
  destruct (to_uInt32 v <=? 100); simpl; assumption.
Qed.

Lemma mute_factor_in_unit s (enable : bool) :
  factor_in_unit s -> factor_in_unit (mute enable s).
Proof.
  intros Hs. destruct enable; simpl.
  - reflexivity.
  - now apply setVolume_factor_in_unit.
Qed.

Lemma pause_factor s (enable : bool) :
  myVolumeFactor (snd (pause enable s)) = myVolumeFactor s.
Proof. unfold pause. now destruct (myIsInitializedFlag s). Qed.

Lemma pause_flag s (enable : bool) :
  myIsInitializedFlag (snd (pause enable s)) = myIsInitializedFlag s.
Proof. unfold pause. now destruct (myIsInitializedFlag s) eqn:E. Qed.

Lemma setEnabled_factor_in_unit s (enable : bool) :
  factor_in_unit s -> factor_in_unit (setEnabled enable s).
Proof.
  intros Hs. unfold setEnabled, factor_in_unit. rewrite pause_factor.
  now apply mute_factor_in_unit.
Qed.

Lemma setEnabled_true_flag s :
  myIsInitializedFlag (setEnabled true s) = myIsInitializedFlag s.
Proof.
  unfold setEnabled. rewrite pause_flag. simpl. apply setVolume_flag.
Qed.

Lemma openDevice_factor (sdl : SDL) s s' :
  state_of (openDevice sdl s) = Some s' ->
  myVolumeFactor s' = myVolumeFactor s.
Proof.
  unfold openDevice.
  set (s2 := set_myDeviceId _ _).
  assert (Hs2 : myVolumeFactor s2 = myVolumeFactor s)
    by (subst s2; simpl; now destruct (myIsInitializedFlag s)).
  assert (Hopened : forall device r,
    state_of
      (let answer := SDL_OpenAudioDevice sdl device
                       (Build_SDL_AudioSpec
                          (AudioSettings.sampleRate (myAudioSettings s))
                          AUDIO_F32SYS 2 0
                          (AudioSettings.fragmentSize (myAudioSettings s)
                           mod 2 ^ 16)) in
       let s3 := set_myHardwareSpec (snd answer)
                   (set_myDevice (fst answer) s2) in
       if myDevice s3 =? 0 then Ok (set_myIsInitializedFlag false s3)
       else Ok (set_myIsInitializedFlag true
                  (set_myDeviceStatus SDL_AUDIO_PAUSED s3))) = Some r ->
    myVolumeFactor r = myVolumeFactor s).
  { intros device r. cbv zeta.
    destruct (_ =? 0); simpl; intros [= <-]; exact Hs2. }
  destruct (myDeviceId s2 =? 0); [apply Hopened|].
  destruct (deviceName s2 (myDeviceId s2)); [apply Hopened|].
  simpl. intros [= <-]. exact Hs2.
Qed.

Lemma initResampler_factor s s' :
  state_of (initResampler s) = Some s' ->
  myVolumeFactor s' = myVolumeFactor s.
Proof.
  unfold initResampler.
  destruct (myEmulationTiming s), (myAudioQueue s); try discriminate.
  repeat (destruct (_ =? _)); simpl; now intros [= <-].
Qed.

Lemma open_factor_in_unit (sdl : SDL) (q : Q) (t : EmulationTiming.t) s s' :
  factor_in_unit s ->
  state_of (open sdl q t s) = Some s' ->
  factor_in_unit s'.
Proof.
  intros Hs. unfold open.
  set (reopened := if _ : bool then openDevice sdl s else Ok s).
  assert (Hre : forall x, state_of reopened = Some x ->
                          myVolumeFactor x = myVolumeFactor s).
  { subst reopened. destruct (_ || _); [apply openDevice_factor|].
    now intros x [= <-]. }
  destruct reopened as [s1|what s1|]; simpl; [| |discriminate].
  - specialize (Hre s1 eq_refl).
    destruct (negb _).
    + simpl. intros [= <-]. unfold factor_in_unit. simpl. now rewrite Hre.
    + set (s5 := setVolume _ _).
      assert (Hs5 : factor_in_unit s5).
      { subst s5. apply setVolume_factor_in_unit.
        unfold factor_in_unit. simpl. now rewrite Hre. }
      pose proof (initResampler_factor s5) as Hinit.
      destruct (initResampler s5) as [s6|what s6|]; simpl; [| |discriminate].
      * specialize (Hinit s6 eq_refl).
        destruct (about_throws s6); simpl; intros [= <-];
          unfold factor_in_unit; rewrite ?pause_factor, Hinit; exact Hs5.
      * specialize (Hinit s6 eq_refl). intros [= <-].
        unfold factor_in_unit. rewrite Hinit. exact Hs5.
  - intros [= <-]. unfold factor_in_unit. now rewrite (Hre s1 eq_refl).
Qed.

Lemma nextFragmentCallback_factor s next s' :
  nextFragmentCallback s = Some (next, s') ->
  myVolumeFactor s' = myVolumeFactor s.
Proof.
  unfold nextFragmentCallback.
  destruct (myAudioQueue s) as [q|]; [simpl|discriminate].
  destruct (myUnderrun s); simpl.
  - destruct (myEmulationTiming s) as [t|]; [simpl|discriminate].
    intros [= _ <-]. now destruct (fst _).
  - intros [= _ <-]. now destruct (fst _).
Qed.

(** The calls of the closure made by a [fillFragment] leave the volume
    factor alone. *)
Lemma runFill_factor (fill : Resampler.Fill R) s r buf s' :
  runFill fill s = Some (r, buf, s') ->
  myVolumeFactor s' = myVolumeFactor s.
Proof.
  revert s. induction fill as [r0 buf0|continue IH]; intros s; cbn [runFill].
  - now intros [= _ _ <-].
  - destruct (nextFragmentCallback s) as [[next s1]|] eqn:Hpull;
      [|discriminate].
    cbn. intros Hrun. rewrite (IH next s1 Hrun).
    exact (nextFragmentCallback_factor _ _ _ Hpull).
Qed.

(** C6 (amended): [setVolume] accepts only values in [0,100].  On an
    initialized device a value of at most 100 is stored as given, and the
    volume factor becomes value/100 when audio is enabled and 0 otherwise;
    a call with a value above 100 is ignored: the stored volume and the
    volume factor stay as they were.  So the stored volume never rises
    above 100, but a request above 100 is dropped rather than turned
    into 100. *)
Theorem setVolume_accepts_only_0_100 s (v : Z) :
  in_uInt32 v ->
  (v <= 100 -> myIsInitializedFlag s = true ->
   stored_volume (setVolume v s) = v
   /\ myVolumeFactor (setVolume v s)
      = (if AudioSettings.enabled (myAudioSettings s)
         then F32.div (F32.of_Z v) (F32.of_Z 100) else F32.zero))
  /\ (100 < v -> setVolume v s = s)
  /\ (stored_volume s <= 100 -> stored_volume (setVolume v s) <= 100).
Proof.
  intros Hv. split; [|split].
  - intros Hle Hinit.
    destruct (setVolume_stored s v Hinit Hv Hle) as (Hvol & Hfactor & _).
    split; assumption.
  - now apply setVolume_ignored.
  - intros Hold. destruct (Z.le_gt_cases v 100) as [Hle|Hgt].
    + destruct (myIsInitializedFlag s) eqn:Hinit.
      * destruct (setVolume_stored s v Hinit Hv Hle) as (-> & _). exact Hle.
      * now rewrite setVolume_not_initialized.
    + rewrite setVolume_ignored by (assumption || lia). exact Hold.
Qed.

(** C7: with the sound device initialized (and still initialized when
    [Console::initializeAudio] returns), and a current volume [v] in
    [0,100], [adjustVolume direction] stores [v + direction*2] clamped to
    [0,100]; so the stored volume changes by exactly [direction*2]
    whenever that stays within [0,100].  The [int] arithmetic is assumed
    not to overflow. *)
Theorem adjustVolume_steps_by_two
    (initializeAudio : SoundSDL Q R -> result (SoundSDL Q R))
    (direction : Z) s :
  0 <= stored_volume s <= 100 ->
  in_Int32 (direction * 2) ->
  in_Int32 (stored_volume s + direction * 2) ->
  myIsInitializedFlag s = true ->
  (forall x, myIsInitializedFlag x = true ->
     exists y, initializeAudio x = Ok y /\ myIsInitializedFlag y = true) ->
  exists s',
    adjustVolume initializeAudio direction s = Ok s'
    /\ stored_volume s' = clamp (stored_volume s + direction * 2) 0 100
    /\ (0 <= stored_volume s + direction * 2 <= 100 ->
        stored_volume s' = stored_volume s + direction * 2).
Proof.
  intros Hv Hd Hsum Hinit Hia. unfold adjustVolume.
  fold (stored_volume s).
  rewrite (to_Int32_id (stored_volume s)) by (unfold in_Int32; lia).
  rewrite (to_Int32_id (direction * 2)) by assumption.
  rewrite (to_Int32_id (stored_volume s + direction * 2)) by assumption.
  set (percent := clamp (stored_volume s + direction * 2) 0 100).
  assert (Hp : 0 <= percent <= 100) by (apply clamp_range; lia).
  assert (Hstore : forall x : SoundSDL Q R, myIsInitializedFlag x = true ->
                     stored_volume (setVolume percent x) = percent).
  { intros x Hx. apply setVolume_stored; [assumption| |lia].
    unfold in_uInt32. lia. }
  assert (Hexact : 0 <= stored_volume s + direction * 2 <= 100 ->
                   percent = stored_volume s + direction * 2)
    by (intros Hin; subst percent; now apply clamp_inside).
  destruct (_ && _).
  - destruct (Hia (setEnabled true s)) as (y & -> & Hy).
    { now rewrite setEnabled_true_flag. }
    simpl. exists (setVolume percent y).
    rewrite (Hstore y Hy). auto.
  - simpl. exists (setVolume percent s).
    rewrite (Hstore s Hinit). auto.
Qed.

Context `{!Float32Layout}.

(** The device callback leaves the volume factor alone. *)
Lemma callback_factor s (stream : list Z) (len : Z) s' (out : list Z) :
  callback s stream len = Some (s', out) ->
  myVolumeFactor s' = myVolumeFactor s.
Proof.
  unfold callback.
  destruct (myAudioQueue s); [|now intros [= <- _]].
  destruct (myResampler s) as [r|]; [|now intros [= <- _]].
  destruct (runFill _ s) as [[[r' buf] s1]|] eqn:Hrun; [|discriminate].
  cbn. intros [= <- _]. cbn. exact (runFill_factor _ _ _ _ _ Hrun).
Qed.

Lemma perform_factor_in_unit
    (initializeAudio : SoundSDL Q R -> result (SoundSDL Q R))
    (op : Operation) s s' :
  (forall x y, factor_in_unit x -> state_of (initializeAudio x) = Some y ->
               factor_in_unit y) ->
  factor_in_unit s ->
  state_of (perform initializeAudio op s) = Some s' ->
  factor_in_unit s'.
Proof.
  intros Hia Hs. destruct op; simpl.
  - intros [= <-]. now apply setEnabled_factor_in_unit.
  - now apply open_factor_in_unit.
  - intros [= <-]. now apply mute_factor_in_unit.
  - intros [= <-]. now apply mute_factor_in_unit.
  - intros [= <-]. unfold factor_in_unit. now rewrite pause_factor.
  - intros [= <-]. now apply setVolume_factor_in_unit.
  - unfold adjustVolume.
    set (p := clamp _ 0 100). destruct (_ && _).
    + pose proof (Hia (setEnabled true s)) as Hy.
      destruct (initializeAudio (setEnabled true s)) as [y|what y|];
        simpl; [| |discriminate]; intros [= <-].
      * apply setVolume_factor_in_unit, Hy; [|reflexivity].
        now apply setEnabled_factor_in_unit.
      * apply Hy; [|reflexivity]. now apply setEnabled_factor_in_unit.
    + simpl. intros [= <-]. now apply setVolume_factor_in_unit.
  - destruct (nextFragmentCallback s) as [[next s1]|] eqn:Hpull;
      [|discriminate].
    simpl. intros [= <-]. unfold factor_in_unit.
    now rewrite (nextFragmentCallback_factor _ _ _ Hpull).
  - destruct (callback s stream len) as [[s1 out]|] eqn:Hcall;
      [|discriminate].
    simpl. intros [= <-]. unfold factor_in_unit.
    now rewrite (callback_factor _ _ _ _ _ Hcall).
  - unfold playWav. destruct (myDeviceId s =? 0).
    + simpl. intros [= <-]. exact Hs.
    + destruct (deviceName s (myDeviceId s)); simpl; intros [= <-]; exact Hs.
  - intros [= <-]. exact Hs.
  - destruct (WavHandlerSDL.callback _ _ _ _ _); [|discriminate].
    simpl. intros [= <-]. exact Hs.
Qed.

(** C9: the volume factor stays in [0,1].  It starts at 0; [mute],
    [setVolume], [adjustVolume], [open] and every other operation of the
    sound object leave it in [0,1], provided [Console::initializeAudio],
    which [adjustVolume] may call, does so too. *)
Theorem volume_factor_in_unit_interval
    (initializeAudio : SoundSDL Q R -> result (SoundSDL Q R)) s :
  (forall x y, factor_in_unit x -> state_of (initializeAudio x) = Some y ->
               factor_in_unit y) ->
  reachable initializeAudio s ->
  factor_in_unit s.
Proof.
  intros Hia Hreach. induction Hreach as [s Hzero|s s' op _ IH Hstep].
  - unfold factor_in_unit. now rewrite Hzero.
  - exact (perform_factor_in_unit initializeAudio op s s' Hia IH Hstep).
Qed.

End VolumeProperties.

Section PullProperties.

Context {Q R : Type} `{!AudioQueue.Ops Q} `{!Resampler.Ops R}.

Implicit Types s : SoundSDL Q R.

(** The pull callback returns whenever the queue and the timing
    information are attached, and this is what it returns. *)
Lemma nextFragmentCallback_returns s (q : Q) (t : EmulationTiming.t) :
  myAudioQueue s = Some q ->
  myEmulationTiming s = Some t ->
  let pulled :=
    if myUnderrun s
       && (AudioQueue.size q <? EmulationTiming.prebufferFragmentCount t)
    then (None, q)
    else AudioQueue.dequeue q (myCurrentFragment s) in
  exists s',
    nextFragmentCallback s = Some (fst pulled, s')
    /\ myAudioQueue s' = Some (snd pulled)
    /\ myUnderrun s' = bool_decide (fst pulled = None)
    /\ myCurrentFragment s'
       = match fst pulled with
         | Some f => Some f
         | None => myCurrentFragment s
         end.
Proof.
  intros Hq Ht. unfold nextFragmentCallback. rewrite Hq. simpl.
  destruct (myUnderrun s); simpl.
  - rewrite Ht. simpl. rewrite Z.geb_leb, Z.leb_antisym.
    destruct (_ <? _); simpl.
    + eexists. repeat split.
    + destruct (AudioQueue.dequeue q (myCurrentFragment s)) as [[f|] q'];
        simpl; eexists; repeat split.
  - destruct (AudioQueue.dequeue q (myCurrentFragment s)) as [[f|] q'];
      simpl; eexists; repeat split.
Qed.

(** C1: the underrun policy of the pull callback.  In underrun the
    callback dequeues only when the queue holds at least the prebuffer
    count of fragments, and otherwise returns empty and leaves the queue
    alone; out of underrun it always dequeues one fragment; afterwards
    the underrun flag is set exactly when the pull returned empty. *)
Theorem nextFragmentCallback_underrun_policy s (q : Q)
    (t : EmulationTiming.t) :
  myAudioQueue s = Some q ->
  myEmulationTiming s = Some t ->
  exists next s',
    nextFragmentCallback s = Some (next, s')
    /\ (myUnderrun s = true ->
        AudioQueue.size q < EmulationTiming.prebufferFragmentCount t ->
        next = None /\ myAudioQueue s' = Some q)
    /\ (myUnderrun s = true ->
        EmulationTiming.prebufferFragmentCount t <= AudioQueue.size q ->
        next = fst (AudioQueue.dequeue q (myCurrentFragment s))
        /\ myAudioQueue s'
           = Some (snd (AudioQueue.dequeue q (myCurrentFragment s))))
    /\ (myUnderrun s = false ->
        next = fst (AudioQueue.dequeue q (myCurrentFragment s))
        /\ myAudioQueue s'
           = Some (snd (AudioQueue.dequeue q (myCurrentFragment s))))
    /\ (myUnderrun s' = true <-> next = None)
    /\ (forall f, next = Some f -> myUnderrun s' = false).
Proof.
  intros Hq Ht.
  destruct (nextFragmentCallback_returns s q t Hq Ht)
    as (s' & Hcall & Hqueue & Hunder & _).
  cbv zeta in *.
  eexists _, s'. split; [exact Hcall|].
  rewrite Hqueue, Hunder. clear Hcall Hqueue Hunder.
  split_and!.
  - intros -> Hlt. simpl.
    destruct (Z.ltb_spec (AudioQueue.size q)
                (EmulationTiming.prebufferFragmentCount t)); [|lia].
    now split.
  - intros -> Hge. simpl.
    destruct (Z.ltb_spec (AudioQueue.size q)
                (EmulationTiming.prebufferFragmentCount t)); [lia|].
    now split.
  - intros ->. now split.
  - split; [apply bool_decide_eq_true_1|apply bool_decide_eq_true_2].
  - intros f ->. now apply bool_decide_eq_false_2.
Qed.

(** C10: a pull that returns empty leaves [myCurrentFragment] as it was;
    a pull that returns a fragment makes it the current one; so the
    pointer changes only when a dequeue yields a fragment. *)
Theorem nextFragmentCallback_current_fragment s (q : Q)
    (t : EmulationTiming.t) :
  myAudioQueue s = Some q ->
  myEmulationTiming s = Some t ->
  exists next s',
    nextFragmentCallback s = Some (next, s')
    /\ (next = None -> myCurrentFragment s' = myCurrentFragment s)
    /\ (forall f, next = Some f -> myCurrentFragment s' = Some f)
    /\ (myCurrentFragment s' <> myCurrentFragment s ->
        exists f, next = Some f).
Proof.
  intros Hq Ht.
  destruct (nextFragmentCallback_returns s q t Hq Ht)
    as (s' & Hcall & _ & _ & Hcurrent).
  cbv zeta in *.
  eexists _, s'. split; [exact Hcall|].
  rewrite Hcurrent. clear Hcall Hcurrent.
  destruct (fst _) as [f|]; split_and!.
  - discriminate.
  - now intros f' [= ->].
  - intros _. now exists f.
  - reflexivity.
  - discriminate.
  - intros Hne. now contradict Hne.
Qed.

End PullProperties.

Section ResamplerProperties.

Context {Q R : Type} `{!AudioQueue.Ops Q} `{!Resampler.Ops R}.

Implicit Types s : SoundSDL Q R.

Lemma openDevice_settings (sdl : SDL) s s' :
  state_of (openDevice sdl s) = Some s' ->
  myAudioSettings s' = myAudioSettings s.
Proof.
  unfold openDevice.
  set (s2 := set_myDeviceId _ _).
  assert (Hs2 : myAudioSettings s2 = myAudioSettings s)
    by (subst s2; simpl; now destruct (myIsInitializedFlag s)).
  destruct (myDeviceId s2 =? 0).
  - cbv zeta. destruct (_ =? 0); simpl; intros [= <-]; exact Hs2.
  - destruct (deviceName s2 (myDeviceId s2)).
    + cbv zeta. destruct (_ =? 0); simpl; intros [= <-]; exact Hs2.
    + simpl. intros [= <-]. exact Hs2.
Qed.

Lemma openDevice_defined (sdl : SDL) s : openDevice sdl s <> Undefined.
Proof.
  unfold openDevice. destruct (_ =? 0).
  - cbv zeta. now destruct (_ =? 0).
  - destruct (deviceName _ _); [|discriminate].
    cbv zeta. now destruct (_ =? 0).
Qed.

Lemma setVolume_quality s (v : Z) :
  AudioSettings.resamplingQuality (myAudioSettings (setVolume v s))
  = AudioSettings.resamplingQuality (myAudioSettings s).
Proof.
  unfold setVolume. destruct (_ && _); reflexivity.
Qed.

Lemma setVolume_pipeline s (v : Z) :
  myAudioQueue (setVolume v s) = myAudioQueue s
  /\ myEmulationTiming (setVolume v s) = myEmulationTiming s.
Proof.
  unfold setVolume. destruct (_ && _); split; reflexivity.
Qed.

Lemma initResampler_unrecognized s (q : Q) (t : EmulationTiming.t) :
  myAudioQueue s = Some q ->
  myEmulationTiming s = Some t ->
  ~ AudioSettings.recognized (AudioSettings.resamplingQuality (myAudioSettings s)) ->
  initResampler s = Throw "invalid resampling quality" s.
Proof.
  intros Hq Ht Hbad. unfold initResampler. rewrite Hq, Ht.
  unfold AudioSettings.recognized in Hbad.
  destruct (Z.eqb_spec (AudioSettings.resamplingQuality (myAudioSettings s))
              AudioSettings.nearestNeighbour); [tauto|].
  destruct (Z.eqb_spec (AudioSettings.resamplingQuality (myAudioSettings s))
              AudioSettings.lanczos_2); [tauto|].
  destruct (Z.eqb_spec (AudioSettings.resamplingQuality (myAudioSettings s))
              AudioSettings.lanczos_3); [tauto|].
  reflexivity.
Qed.

(** C8: the quality selector decides the resampler when the pipeline is
    opened.  Nearest-neighbour builds a [SimpleResampler], lanczos-2 and
    lanczos-3 build a [LanczosResampler] with parameter 2 and 3; any
    other selector makes [initResampler] throw "invalid resampling
    quality" without building a resampler, and [open] with sound enabled
    then ends in an exception instead of returning. *)
Theorem initResampler_quality s (q : Q) (t : EmulationTiming.t) :
  myAudioQueue s = Some q ->
  myEmulationTiming s = Some t ->
  let quality := AudioSettings.resamplingQuality (myAudioSettings s) in
  let formatFrom :=
    Resampler.Build_Format (EmulationTiming.audioSampleRate t)
      (AudioQueue.fragmentSize q) (AudioQueue.isStereo q) in
  let formatTo :=
    Resampler.Build_Format (freq (myHardwareSpec s))
      (samples (myHardwareSpec s)) (channels (myHardwareSpec s) >? 1) in
  (quality = AudioSettings.nearestNeighbour ->
   initResampler s
   = Ok (set_myResampler
           (Some (Resampler.SimpleResampler formatFrom formatTo)) s))
  /\ (quality = AudioSettings.lanczos_2 ->
      initResampler s
      = Ok (set_myResampler
              (Some (Resampler.LanczosResampler formatFrom formatTo 2)) s))
  /\ (quality = AudioSettings.lanczos_3 ->
      initResampler s
      = Ok (set_myResampler
              (Some (Resampler.LanczosResampler formatFrom formatTo 3)) s))
  /\ (~ AudioSettings.recognized quality ->
      initResampler s = Throw "invalid resampling quality" s
      /\ forall (sdl : SDL) (audioQueue : Q)
                (emulationTiming : EmulationTiming.t),
           AudioSettings.enabled (myAudioSettings s) = true ->
           exists what s', open sdl audioQueue emulationTiming s
                           = Throw what s'
                           /\ myResampler s' = myResampler s).
Proof.
  intros Hq Ht quality formatFrom formatTo. split_and!.
  - intros E. unfold initResampler. rewrite Hq, Ht. fold quality.
    now rewrite E.
  - intros E. unfold initResampler. rewrite Hq, Ht. fold quality.
    now rewrite E.
  - intros E. unfold initResampler. rewrite Hq, Ht. fold quality.
    now rewrite E.
  - intros Hbad. split; [now apply (initResampler_unrecognized s q t)|].
    intros sdl audioQueue emulationTiming Henabled. unfold open.
    set (reopened := if _ : bool then openDevice sdl s else Ok s).
    assert (Hre : forall x, state_of reopened = Some x ->
              myAudioSettings x = myAudioSettings s
              /\ myResampler x = myResampler s).
    { subst reopened. destruct (_ || _).
      - intros x Hx. split; [now apply (openDevice_settings sdl)|].
        revert Hx. unfold openDevice.
        destruct (_ =? 0).
        + cbv zeta. destruct (_ =? 0); simpl; intros [= <-];
            simpl; now destruct (myIsInitializedFlag s).
        + destruct (deviceName _ _).
          * cbv zeta. destruct (_ =? 0); simpl; intros [= <-];
              simpl; now destruct (myIsInitializedFlag s).
          * simpl. intros [= <-]. simpl.
            now destruct (myIsInitializedFlag s).
      - now intros x [= <-]. }
    assert (Hdef : reopened <> Undefined).
    { subst reopened. destruct (_ || _); [apply openDevice_defined|].
      discriminate. }
    destruct reopened as [s1|what s1|]; [| |contradiction].
    + destruct (Hre s1 eq_refl) as [Hsettings Hres].
      simpl. rewrite Henabled. simpl.
      set (s5 := setVolume _ _).
      erewrite (initResampler_unrecognized s5).
      * simpl. exists "invalid resampling quality"%string, s5.
        split; [reflexivity|]. subst s5. unfold setVolume.
        destruct (_ && _); simpl; exact Hres.
      * subst s5. rewrite (proj1 (setVolume_pipeline _ _)). reflexivity.
      * subst s5. rewrite (proj2 (setVolume_pipeline _ _)). reflexivity.
      * subst s5. rewrite setVolume_quality. simpl. now rewrite Hsettings.
    + destruct (Hre s1 eq_refl) as [_ Hres].
      simpl. exists what, s1. now split.
Qed.

End ResamplerProperties.

Section CallbackProperties.

Context {Q R : Type} `{!AudioQueue.Ops Q} `{!Resampler.Ops R}.
Context `{!Float32Layout}.

Implicit Types s : SoundSDL Q R.
Implicit Types stream : list Z.

Lemma write_cell_length stream (i : Z) (c : Z * Z * Z * Z) :
  length (write_cell stream i c) = length stream.
Proof.
  destruct c as [[[b0 b1] b2] b3]. unfold write_cell.
  now rewrite !length_insert.
Qed.

Lemma write_cell_lookup_other stream (i : Z) (c : Z * Z * Z * Z) (j : nat) :
  0 <= i -> Z.of_nat j < 4 * i \/ 4 * i + 4 <= Z.of_nat j ->
  write_cell stream i c !! j = stream !! j.
Proof.
  intros Hi Hj. destruct c as [[[b0 b1] b2] b3]. unfold write_cell.
  rewrite !list_lookup_insert_ne by lia. reflexivity.
Qed.

Lemma cell_ext stream stream' (i : Z) :
  0 <= i ->
  (forall j : nat, 4 * i <= Z.of_nat j < 4 * i + 4 ->
                   stream' !! j = stream !! j) ->
  cell stream' i = cell stream i.
Proof.
  intros Hi Hsame. unfold cell.
  rewrite !Hsame by lia. reflexivity.
Qed.

Lemma cell_write_cell stream (i : Z) (c : Z * Z * Z * Z) :
  0 <= i -> 4 * i + 4 <= Z.of_nat (length stream) ->
  cell (write_cell stream i c) i = c.
Proof.
  intros Hi Hlen. destruct c as [[[b0 b1] b2] b3]. unfold cell, write_cell.
  replace (4 * i + 0) with (4 * i) by lia.
  rewrite (list_lookup_insert_ne _ (Z.to_nat (4 * i + 3)) (Z.to_nat (4 * i)))
    by lia.
  rewrite (list_lookup_insert_ne _ (Z.to_nat (4 * i + 2)) (Z.to_nat (4 * i)))
    by lia.
  rewrite (list_lookup_insert_ne _ (Z.to_nat (4 * i + 1)) (Z.to_nat (4 * i)))
    by lia.
  rewrite list_lookup_insert_eq by lia.
  rewrite (list_lookup_insert_ne _ (Z.to_nat (4 * i + 3))
             (Z.to_nat (4 * i + 1))) by lia.
  rewrite (list_lookup_insert_ne _ (Z.to_nat (4 * i + 2))
             (Z.to_nat (4 * i + 1))) by lia.
  rewrite list_lookup_insert_eq by (rewrite ?length_insert; lia).
  rewrite (list_lookup_insert_ne _ (Z.to_nat (4 * i + 3))
             (Z.to_nat (4 * i + 2))) by lia.
  rewrite list_lookup_insert_eq by (rewrite ?length_insert; lia).
  rewrite list_lookup_insert_eq by (rewrite ?length_insert; lia).
  reflexivity.
Qed.

(** The scaling loop: it keeps the length, multiplies the samples
    [from .. from + steps - 1] and leaves every other byte alone. *)
Lemma scale_spec (factor : spec_float) (steps : nat) :
  forall (from : Z) stream,
    0 <= from ->
    4 * (from + Z.of_nat steps) <= Z.of_nat (length stream) ->
    length (scale steps from factor stream) = length stream
    /\ (forall i, from <= i < from + Z.of_nat steps ->
          cell (scale steps from factor stream) i
          = multiply_cell (cell stream i) factor)
    /\ (forall j : nat,
          Z.of_nat j < 4 * from
          \/ 4 * (from + Z.of_nat steps) <= Z.of_nat j ->
          scale steps from factor stream !! j = stream !! j).
Proof.
  induction steps as [|k IH]; intros from stream Hfrom Hlen.
  - simpl. split_and!; [reflexivity|lia|reflexivity].
  - cbn [scale].
    set (c := multiply_cell (cell stream from) factor).
    destruct (IH (from + 1) (write_cell stream from c))
      as (Hlength & Hscaled & Hother).
    { lia. }
    { rewrite write_cell_length. lia. }
    rewrite write_cell_length in Hlength.
    split_and!.
    + exact Hlength.
    + intros i Hi. destruct (Z.eq_dec i from) as [->|Hne].
      * rewrite (cell_ext (write_cell stream from c)) by
          (try lia; intros j Hj; apply Hother; lia).
        apply cell_write_cell; lia.
      * rewrite Hscaled by lia.
        rewrite (cell_ext stream (write_cell stream from c)); [reflexivity|lia|].
        intros j Hj. apply write_cell_lookup_other; lia.
    + intros j Hj. rewrite Hother by lia.
      apply write_cell_lookup_other; lia.
Qed.

Lemma shiftr_2_quarter (len : Z) :
  0 <= len < 2 ^ 31 -> to_uInt32 (Z.shiftr len 2) = len / 4.
Proof.
  intros Hlen. rewrite Z.shiftr_div_pow2 by lia.
  change (2 ^ 2) with 4. apply to_uInt32_id. unfold in_uInt32.
  split; [apply Z.div_pos; lia|].
  apply Z.div_lt_upper_bound; lia.
Qed.

(** A product that is not a NaN is stored as IEEE 754 gives it. *)
Lemma multiply_cell_number (c : Z * Z * Z * Z) (factor : spec_float) :
  F32.mul (float_of_bytes c) factor <> S754_nan ->
  multiply_cell c factor = bytes_of_float (F32.mul (float_of_bytes c) factor).
Proof.
  unfold multiply_cell. intros Hnan.
  now destruct (F32.mul (float_of_bytes c) factor).
Qed.

(** What a call of the closure leaves alone. *)
Lemma nextFragmentCallback_keeps s (next : option Fragment) s' :
  nextFragmentCallback s = Some (next, s') ->
  myResampler s' = myResampler s
  /\ myEmulationTiming s' = myEmulationTiming s
  /\ exists q', myAudioQueue s' = Some q'.
Proof.
  unfold nextFragmentCallback.
  destruct (myAudioQueue s) as [q|]; [simpl|discriminate].
  destruct (myUnderrun s); simpl.
  - destruct (myEmulationTiming s) as [t|] eqn:Ht; [simpl|discriminate].
    intros [= _ <-]. destruct (fst _); simpl; split_and!; eauto.
  - intros [= _ <-]. destruct (fst _); simpl; split_and!; eauto.
Qed.

(** With the queue and the timing information attached, a
    [fillFragment] runs to its end, however often it calls the
    closure. *)
Lemma runFill_returns (fill : Resampler.Fill R) s (q : Q)
    (t : EmulationTiming.t) :
  myAudioQueue s = Some q ->
  myEmulationTiming s = Some t ->
  exists (r' : R) (filled : list Z) s1,
    runFill fill s = Some (r', filled, s1).
Proof.
  revert s q. induction fill as [r0 buf0|continue IH]; intros s q Hq Ht;
    cbn [runFill].
  - eauto.
  - destruct (nextFragmentCallback_returns s q t Hq Ht)
      as (s' & Hcall & _).
    cbv zeta in Hcall. rewrite Hcall. cbn.
    destruct (nextFragmentCallback_keeps _ _ _ Hcall)
      as (_ & Htiming & q' & Hq').
    apply (IH _ s' q' Hq'). now rewrite Htiming.
Qed.

(** C2: the realtime device callback on a buffer of [len] bytes.
    Without a queue or without a resampler the whole buffer becomes
    zeros and the object is left as it was.  Otherwise the resampler's
    [fillFragment] runs first, asked for [len/4] floats; it calls the
    pull closure as it needs, which works on the object, and it runs to
    its end when the timing information is attached.  After that each of
    the [len/4] samples the resampler left in the buffer is multiplied by
    the volume factor, which the fill has not changed: the four bytes of
    a sample become those of the IEEE 754 product, unless the product is
    a NaN, whose bytes are the platform's.  Nothing else in the buffer is
    touched after the resampler has run. *)
Theorem callback_silence_or_scaled s stream (len : Z) :
  0 <= len < 2 ^ 31 ->
  Z.of_nat (length stream) = len ->
  (myAudioQueue s = None \/ myResampler s = None ->
   callback s stream len = Some (s, replicate (Z.to_nat len) 0))
  /\ (forall (q : Q) (r : R) (t : EmulationTiming.t),
        myAudioQueue s = Some q ->
        myResampler s = Some r ->
        myEmulationTiming s = Some t ->
        exists (r' : R) (filled : list Z) s1,
          runFill (Resampler.fillFragment r stream (len / 4)) s
          = Some (r', filled, s1))
  /\ (forall (q : Q) (r r' : R) (filled : list Z) s1,
        myAudioQueue s = Some q ->
        myResampler s = Some r ->
        runFill (Resampler.fillFragment r stream (len / 4)) s
        = Some (r', filled, s1) ->
        length filled = length stream ->
        exists out,
          callback s stream len = Some (set_myResampler (Some r') s1, out)
          /\ myVolumeFactor s1 = myVolumeFactor s
          /\ length out = length stream
          /\ (forall i, 0 <= i < len / 4 ->
                cell out i = multiply_cell (cell filled i) (myVolumeFactor s)
                /\ (F32.mul (read_float filled i) (myVolumeFactor s)
                      <> S754_nan ->
                    cell out i
                    = bytes_of_float
                        (F32.mul (read_float filled i) (myVolumeFactor s))))
          /\ (forall j : nat, 4 * (len / 4) <= Z.of_nat j ->
                out !! j = filled !! j)).
Proof.
  intros Hlen Hstream. split_and!.
  - intros Hnone. unfold callback, SDL_memset.
    rewrite drop_ge by lia. rewrite app_nil_r.
    destruct Hnone as [-> | Hr]; [reflexivity|].
    rewrite Hr. now destruct (myAudioQueue s).
  - intros q r t Hq _ Ht. exact (runFill_returns _ s q t Hq Ht).
  - intros q r r' filled s1 Hq Hr Hrun Hfilled. unfold callback.
    rewrite Hq, Hr, shiftr_2_quarter by assumption. rewrite Hrun. cbn.
    pose proof (runFill_factor _ _ _ _ _ Hrun) as Hfactor.
    rewrite Hfactor.
    assert (Hquarter : 0 <= len / 4) by (apply Z.div_pos; lia).
    assert (Hfit : 4 * (len / 4) <= len)
      by (apply Z.mul_div_le; lia).
    destruct (scale_spec (myVolumeFactor s) (Z.to_nat (len / 4)) 0 filled)
      as (Hlength & Hscaled & Hother).
    { lia. }
    { rewrite Hfilled. lia. }
    eexists. split; [reflexivity|]. split_and!.
    + reflexivity.
    + now rewrite Hlength.
    + intros i Hi.
      assert (Hcell : cell (scale (Z.to_nat (len / 4)) 0 (myVolumeFactor s)
                              filled) i
                      = multiply_cell (cell filled i) (myVolumeFactor s))
        by (apply Hscaled; lia).
      split; [exact Hcell|].
      intros Hnan. rewrite Hcell. now apply multiply_cell_number.
    + intros j Hj. apply Hother. lia.
Qed.

End CallbackProperties.

(** ** The clip player *)

Section WavHandlerProperties.

Import WavHandlerSDL.

Lemma play_load_cached (sdl : SDL) (fileName : string) (w : t)
    (buf : list Z) :
  myFilename w = fileName -> myBuffer w = Some buf ->
  play_load sdl fileName w = (Some w, w).
Proof.
  intros Hname Hbuf. unfold play_load.
  rewrite Hname, String.eqb_refl, Hbuf. reflexivity.
Qed.

Lemma play_load_attempt (sdl : SDL) (fileName : string) (w : t) :
  fileName <> myFilename w \/ myBuffer w = None ->
  let w2 :=
    call (CallLoadWAV fileName)
      (set_mySpec SDL_zero
         match myBuffer w with
         | Some _ => set_myBuffer None (call CallFreeWAV w)
         | None => w
         end) in
  play_load sdl fileName w
  = match SDL_LoadWAV sdl fileName with
    | None => (None, w2)
    | Some (spec, buf) =>
        let w3 := set_myLength (Z.of_nat (length buf))
                    (set_myBuffer (Some buf) (set_mySpec spec w2)) in
        (Some w3, w3)
    end.
Proof.
  intros Hattempt. unfold play_load.
  assert (Hcond : negb (String.eqb fileName (myFilename w))
                  || bool_decide (myBuffer w = None) = true).
  { destruct Hattempt as [Hname|Hbuf].
    - apply String.eqb_neq in Hname. now rewrite Hname.
    - rewrite (bool_decide_eq_true_2 _ Hbuf). apply orb_true_r. }
  now rewrite Hcond.
Qed.

(** What a successful [play] leaves behind. *)
Lemma play_success (sdl : SDL) (fileName : string) (device : option string)
    (position length : Z) (w w1 : t) :
  play sdl fileName device position length w = (true, w1) ->
  myFilename w1 = fileName
  /\ (exists buf, myBuffer w1 = Some buf)
  /\ myDevice w1 <> 0.
Proof.
  unfold play.
  assert (Hload : forall x y, play_load sdl fileName w = (Some x, y) ->
                              exists buf, myBuffer x = Some buf).
  { unfold play_load. intros x y.
    destruct (negb _ || bool_decide _) eqn:Hcond.
    - destruct (SDL_LoadWAV sdl fileName) as [[spec buf]|]; [|discriminate].
      intros [= <- _]. now exists buf.
    - intros [= <- _]. apply orb_false_elim in Hcond as [_ Hbuf].
      apply bool_decide_eq_false_1 in Hbuf.
      destruct (myBuffer w) as [buf|]; [now exists buf|contradiction]. }
  destruct (play_load sdl fileName w) as [[x|] y]; [|discriminate].
  destruct (Hload x y eq_refl) as [buf Hbuf].
  destruct (position >? myLength x); [discriminate|].
  cbv zeta.
  destruct (Z.eqb_spec
              (myDevice (set_myPos position
                 (set_myRemaining
                    (if length =? 0 then myLength (set_myFilename fileName x)
                     else Z.min length
                            (myLength (set_myFilename fileName x) - position))
                    (set_myFilename fileName x)))) 0) as [Hdev|Hdev].
  - match goal with
    | |- context [if ?d =? 0 then _ else _] =>
        destruct (Z.eqb_spec d 0) as [Hopen|Hopen]
    end; [discriminate|].
    intros [= <-]. unfold pause.
    match goal with
    | |- context [if ?d =? 0 then _ else _] =>
        destruct (Z.eqb_spec d 0); [contradiction|]
    end.
    simpl in *. split_and!; [reflexivity|now exists buf|exact Hopen].
  - intros [= <-]. simpl in *. split_and!; [reflexivity|now exists buf|exact Hdev].
Qed.

Lemma stop_loaded (w : t) (buf : list Z) :
  myBuffer w = Some buf ->
  myBuffer (stop w) = None
  /\ myDevice (stop w) = 0
  /\ myRemaining (stop w) = 0
  /\ myFilename (stop w) = myFilename w
  /\ decodes (stop w) = decodes w.
Proof.
  intros Hbuf. unfold stop. rewrite Hbuf.
  match goal with
  | |- context [match myCvtBuffer ?x with _ => _ end] =>
      destruct (myCvtBuffer x)
  end; simpl; split_and!; reflexivity.
Qed.

Lemma play_load_decodes (sdl : SDL) (fileName : string) (w : t) :
  fileName <> myFilename w \/ myBuffer w = None ->
  decodes (snd (play_load sdl fileName w)) = decodes w + 1.
Proof.
  intros Hattempt. rewrite play_load_attempt by assumption. cbv zeta.
  assert (Hcount : forall x, decodes (call (CallLoadWAV fileName) x)
                             = decodes x + 1).
  { intros x. unfold decodes. simpl. lia. }
  destruct (SDL_LoadWAV sdl fileName) as [[spec buf]|]; simpl;
    fold (decodes w); destruct (myBuffer w); unfold decodes; simpl; lia.
Qed.

(** After the load, [play] makes no further decode. *)
Lemma play_decodes (sdl : SDL) (fileName : string) (device : option string)
    (position length : Z) (w : t) :
  decodes (snd (play sdl fileName device position length w))
  = decodes (snd (play_load sdl fileName w)).
Proof.
  unfold play. destruct (play_load sdl fileName w) as [[x|] y] eqn:Hload.
  - assert (Hxy : y = x).
    { revert Hload. unfold play_load. destruct (_ || _).
      - destruct (SDL_LoadWAV sdl fileName) as [[spec buf]|]; [|discriminate].
        now intros [= <- <-].
      - now intros [= <- <-]. }
    subst y. simpl.
    destruct (position >? myLength x); [reflexivity|].
    cbv zeta.
    match goal with
    | |- context [if ?d =? 0 then _ else _] => destruct (d =? 0)
    end; [|reflexivity].
    match goal with
    | |- context [if ?d =? 0 then _ else _] => destruct (d =? 0) eqn:Hopen
    end; [reflexivity|].
    unfold pause. simpl. rewrite Hopen. reflexivity.
  - reflexivity.
Qed.

(** When the load has produced a buffer, [play] either rejects the
    position or sets up the playback state. *)
Lemma play_loaded (sdl : SDL) (fileName : string) (device : option string)
    (position length : Z) (w x : t) :
  play_load sdl fileName w = (Some x, x) ->
  let played := play sdl fileName device position length w in
  myBuffer (snd played) = myBuffer x
  /\ (fst played = true ->
      position <= myLength x
      /\ myRemaining (snd played)
         = (if length =? 0 then myLength x
            else Z.min length (myLength x - position)))
  /\ (position <= myLength x ->
      myDevice x <> 0
      \/ fst (SDL_OpenAudioDevice sdl device (mySpec x)) <> 0 ->
      fst played = true).
Proof.
  intros Hload. unfold play. rewrite Hload.
  destruct (Z.gtb_spec position (myLength x)) as [Hpos|Hpos].
  - simpl. split_and!; [reflexivity|discriminate|lia].
  - cbv zeta.
    destruct (Z.eqb_spec
                (myDevice (set_myPos position
                   (set_myRemaining
                      (if length =? 0
                       then myLength (set_myFilename fileName x)
                       else Z.min length
                              (myLength (set_myFilename fileName x)
                               - position))
                      (set_myFilename fileName x)))) 0) as [Hdev|Hdev].
    + match goal with
      | |- context [if ?d =? 0 then _ else _] =>
          destruct (Z.eqb_spec d 0) as [Hopen|Hopen]
      end.
      * simpl in *. split_and!; [reflexivity|discriminate|].
        intros _ [Hx|Hx]; contradiction.
      * unfold pause.
        match goal with
        | |- context [if ?d =? 0 then _ else _] =>
            destruct (Z.eqb_spec d 0); [contradiction|]
        end.
        simpl. split_and!; [reflexivity| |reflexivity].
        intros _. split; [lia|reflexivity].
    + simpl. split_and!; [reflexivity| |reflexivity].
      intros _. split; [lia|reflexivity].
Qed.

(** C4 (amended): after a successful [play], [stop] releases the
    decoded buffer, so a following [play] of the same file name decodes
    the file again.  The decoded buffer is reused without a new decode
    only when [play] is called again with no [stop] in between.  Either
    way, when the new [play] succeeds with a requested length other than
    0, the remaining count is reset to the requested length cut to what
    the clip holds from the position on
    ([min(length, myLength - position)]): the full requested length
    whenever the clip holds that many frames from the position on. *)
Theorem play_after_stop_decodes_again (sdl sdl' : SDL) (fileName : string)
    (device device' : option string) (position length position' length' : Z)
    (w0 w1 : t) :
  play sdl fileName device position length w0 = (true, w1) ->
  let replay := play sdl' fileName device' position' length' (stop w1) in
  let again := play sdl' fileName device' position' length' w1 in
  myBuffer (stop w1) = None
  /\ decodes (snd replay) = decodes w1 + 1
  /\ (fst replay = true ->
      exists spec buf,
        SDL_LoadWAV sdl' fileName = Some (spec, buf)
        /\ myBuffer (snd replay) = Some buf
        /\ (length' <> 0 ->
            myRemaining (snd replay)
            = Z.min length' (Z.of_nat (List.length buf) - position'))
        /\ (0 < length' <= Z.of_nat (List.length buf) - position' ->
            myRemaining (snd replay) = length'))
  /\ (forall spec buf,
        SDL_LoadWAV sdl' fileName = Some (spec, buf) ->
        position' <= Z.of_nat (List.length buf) ->
        fst (SDL_OpenAudioDevice sdl' device' spec) <> 0 ->
        fst replay = true)
  /\ decodes (snd again) = decodes w1
  /\ myBuffer (snd again) = myBuffer w1
  /\ (position' <= myLength w1 ->
      fst again = true
      /\ (length' <> 0 ->
          myRemaining (snd again) = Z.min length' (myLength w1 - position'))
      /\ (0 < length' <= myLength w1 - position' ->
          myRemaining (snd again) = length')).
Proof.
  intros Hplayed replay again.
  destruct (play_success _ _ _ _ _ _ _ Hplayed) as (Hname & [buf1 Hbuf1] & Hdev).
  destruct (stop_loaded w1 buf1 Hbuf1)
    as (Hstopped & Hclosed & _ & Hkept & Hdecodes).
  assert (Hattempt : fileName <> myFilename (stop w1)
                     \/ myBuffer (stop w1) = None) by now right.
  assert (Hcached : play_load sdl' fileName w1 = (Some w1, w1))
    by now apply (play_load_cached sdl' fileName w1 buf1).
  assert (Hmin : forall remaining available,
            remaining = (if length' =? 0 then available
                         else Z.min length' (available - position')) ->
            (length' <> 0 ->
             remaining = Z.min length' (available - position'))
            /\ (0 < length' <= available - position' ->
                remaining = length')).
  { intros remaining available ->.
    destruct (Z.eqb_spec length' 0); split; lia. }
  split_and!.
  - exact Hstopped.
  - subst replay. rewrite play_decodes, play_load_decodes by assumption.
    now rewrite Hdecodes.
  - subst replay. intros Htrue.
    pose proof (play_load_attempt sdl' fileName (stop w1) Hattempt) as Hload.
    cbv zeta in Hload.
    destruct (SDL_LoadWAV sdl' fileName) as [[spec buf]|].
    + exists spec, buf. split; [reflexivity|].
      destruct (play_loaded sdl' fileName device' position' length' _ _ Hload)
        as (Hbuffer & Hremaining & _).
      split; [exact Hbuffer|].
      destruct (Hremaining Htrue) as [_ Hcount]. simpl in Hcount.
      exact (Hmin _ _ Hcount).
    + unfold play in Htrue. rewrite Hload in Htrue. discriminate.
  - subst replay. intros spec buf Hfile Hpos Hopen.
    pose proof (play_load_attempt sdl' fileName (stop w1) Hattempt) as Hload.
    cbv zeta in Hload. rewrite Hfile in Hload.
    destruct (play_loaded sdl' fileName device' position' length' _ _ Hload)
      as (_ & _ & Hreturns).
    apply Hreturns; [exact Hpos|]. right. exact Hopen.
  - subst again. rewrite play_decodes, Hcached. reflexivity.
  - subst again.
    now destruct (play_loaded sdl' fileName device' position' length' _ _
                    Hcached).
  - subst again. intros Hpos.
    destruct (play_loaded sdl' fileName device' position' length' _ _ Hcached)
      as (_ & Hremaining & Hreturns).
    assert (Htrue : fst (play sdl' fileName device' position' length' w1)
                    = true) by (apply Hreturns; [exact Hpos|now left]).
    split; [exact Htrue|].
    destruct (Hremaining Htrue) as [_ Hcount].
    exact (Hmin _ _ Hcount).
Qed.

(** C5 (amended): when [play] has to load the asset and the load fails,
    it returns false and leaves the file name, the position, the
    remaining count and the device handle as they were; the previously
    loaded buffer, however, has been released before the load was tried:
    afterwards no buffer is loaded and the stored format is cleared.
    Only when no buffer was loaded before is the buffer left as it
    was. *)
Theorem play_load_failure (sdl : SDL) (fileName : string)
    (device : option string) (position length : Z) (w : t) :
  fileName <> myFilename w \/ myBuffer w = None ->
  SDL_LoadWAV sdl fileName = None ->
  let played := play sdl fileName device position length w in
  fst played = false
  /\ myFilename (snd played) = myFilename w
  /\ myPos (snd played) = myPos w
  /\ myRemaining (snd played) = myRemaining w
  /\ myDevice (snd played) = myDevice w
  /\ myBuffer (snd played) = None
  /\ mySpec (snd played) = SDL_zero
  /\ (myBuffer w = None -> myBuffer (snd played) = myBuffer w).
Proof.
  intros Hattempt Hfail played. subst played. unfold play.
  rewrite play_load_attempt by assumption. rewrite Hfail. cbv zeta.
  destruct (myBuffer w) as [buf|] eqn:Hbuf; simpl;
    rewrite ?Hbuf; split_and!; try reflexivity; discriminate.
Qed.

End WavHandlerProperties.

Section SpeedProperties.

Import WavHandlerSDL.

(** The clamp written with [if] in [processWav] is a minimum. *)
Lemma clamp_to_remaining (len remaining : Z) :
  (if len >? remaining then remaining else len) = Z.min len remaining.
Proof. destruct (Z.gtb_spec len remaining); lia. Qed.

(** The rounding of the code, [SFround_half_away], is the rounding of
    the specification. *)
Lemma SFround_half_away_rounds_to (x : spec_float) (z : Z) :
  SFround_half_away x = Some z <-> rounds_to x z.
Proof.
  destruct x as [s|s| |s m e]; simpl.
  - split; [now intros [= <-]|now intros ->].
  - split; [discriminate|contradiction].
  - split; [discriminate|contradiction].
  - destruct e as [|p|p].
    + split; [intros [= <-]|intros Hz; f_equal]; destruct s; lia.
    + split; [intros [= <-]|intros Hz; f_equal]; destruct s; lia.
    + assert (Hd : 0 < 2 ^ Z.pos p) by (apply Z.pow_pos_nonneg; lia).
      set (d := 2 ^ Z.pos p) in *.
      assert (Hnear : forall a,
                (2 * Z.pos m + d) / (2 * d) = a
                <-> d * (2 * a - 1) <= 2 * Z.pos m < d * (2 * a + 1)).
      { intros a. split.
        - intros <-.
          pose proof (Z.mul_div_le (2 * Z.pos m + d) (2 * d)) as Hle.
          pose proof (Z.mul_succ_div_gt (2 * Z.pos m + d) (2 * d)) as Hgt.
          lia.
        - intros Ha. symmetry.
          apply (Z.div_unique _ _ a (2 * Z.pos m + d - 2 * d * a)); lia. }
      split.
      * intros [= <-]. apply Hnear. destruct s; lia.
      * intros Hz. f_equal. apply Hnear in Hz. destruct s; lia.
Qed.

(** The number of frames of a conversion step and the rate of the
    conversion are the roundings of the two quotients. *)
Lemma convertedLength_rounds (len : Z) (speed : spec_float) (converted : Z) :
  convertedLength len speed = Some converted
  <-> rounds_to (F64.div (F64.of_Z len) speed) converted
      /\ in_uInt32 converted.
Proof.
  unfold convertedLength, lengthQuotient, F64.round_to_uInt32, in_uInt32.
  rewrite <- SFround_half_away_rounds_to.
  destruct (SFround_half_away _) as [z|]; simpl.
  - case_guard; simpl.
    + split; [now intros [= <-]|now intros [[= <-] _]].
    + split; [discriminate|]. intros [[= <-] Hz]. contradiction.
  - split; [discriminate|now intros [? _]].
Qed.


(** A read inside the decoded clip. *)
Lemma readAtPos_inside (n : Z) (w : t) (buf : list Z) :
  myBuffer w = Some buf ->
  0 <= myPos w -> 0 <= n -> myPos w + n <= Z.of_nat (length buf) ->
  readAtPos n w = Some (take (Z.to_nat n) (atPos w)).
Proof.
  intros Hbuf Hpos Hn Hend. unfold readAtPos.
  destruct (Z.eqb_spec n 0) as [->|Hne]; [reflexivity|].
  rewrite Hbuf. simpl. case_guard; [reflexivity|lia].
Qed.


End SpeedProperties.

(** * The properties on the sample objects *)

#[local] Existing Instance LittleEndian32.

(** The float model on a few values: [std::round] rounds halfway cases
    away from zero, one half survives its trip through memory, and full
    volume is the factor 1. *)
Example round_half_away_from_zero :
  F64.round_to_int (S754_finite false 5 (-1)) = Some 3
  /\ F64.round_to_int (S754_finite true 5 (-1)) = Some (-3)
  /\ F64.round_to_int (S754_finite false 9 (-2)) = Some 2
  /\ F64.to_int (S754_finite false 5 (-1)) = Some 2.
Proof. split_and!; reflexivity. Qed.

Example one_half_in_memory :
  bytes_of_float one_half = (0, 0, 0, 63)
  /\ float_of_bytes (bytes_of_float one_half) = one_half.
Proof. split; reflexivity. Qed.

Example full_volume_factor :
  percent_factor 100 = F32.one /\ percent_factor 50 = one_half.
Proof. split; reflexivity. Qed.

(** The sample pipeline in underrun. *)
Example hysteresis_depth_3 :
  option_map fst (nextFragmentCallback (set_myUnderrun true sample_sound))
  = Some (Some 1%positive).
Proof. reflexivity. Qed.

Example hysteresis_depth_2 :
  option_map fst
    (nextFragmentCallback
       (set_myAudioQueue (Some [1; 2]%positive)
          (set_myUnderrun true sample_sound)))
  = Some None.
Proof. reflexivity. Qed.

Lemma nextFragmentCallback_underrun_policy_witness :
  myAudioQueue (set_myUnderrun true sample_sound) = Some [1; 2; 3]%positive
  /\ myEmulationTiming (set_myUnderrun true sample_sound) = Some sample_timing
  /\ exists next s',
       nextFragmentCallback (set_myUnderrun true sample_sound)
       = Some (next, s')
       /\ (myUnderrun s' = true <-> next = None).
Proof.
  split; [reflexivity|]. split; [reflexivity|].
  destruct (nextFragmentCallback_underrun_policy
              (set_myUnderrun true sample_sound) [1; 2; 3]%positive
              sample_timing eq_refl eq_refl)
    as (next & s' & Hcall & _ & _ & _ & Hflag & _).
  exists next, s'. split; assumption.
Defined.

Lemma nextFragmentCallback_current_fragment_witness :
  myAudioQueue sample_sound_starved_holding = Some [1; 2]%positive
  /\ myEmulationTiming sample_sound_starved_holding = Some sample_timing
  /\ myCurrentFragment sample_sound_starved_holding = Some 7%positive
  /\ (exists s',
        nextFragmentCallback sample_sound_starved_holding = Some (None, s')
        /\ myCurrentFragment s' = Some 7%positive)
  /\ myAudioQueue sample_sound = Some [1; 2; 3]%positive
  /\ myEmulationTiming sample_sound = Some sample_timing
  /\ myCurrentFragment sample_sound = None
  /\ (exists s',
        nextFragmentCallback sample_sound = Some (Some 1%positive, s')
        /\ myCurrentFragment s' = Some 1%positive).
Proof.
  split; [reflexivity|]. split; [reflexivity|]. split; [reflexivity|].
  split.
  - destruct (nextFragmentCallback_current_fragment
                sample_sound_starved_holding [1; 2]%positive sample_timing
                eq_refl eq_refl)
      as (next & s' & Hcall & Hkeep & _).
    assert (Hnext : next = None).
    { assert (Hrun : option_map fst
                       (nextFragmentCallback sample_sound_starved_holding)
                     = Some None) by (vm_compute; reflexivity).
      rewrite Hcall in Hrun. now injection Hrun. }
    exists s'. split; [now rewrite Hcall, Hnext|exact (Hkeep Hnext)].
  - split; [reflexivity|]. split; [reflexivity|]. split; [reflexivity|].
    destruct (nextFragmentCallback_current_fragment sample_sound
                [1; 2; 3]%positive sample_timing eq_refl eq_refl)
      as (next & s' & Hcall & _ & Hmoves & _).
    assert (Hnext : next = Some 1%positive).
    { assert (Hrun : option_map fst (nextFragmentCallback sample_sound)
                     = Some (Some 1%positive)) by (vm_compute; reflexivity).
      rewrite Hcall in Hrun. now injection Hrun. }
    exists s'. split; [now rewrite Hcall, Hnext|exact (Hmoves _ Hnext)].
Defined.

Lemma callback_silence_or_scaled_witness :
  let r := Lanczos (Resampler.Build_Format 31400 512 false)
             (Resampler.Build_Format 44100 512 true) 2 in
  let filled := [0; 0; 0; 63; 0; 0; 0; 63; 7; 7] in
  let s1 :=
    set_myCurrentFragment (Some 1%positive)
      (set_myAudioQueue (Some [2; 3]%positive) sample_sound) in
  0 <= 10 < 2 ^ 31
  /\ Z.of_nat (length (replicate 10 7)) = 10
  /\ callback (set_myResampler None sample_sound) (replicate 10 7) 10
     = Some (set_myResampler None sample_sound, replicate (Z.to_nat 10) 0)
  /\ runFill (Resampler.fillFragment r (replicate 10 7) (10 / 4)) sample_sound
     = Some (r, filled, s1)
  /\ exists out,
       callback sample_sound (replicate 10 7) 10
       = Some (set_myResampler (Some r) s1, out)
       /\ length out = length (replicate 10 7)
       /\ (forall i, 0 <= i < 10 / 4 ->
             cell out i = multiply_cell (cell filled i) one_half)
       /\ (forall j : nat, 4 * (10 / 4) <= Z.of_nat j ->
             out !! j = filled !! j).
Proof.
  intros r filled s1.
  assert (Hlen : 0 <= 10 < 2 ^ 31) by (split; [discriminate|reflexivity]).
  assert (Hrun : runFill (Resampler.fillFragment r (replicate 10 7) (10 / 4))
                   sample_sound
                 = Some (r, filled, s1)) by (vm_compute; reflexivity).
  split; [exact Hlen|]. split; [reflexivity|]. split.
  - apply (callback_silence_or_scaled (set_myResampler None sample_sound)
             (replicate 10 7) 10 Hlen eq_refl).
    right. reflexivity.
  - split; [exact Hrun|].
    destruct (proj2 (proj2 (callback_silence_or_scaled sample_sound
                              (replicate 10 7) 10 Hlen eq_refl))
                [1; 2; 3]%positive r r filled s1 eq_refl eq_refl Hrun
                eq_refl)
      as (out & Hcall & _ & Hlength & Hscaled & Hother).
    exists out. split; [exact Hcall|]. split; [exact Hlength|].
    split; [|exact Hother].
    intros i Hi. exact (proj1 (Hscaled i Hi)).
Defined.

(** One call of the device callback on the sample pipeline: the
    resampler pulls a fragment from the queue, writes two samples of one
    half, and the volume factor one half makes them one quarter. *)
Example callback_scales_the_tone :
  option_map snd (callback sample_sound (replicate 10 7) 10)
  = Some [0; 0; 128; 62; 0; 0; 128; 62; 7; 7]
  /\ option_map (fun called => myAudioQueue (fst called))
       (callback sample_sound (replicate 10 7) 10)
     = Some (Some [2; 3]%positive).
Proof. split; vm_compute; reflexivity. Qed.

(** A sample that holds a NaN stays a NaN, with its payload, on the
    little-endian layout; an infinity times the factor 0 becomes the
    default NaN. *)
Example multiply_cell_nan :
  multiply_cell (1, 0, 128, 127) one_half = (1, 0, 192, 127)
  /\ multiply_cell (0, 0, 128, 127) F32.zero = (0, 0, 192, 255)
  /\ multiply_cell (0, 0, 0, 63) one_half = (0, 0, 128, 62).
Proof. split_and!; vm_compute; reflexivity. Qed.

Lemma initResampler_quality_witness :
  myAudioQueue sample_sound = Some [1; 2; 3]%positive
  /\ myEmulationTiming sample_sound = Some sample_timing
  /\ (AudioSettings.resamplingQuality (myAudioSettings sample_sound)
      = AudioSettings.lanczos_2 ->
      initResampler sample_sound
      = Ok (set_myResampler
              (Some (Lanczos (Resampler.Build_Format 31400 512 false)
                             (Resampler.Build_Format 44100 512 true) 2))
              sample_sound)).
Proof.
  split; [reflexivity|]. split; [reflexivity|].
  exact (proj1 (proj2 (initResampler_quality sample_sound [1; 2; 3]%positive
                         sample_timing eq_refl eq_refl))).
Defined.

Example initResampler_rejects_quality_7 :
  initResampler
    (set_myAudioSettings (AudioSettings.Build 44100 512 0 50 true 7)
       sample_sound)
  = Throw "invalid resampling quality"
      (set_myAudioSettings (AudioSettings.Build 44100 512 0 50 true 7)
         sample_sound).
Proof. reflexivity. Qed.

(** C6, as stated, fails: a request for volume 150 on the sample
    pipeline (stored volume 50) is ignored; the stored volume stays 50
    and the factor stays one half instead of becoming 100 and 1.0. *)
Lemma setVolume_150_is_not_clamped :
  myIsInitializedFlag sample_sound = true
  /\ AudioSettings.enabled (myAudioSettings sample_sound) = true
  /\ stored_volume (setVolume 150 sample_sound) = 50
  /\ stored_volume (setVolume 150 sample_sound) <> 100
  /\ myVolumeFactor (setVolume 150 sample_sound) = one_half
  /\ myVolumeFactor (setVolume 150 sample_sound) <> F32.one.
Proof. split_and!; (reflexivity || discriminate). Qed.

Lemma setVolume_accepts_only_0_100_witness :
  in_uInt32 150
  /\ (100 < 150 -> setVolume 150 sample_sound = sample_sound).
Proof.
  assert (Hv : in_uInt32 150) by (split; [discriminate|reflexivity]).
  split; [exact Hv|].
  exact (proj1 (proj2 (setVolume_accepts_only_0_100 sample_sound 150 Hv))).
Defined.

Lemma adjustVolume_steps_by_two_witness :
  0 <= stored_volume sample_sound <= 100
  /\ in_Int32 (1 * 2)
  /\ in_Int32 (stored_volume sample_sound + 1 * 2)
  /\ myIsInitializedFlag sample_sound = true
  /\ exists s',
       adjustVolume Ok 1 sample_sound = Ok s'
       /\ stored_volume s' = clamp (stored_volume sample_sound + 1 * 2) 0 100.
Proof.
  assert (Hv : 0 <= stored_volume sample_sound <= 100)
    by (split; discriminate).
  assert (Hd : in_Int32 (1 * 2)) by (split; [discriminate|reflexivity]).
  assert (Hsum : in_Int32 (stored_volume sample_sound + 1 * 2))
    by (split; [discriminate|reflexivity]).
  split; [exact Hv|]. split; [exact Hd|]. split; [exact Hsum|].
  split; [reflexivity|].
  destruct (adjustVolume_steps_by_two Ok 1 sample_sound Hv Hd Hsum eq_refl)
    as (s' & Hcall & Hstored & _).
  { intros x Hx. exists x. split; [reflexivity|exact Hx]. }
  exists s'. split; assumption.
Defined.

Example adjustVolume_up_from_50 :
  option_map stored_volume (state_of (adjustVolume Ok 1 sample_sound))
  = Some 52.
Proof. reflexivity. Qed.

Example adjustVolume_down_at_0 :
  option_map stored_volume
    (state_of (adjustVolume Ok (-1) (setVolume 1 sample_sound)))
  = Some 0.
Proof. reflexivity. Qed.

(** Without an audio device [setVolume] does nothing, and so the stored
    volume stays where it was. *)
Example adjustVolume_without_device :
  option_map stored_volume
    (state_of (adjustVolume Ok 1 sample_sound_no_device))
  = Some 50.
Proof. reflexivity. Qed.

Lemma volume_factor_in_unit_interval_witness :
  reachable Ok (mute false (set_myVolumeFactor F32.zero sample_sound))
  /\ factor_in_unit (mute false (set_myVolumeFactor F32.zero sample_sound)).
Proof.
  assert (Hreach : reachable Ok
            (mute false (set_myVolumeFactor F32.zero sample_sound))).
  { apply (reachable_step Ok (set_myVolumeFactor F32.zero sample_sound) _
             (OpMute false)); [|reflexivity].
    apply reachable_start. reflexivity. }
  split; [exact Hreach|].
  apply (volume_factor_in_unit_interval Ok); [|exact Hreach].
  intros x y Hx [= <-]. exact Hx.
Defined.

(** The clip player on the sample clip, at speed 1.3: the quotient
    769.23 goes to 769, the quotient 770.77 to 771 (cut off: 770), the
    rate 40807.78 to 40808 (cut off: 40807). *)
Example convertedLength_1000_at_1_3 :
  WavHandlerSDL.convertedLength 1000 speed_1_3 = Some 769
  /\ WavHandlerSDL.newFreq 31400 1000 769 = Some 40832
  /\ WavHandlerSDL.convertedLength 1002 speed_1_3 = Some 771
  /\ SFtrunc (WavHandlerSDL.lengthQuotient 1002 speed_1_3) = Some 770
  /\ WavHandlerSDL.newFreq 31400 1002 771 = Some 40808
  /\ SFtrunc (WavHandlerSDL.rateQuotient 31400 1002 771) = Some 40807.
Proof. split_and!; vm_compute; reflexivity. Qed.


(** C4, as stated, fails in both halves: on the sample clip player (8
    frames, played from position 2), [stop] followed by [play] of the
    same file, asking for 100 frames from position 2, succeeds; but no
    decoded buffer is left after [stop], so the file is decoded a second
    time, and the remaining count becomes 6, the frames the clip holds
    from position 2 on, not the 100 requested. *)
Lemma play_after_stop_decodes_twice :
  let w1 := sample_wav in
  let replay :=
    WavHandlerSDL.play sample_sdl "clip.wav" None 2 100
      (WavHandlerSDL.stop w1) in
  WavHandlerSDL.play sample_sdl "clip.wav" None 2 4 WavHandlerSDL.init
  = (true, w1)
  /\ WavHandlerSDL.myBuffer (WavHandlerSDL.stop w1) = None
  /\ fst replay = true
  /\ WavHandlerSDL.decodes w1 = 1
  /\ WavHandlerSDL.decodes (snd replay) = 2
  /\ head (WavHandlerSDL.calls (snd replay))
     <> head (WavHandlerSDL.calls (WavHandlerSDL.stop w1))
  /\ In (CallLoadWAV "clip.wav")
        (take 3 (WavHandlerSDL.calls (snd replay)))
  /\ WavHandlerSDL.myRemaining (snd replay) = 6
  /\ WavHandlerSDL.myRemaining (snd replay) <> 100.
Proof.
  cbv zeta. split_and!.
  - vm_compute. reflexivity.
  - vm_compute. reflexivity.
  - vm_compute. reflexivity.
  - vm_compute. reflexivity.
  - vm_compute. reflexivity.
  - vm_compute. discriminate.
  - vm_compute. tauto.
  - vm_compute. reflexivity.
  - vm_compute. discriminate.
Qed.

Lemma play_after_stop_decodes_again_witness :
  let replay :=
    WavHandlerSDL.play sample_sdl "clip.wav" None 2 100
      (WavHandlerSDL.stop sample_wav) in
  let again := WavHandlerSDL.play sample_sdl "clip.wav" None 2 100 sample_wav in
  WavHandlerSDL.play sample_sdl "clip.wav" None 2 4 WavHandlerSDL.init
  = (true, sample_wav)
  /\ WavHandlerSDL.decodes (snd replay) = WavHandlerSDL.decodes sample_wav + 1
  /\ WavHandlerSDL.decodes (snd again) = WavHandlerSDL.decodes sample_wav
  /\ fst again = true
  /\ WavHandlerSDL.myRemaining (snd again)
     = Z.min 100 (WavHandlerSDL.myLength sample_wav - 2).
Proof.
  intros replay again.
  assert (Hplayed :
    WavHandlerSDL.play sample_sdl "clip.wav" None 2 4 WavHandlerSDL.init
    = (true, sample_wav)) by (vm_compute; reflexivity).
  assert (Hpos : 2 <= WavHandlerSDL.myLength sample_wav)
    by (vm_compute; discriminate).
  assert (Hlength : 100 <> 0) by discriminate.
  split; [exact Hplayed|].
  destruct (play_after_stop_decodes_again sample_sdl sample_sdl "clip.wav"
              None None 2 4 2 100 WavHandlerSDL.init sample_wav Hplayed)
    as (_ & Hreplay & _ & _ & Hagain & _ & Hreset).
  split; [exact Hreplay|]. split; [exact Hagain|].
  destruct (Hreset Hpos) as (Htrue & Hcount & _).
  split; [exact Htrue|exact (Hcount Hlength)].
Defined.

(** C5, as stated, fails: with the sample clip loaded and playing, a
    [play] of a file that does not load returns false, but the loaded
    buffer is gone afterwards. *)
Lemma play_failed_load_drops_buffer :
  let played := WavHandlerSDL.play sample_sdl "nope.wav" None 0 0 sample_wav in
  SDL_LoadWAV sample_sdl "nope.wav" = None
  /\ WavHandlerSDL.myBuffer sample_wav = Some [10; 20; 30; 40; 50; 60; 70; 80]
  /\ fst played = false
  /\ WavHandlerSDL.myBuffer (snd played) = None
  /\ WavHandlerSDL.myBuffer (snd played) <> WavHandlerSDL.myBuffer sample_wav
  /\ WavHandlerSDL.mySpec (snd played) <> WavHandlerSDL.mySpec sample_wav.
Proof.
  cbv zeta. split_and!.
  - vm_compute. reflexivity.
  - vm_compute. reflexivity.
  - vm_compute. reflexivity.
  - vm_compute. reflexivity.
  - vm_compute. discriminate.
  - vm_compute. discriminate.
Qed.

Lemma play_load_failure_witness :
  ("nope.wav"%string <> WavHandlerSDL.myFilename sample_wav
   \/ WavHandlerSDL.myBuffer sample_wav = None)
  /\ SDL_LoadWAV sample_sdl "nope.wav" = None
  /\ fst (WavHandlerSDL.play sample_sdl "nope.wav" None 0 0 sample_wav) = false
  /\ WavHandlerSDL.myRemaining
       (snd (WavHandlerSDL.play sample_sdl "nope.wav" None 0 0 sample_wav))
     = WavHandlerSDL.myRemaining sample_wav.
Proof.
  assert (Hattempt : "nope.wav"%string <> WavHandlerSDL.myFilename sample_wav
                     \/ WavHandlerSDL.myBuffer sample_wav = None)
    by (left; vm_compute; discriminate).
  split; [exact Hattempt|]. split; [vm_compute; reflexivity|].
  assert (Hfail : SDL_LoadWAV sample_sdl "nope.wav" = None)
    by (vm_compute; reflexivity).
  destruct (play_load_failure sample_sdl "nope.wav" None 0 0 sample_wav
              Hattempt Hfail)
    as (Hfalse & _ & _ & Hremaining & _).
  split; assumption.
Defined.

(** * Further properties of the sound object *)

Lemma percent_factor_nonzero_table :
  forallb (fun n => negb (SFeqb (percent_factor (Z.of_nat n)) F32.zero))
          (seq 1 100) = true.
Proof. vm_compute. reflexivity. Qed.

Lemma percent_factor_nonzero (v : Z) :
  1 <= v <= 100 -> SFeqb (percent_factor v) F32.zero = false.
Proof.
  intros Hv.
  pose proof percent_factor_nonzero_table as Htable.
  rewrite forallb_forall in Htable.
  specialize (Htable (Z.to_nat v)).
  rewrite Z2Nat.id in Htable by lia.
  apply negb_true_iff, Htable, in_seq. lia.
Qed.

Section MoreVolumeProperties.

Context {Q R : Type} `{!AudioQueue.Ops Q} `{!Resampler.Ops R}.

Implicit Types s : SoundSDL Q R.

Lemma setVolume_same s :
  0 <= stored_volume s <= 100 ->
  myIsInitializedFlag s = true ->
  AudioSettings.enabled (myAudioSettings s) = true ->
  setVolume (stored_volume s) s
  = set_myVolumeFactor (percent_factor (stored_volume s)) s.
Proof.
  intros Hv Hinit Henabled. unfold setVolume, stored_volume in *.
  rewrite to_uInt32_id by (unfold in_uInt32; lia). rewrite Hinit.
  destruct (Z.leb_spec (AudioSettings.volume (myAudioSettings s)) 100);
    [|lia].
  destruct s as [settings ? ? ? ? ? ? ? ? ? ? ? ? ?]. simpl in *.
  destruct settings. simpl in *. rewrite Henabled. reflexivity.
Qed.

(** X1: with sound enabled, the device initialized and a stored volume
    between 1 and 100 that the factor reflects, [toggleMute] silences
    the output and a second [toggleMute] brings the object back exactly
    as it was. *)
Theorem toggleMute_twice s :
  myIsInitializedFlag s = true ->
  AudioSettings.enabled (myAudioSettings s) = true ->
  1 <= stored_volume s <= 100 ->
  myVolumeFactor s = percent_factor (stored_volume s) ->
  myVolumeFactor (toggleMute s) = F32.zero
  /\ stored_volume (toggleMute s) = stored_volume s
  /\ toggleMute (toggleMute s) = s.
Proof.
  intros Hinit Henabled Hv Hfactor.
  assert (Hmuted : toggleMute s = set_myVolumeFactor F32.zero s).
  { unfold toggleMute. rewrite Hfactor, percent_factor_nonzero by assumption.
    reflexivity. }
  rewrite Hmuted. split_and!; [reflexivity|reflexivity|].
  unfold toggleMute. simpl negb. cbv iota. unfold mute.
  change (AudioSettings.volume (myAudioSettings (set_myVolumeFactor F32.zero s)))
    with (stored_volume (set_myVolumeFactor F32.zero s)).
  rewrite setVolume_same; simpl; try assumption; [|unfold stored_volume in *; simpl; lia].
  unfold stored_volume at 1. simpl. fold (stored_volume s). rewrite <- Hfactor.
  now destruct s.
Qed.

(** X2: while sound is disabled in the settings the output stays
    silent: starting from factor 0, neither [setVolume] nor [mute] nor
    [toggleMute] nor [setEnabled] makes the factor anything but 0. *)
Theorem disabled_audio_stays_silent s :
  AudioSettings.enabled (myAudioSettings s) = false ->
  myVolumeFactor s = F32.zero ->
  (forall v, myVolumeFactor (setVolume v s) = F32.zero)
  /\ (forall enable, myVolumeFactor (mute enable s) = F32.zero)
  /\ myVolumeFactor (toggleMute s) = F32.zero
  /\ (forall enable, myVolumeFactor (setEnabled enable s) = F32.zero).
Proof.
  intros Hdisabled Hzero.
  assert (Hset : forall v, myVolumeFactor (setVolume v s) = F32.zero).
  { intros v. unfold setVolume.
    destruct (_ && _); [|exact Hzero]. simpl. now rewrite Hdisabled. }
  assert (Hmute : forall enable, myVolumeFactor (mute enable s) = F32.zero).
  { intros [|]; simpl; [reflexivity|apply Hset]. }
  split_and!.
  - exact Hset.
  - exact Hmute.
  - unfold toggleMute. apply Hmute.
  - intros enable. unfold setEnabled. rewrite pause_factor. apply Hmute.
Qed.

(** X3: of two [setVolume] calls in a row the last one wins, when its
    value is acceptable (at most 100). *)
Theorem setVolume_last_wins s (v1 v2 : Z) :
  in_uInt32 v2 -> v2 <= 100 ->
  setVolume v2 (setVolume v1 s) = setVolume v2 s.
Proof.
  intros Hv2 Hle. unfold setVolume at 2.
  destruct (myIsInitializedFlag s && _) eqn:Hfirst; [|reflexivity].
  apply andb_true_iff in Hfirst as [Hinit _].
  unfold setVolume. rewrite (to_uInt32_id v2) by assumption.
  simpl. rewrite Hinit.
  destruct (Z.leb_spec v2 100); [reflexivity|lia].
Qed.

Lemma adjustVolume_enabled_step
    (initializeAudio : SoundSDL Q R -> result (SoundSDL Q R))
    (direction : Z) s :
  AudioSettings.enabled (myAudioSettings s) = true ->
  myIsInitializedFlag s = true ->
  0 <= stored_volume s <= 100 ->
  in_Int32 (direction * 2) ->
  in_Int32 (stored_volume s + direction * 2) ->
  let percent := clamp (stored_volume s + direction * 2) 0 100 in
  adjustVolume initializeAudio direction s = Ok (setVolume percent s)
  /\ stored_volume (setVolume percent s) = percent
  /\ myVolumeFactor (setVolume percent s) = percent_factor percent.
Proof.
  intros Henabled Hinit Hv Hd Hsum percent.
  assert (Hp : 0 <= percent <= 100) by (apply clamp_range; lia).
  destruct (setVolume_stored s percent Hinit) as (Hstored & Hfactor & _);
    [unfold in_uInt32; lia|lia|].
  rewrite Henabled in Hfactor. split_and!; [|assumption..].
  unfold adjustVolume. fold (stored_volume s).
  rewrite (to_Int32_id (stored_volume s)) by (unfold in_Int32; lia).
  rewrite (to_Int32_id (direction * 2)) by assumption.
  rewrite (to_Int32_id (stored_volume s + direction * 2)) by assumption.
  fold percent. rewrite Henabled, andb_false_r. reflexivity.
Qed.

(** X4: with sound enabled and the device initialized, [adjustVolume]
    does not depend on [Console::initializeAudio]: whatever that method
    would do, the clamped volume is stored and the factor is set to match
    it, which also ends a mute. *)
Theorem adjustVolume_enabled
    (initializeAudio initializeAudio' : SoundSDL Q R -> result (SoundSDL Q R))
    (direction : Z) s :
  AudioSettings.enabled (myAudioSettings s) = true ->
  myIsInitializedFlag s = true ->
  0 <= stored_volume s <= 100 ->
  in_Int32 (direction * 2) ->
  in_Int32 (stored_volume s + direction * 2) ->
  adjustVolume initializeAudio direction s
  = adjustVolume initializeAudio' direction s
  /\ exists s',
       adjustVolume initializeAudio direction s = Ok s'
       /\ stored_volume s' = clamp (stored_volume s + direction * 2) 0 100
       /\ myVolumeFactor s'
          = percent_factor (clamp (stored_volume s + direction * 2) 0 100).
Proof.
  intros Henabled Hinit Hv Hd Hsum.
  destruct (adjustVolume_enabled_step initializeAudio direction s
              Henabled Hinit Hv Hd Hsum) as (Hcall & Hstored & Hfactor).
  destruct (adjustVolume_enabled_step initializeAudio' direction s
              Henabled Hinit Hv Hd Hsum) as (Hcall' & _).
  cbv zeta in *. split; [now rewrite Hcall, Hcall'|].
  eexists. split; [exact Hcall|]. split; assumption.
Qed.

(** X5: with sound enabled and the device initialized, a step up
    followed by a step down returns to the stored volume the object
    started from, provided the step up was not cut at 100. *)
Theorem adjustVolume_up_down
    (initializeAudio : SoundSDL Q R -> result (SoundSDL Q R)) s :
  AudioSettings.enabled (myAudioSettings s) = true ->
  myIsInitializedFlag s = true ->
  0 <= stored_volume s <= 98 ->
  exists s1 s2,
    adjustVolume initializeAudio 1 s = Ok s1
    /\ adjustVolume initializeAudio (-1) s1 = Ok s2
    /\ stored_volume s1 = stored_volume s + 2
    /\ stored_volume s2 = stored_volume s
    /\ myVolumeFactor s2 = percent_factor (stored_volume s).
Proof.
  intros Henabled Hinit Hv.
  destruct (adjustVolume_enabled_step initializeAudio 1 s Henabled Hinit)
    as (Hup & Hstored1 & _);
    [lia|unfold in_Int32; lia|unfold in_Int32; lia|].
  rewrite clamp_inside in Hup, Hstored1 by lia.
  set (s1 := setVolume (stored_volume s + 1 * 2) s) in *.
  assert (Henabled1 : AudioSettings.enabled (myAudioSettings s1) = true).
  { subst s1. unfold setVolume. destruct (_ && _); simpl; assumption. }
  assert (Hinit1 : myIsInitializedFlag s1 = true)
    by (subst s1; now rewrite setVolume_flag).
  destruct (adjustVolume_enabled_step initializeAudio (-1) s1 Henabled1 Hinit1)
    as (Hdown & Hstored2 & Hfactor2);
    [lia|unfold in_Int32; lia|unfold in_Int32; lia|].
  rewrite Hstored1 in Hdown, Hstored2, Hfactor2.
  rewrite clamp_inside in Hdown, Hstored2, Hfactor2 by lia.
  replace (stored_volume s + 1 * 2 + -1 * 2) with (stored_volume s)
    in Hdown, Hstored2, Hfactor2 by lia.
  exists s1, (setVolume (stored_volume s) s1).
  split_and!; [assumption|assumption|lia|assumption|assumption].
Qed.

(** X6: on an initialized device with sound enabled and a stored volume
    of at most 100, [setEnabled(false)] silences and pauses, and
    [setEnabled(true)] afterwards sets the factor from the stored volume
    and resumes playing. *)
Theorem setEnabled_off_on s :
  myIsInitializedFlag s = true ->
  AudioSettings.enabled (myAudioSettings s) = true ->
  0 <= stored_volume s <= 100 ->
  let off := setEnabled false s in
  let on := setEnabled true off in
  myVolumeFactor off = F32.zero
  /\ myDeviceStatus off = SDL_AUDIO_PAUSED
  /\ stored_volume off = stored_volume s
  /\ myVolumeFactor on = percent_factor (stored_volume s)
  /\ myDeviceStatus on = SDL_AUDIO_PLAYING
  /\ stored_volume on = stored_volume s.
Proof.
  intros Hinit Henabled Hv off on.
  assert (Hoff : off
    = set_myWavHandler (WavHandlerSDL.pause true (myWavHandler s))
        (set_myDeviceStatus SDL_AUDIO_PAUSED
           (set_myVolumeFactor F32.zero s))).
  { subst off. unfold setEnabled, pause. simpl. now rewrite Hinit. }
  assert (Hon : on
    = set_myWavHandler (WavHandlerSDL.pause false (myWavHandler off))
        (set_myDeviceStatus SDL_AUDIO_PLAYING
           (set_myVolumeFactor (percent_factor (stored_volume s)) off))).
  { subst on. unfold setEnabled, pause. simpl negb. unfold mute.
    change (AudioSettings.volume (myAudioSettings off))
      with (stored_volume off).
    rewrite setVolume_same; rewrite Hoff; simpl; try assumption.
    now rewrite Hinit. }
  rewrite Hon, Hoff. simpl. unfold stored_volume. simpl.
  split_and!; reflexivity.
Qed.

(** X7: on an initialized device [pause] reports the pause state set by
    the previous [pause]; on a device that is not initialized it changes
    nothing. *)
Theorem pause_reports_previous s (first second : bool) :
  (myIsInitializedFlag s = true ->
   fst (pause second (snd (pause first s))) = first)
  /\ (myIsInitializedFlag s = false -> snd (pause first s) = s).
Proof.
  unfold pause. split; intros Hinit; rewrite Hinit; [|reflexivity].
  simpl. rewrite Hinit. now destruct first.
Qed.

End MoreVolumeProperties.

(** ** The device list *)

Lemma queryHardware_from_closed (name : Z -> string) (steps : nat) :
  forall (i : Z) (devices : VariantList),
    queryHardware_from name steps i devices
    = devices
      ++ map (fun k : nat => (name (i + Z.of_nat k), i + Z.of_nat k + 1))
             (seq 0 steps).
Proof.
  induction steps as [|n IH]; intros i devices.
  - simpl. now rewrite app_nil_r.
  - cbn [queryHardware_from]. rewrite IH.
    rewrite <- app_assoc. f_equal.
    change (seq 0 (S n)) with (0%nat :: seq 1 n).
    rewrite <- (seq_shift n 0). cbn [map app].
    rewrite List.map_map, Z.add_0_r. f_equal.
    apply List.map_ext. intros k. f_equal; [f_equal|]; lia.
Qed.

(** X8: [queryHardware] on an empty list puts "Default" with id 0 first
    and the SDL device [i] at position [i + 1] with id [i + 1]: every id
    is the position of its entry, and the list is never empty, even when
    SDL reports no device or an error (a negative count). *)
Theorem queryHardware_ids_are_positions (numDevices : Z)
    (name : Z -> string) :
  length (queryHardware numDevices name []) = S (Z.to_nat numDevices)
  /\ queryHardware numDevices name [] !! 0%nat = Some ("Default"%string, 0)
  /\ (forall i, 0 <= i < numDevices ->
        queryHardware numDevices name [] !! Z.to_nat (i + 1)
        = Some (name i, i + 1))
  /\ (forall (k : nat) (entry : string * Z),
        queryHardware numDevices name [] !! k = Some entry ->
        snd entry = Z.of_nat k).
Proof.
  unfold queryHardware. rewrite queryHardware_from_closed.
  cbn [app]. set (rest := map _ _).
  assert (Hrest : forall k : nat, (k < Z.to_nat numDevices)%nat ->
            rest !! k = Some (name (Z.of_nat k), Z.of_nat k + 1)).
  { intros k Hk. subst rest. rewrite list_lookup_fmap.
    rewrite lookup_seq_lt by assumption. reflexivity. }
  assert (Hlen : length rest = Z.to_nat numDevices)
    by (subst rest; now rewrite length_map, length_seq).
  split_and!.
  - simpl. now rewrite Hlen.
  - reflexivity.
  - intros i Hi. replace (Z.to_nat (i + 1)) with (S (Z.to_nat i)) by lia.
    simpl. rewrite Hrest by lia. rewrite Z2Nat.id by lia. reflexivity.
  - intros [|k] entry.
    + now intros [= <-].
    + simpl. intros Hentry.
      assert (Hk : (k < Z.to_nat numDevices)%nat).
      { rewrite <- Hlen. apply lookup_lt_is_Some. now exists entry. }
      rewrite Hrest in Hentry by assumption.
      injection Hentry as <-. simpl. lia.
Qed.

Section DeviceProperties.

Context {Q R : Type} `{!AudioQueue.Ops Q} `{!Resampler.Ops R}.

Implicit Types s : SoundSDL Q R.

(** The device id that [openDevice] settles on. *)
Lemma openDevice_shape (sdl : SDL) s :
  let id :=
    clamp (AudioSettings.device (myAudioSettings s)) 0
          (to_uInt32 (Z.of_nat (length (myDevices s)) - 1)) in
  (forall name, (id = 0 /\ name = None)
                \/ (id <> 0 /\ deviceName s id = name /\ name <> None) ->
     exists s',
       openDevice sdl s = Ok s'
       /\ myDeviceId s' = id
       /\ myDevices s' = myDevices s
       /\ myAudioSettings s' = myAudioSettings s
       /\ myWavHandler s' = myWavHandler s
       /\ (myIsInitializedFlag s' = true <-> myDevice s' <> 0)
       /\ (myIsInitializedFlag s' = true ->
           myDeviceStatus s' = SDL_AUDIO_PAUSED))
  /\ (id <> 0 -> deviceName s id = None ->
      exists s', openDevice sdl s = Throw "out_of_range" s'
                 /\ myIsInitializedFlag s' = myIsInitializedFlag s).
Proof.
  intros id. unfold openDevice. fold id.
  set (s2 := set_myDeviceId id _).
  assert (Hname : forall i, deviceName s2 i = deviceName s i).
  { intros i. subst s2. unfold deviceName. simpl.
    now destruct (myIsInitializedFlag s). }
  assert (Hid2 : myDeviceId s2 = id) by reflexivity.
  assert (Hkeep : myDevices s2 = myDevices s
                  /\ myAudioSettings s2 = myAudioSettings s
                  /\ myWavHandler s2 = myWavHandler s
                  /\ myIsInitializedFlag s2 = myIsInitializedFlag s).
  { subst s2. simpl.
    destruct (myIsInitializedFlag s) eqn:E; simpl; rewrite ?E; tauto. }
  destruct Hkeep as (Hdevices & Hsettings & Hwav & Hflag).
  rewrite Hid2, Hname. split.
  - intros name Hcase.
    assert (Hopened : forall device,
      exists s',
        (let answer := SDL_OpenAudioDevice sdl device
                         (Build_SDL_AudioSpec
                            (AudioSettings.sampleRate (myAudioSettings s))
                            AUDIO_F32SYS 2 0
                            (AudioSettings.fragmentSize (myAudioSettings s)
                             mod 2 ^ 16)) in
         let s3 := set_myHardwareSpec (snd answer)
                     (set_myDevice (fst answer) s2) in
         if myDevice s3 =? 0 then Ok (set_myIsInitializedFlag false s3)
         else Ok (set_myIsInitializedFlag true
                    (set_myDeviceStatus SDL_AUDIO_PAUSED s3))) = Ok s'
        /\ myDeviceId s' = id
        /\ myDevices s' = myDevices s
        /\ myAudioSettings s' = myAudioSettings s
        /\ myWavHandler s' = myWavHandler s
        /\ (myIsInitializedFlag s' = true <-> myDevice s' <> 0)
        /\ (myIsInitializedFlag s' = true ->
            myDeviceStatus s' = SDL_AUDIO_PAUSED)).
    { intros device. cbv zeta.
      match goal with
      | |- context [if ?d =? 0 then _ else _] =>
          destruct (Z.eqb_spec d 0) as [Hzero|Hopen]
      end; eexists; (split; [reflexivity|]); simpl in *;
        split_and!; try assumption; try reflexivity;
        try discriminate; try tauto.
      split; [discriminate|]. intros Hne. now contradict Hne. }
    destruct Hcase as [[Hzero _]|(Hnonzero & Hlookup & Hsome)].
    + destruct (Z.eqb_spec id 0); [apply Hopened|contradiction].
    + destruct (Z.eqb_spec id 0); [contradiction|].
      rewrite Hlookup. destruct name; [apply Hopened|contradiction].
  - intros Hnonzero Hnone.
    destruct (Z.eqb_spec id 0); [contradiction|].
    rewrite Hnone. exists s2. split; [reflexivity|exact Hflag].
Qed.

Lemma deviceName_in_range s (i : Z) :
  0 <= i < Z.of_nat (length (myDevices s)) -> deviceName s i <> None.
Proof.
  intros Hi. unfold deviceName.
  destruct (Z.ltb_spec i 0); [lia|].
  intros Hnone. apply lookup_ge_None in Hnone. lia.
Qed.

(** X9: on an object whose device list is not empty, [openDevice] never
    throws: the configured device index is clamped into the list, the
    object is initialized exactly when SDL returned a device, a freshly
    opened device is paused, and [playWav] afterwards finds the device
    name without throwing. *)
Theorem openDevice_with_devices (sdl : SDL) s :
  0 < Z.of_nat (length (myDevices s)) < 2 ^ 32 ->
  0 <= AudioSettings.device (myAudioSettings s) ->
  exists s',
    openDevice sdl s = Ok s'
    /\ 0 <= myDeviceId s' < Z.of_nat (length (myDevices s'))
    /\ myDeviceId s'
       = Z.min (AudioSettings.device (myAudioSettings s))
               (Z.of_nat (length (myDevices s)) - 1)
    /\ (myIsInitializedFlag s' = true <-> myDevice s' <> 0)
    /\ (myIsInitializedFlag s' = true ->
        myDeviceStatus s' = SDL_AUDIO_PAUSED)
    /\ about_throws s' = false
    /\ (forall (sdl' : SDL) (fileName : string) (position length : Z),
          exists played,
            playWav sdl' fileName position length s' = Ok played).
Proof.
  intros Hdevices Hdevice.
  destruct (openDevice_shape sdl s) as [Hok _]. cbv zeta in Hok.
  rewrite to_uInt32_id in Hok by (unfold in_uInt32; lia).
  set (id := clamp _ 0 _) in Hok.
  assert (Hid : id = Z.min (AudioSettings.device (myAudioSettings s))
                       (Z.of_nat (length (myDevices s)) - 1)).
  { subst id. unfold clamp.
    destruct (Z.ltb_spec (AudioSettings.device (myAudioSettings s)) 0);
      [lia|].
    destruct (Z.gtb_spec (AudioSettings.device (myAudioSettings s))
                (Z.of_nat (length (myDevices s)) - 1)); lia. }
  assert (Hrange : 0 <= id < Z.of_nat (length (myDevices s))) by lia.
  pose proof (deviceName_in_range s id Hrange) as Hsome.
  destruct (Hok (if Z.eq_dec id 0 then None else deviceName s id))
    as (s' & Hcall & Hid' & Hdevs & _ & _ & Hflag & Hpaused).
  { destruct (Z.eq_dec id 0); [left|right]; tauto. }
  assert (Hname' : deviceName s' (myDeviceId s') <> None).
  { apply deviceName_in_range. rewrite Hid', Hdevs. exact Hrange. }
  exists s'. split; [exact Hcall|].
  split; [rewrite Hid', Hdevs; exact Hrange|].
  split; [rewrite Hid'; exact Hid|].
  split; [exact Hflag|]. split; [exact Hpaused|]. split.
  - unfold about_throws. now apply bool_decide_eq_false_2.
  - intros sdl' fileName position length. unfold playWav.
    destruct (myDeviceId s' =? 0); [eexists; reflexivity|].
    destruct (deviceName s' (myDeviceId s')); [|contradiction].
    eexists; reflexivity.
Qed.

(** X10: on an object whose device list is empty, as after a failed
    start of the SDL audio subsystem, [openDevice] throws
    [std::out_of_range] whenever the configured device is not the
    default (index 0), and leaves the initialized flag as it was. *)
Theorem openDevice_empty_list_throws (sdl : SDL) s :
  myDevices s = [] ->
  0 < AudioSettings.device (myAudioSettings s) < 2 ^ 32 ->
  exists s',
    openDevice sdl s = Throw "out_of_range" s'
    /\ myIsInitializedFlag s' = myIsInitializedFlag s.
Proof.
  intros Hempty Hdevice.
  destruct (openDevice_shape sdl s) as [_ Hthrow]. cbv zeta in Hthrow.
  rewrite Hempty in Hthrow. cbn [length] in Hthrow.
  change (to_uInt32 (Z.of_nat 0 - 1)) with (2 ^ 32 - 1) in Hthrow.
  rewrite clamp_inside in Hthrow by lia.
  apply Hthrow; [lia|].
  unfold deviceName. rewrite Hempty.
  destruct (_ <? 0); [reflexivity|apply lookup_nil].
Qed.

End DeviceProperties.

(** ** Opening the pipeline *)

Section OpenProperties.

Context {Q R : Type} `{!AudioQueue.Ops Q} `{!Resampler.Ops R}.

Implicit Types s : SoundSDL Q R.

(** What [openDevice] leaves alone, whether it returns or throws. *)
Lemma openDevice_frame (sdl : SDL) s s' :
  state_of (openDevice sdl s) = Some s' ->
  myAudioQueue s' = myAudioQueue s
  /\ myResampler s' = myResampler s
  /\ myUnderrun s' = myUnderrun s
  /\ myCurrentFragment s' = myCurrentFragment s
  /\ myVolumeFactor s' = myVolumeFactor s
  /\ myAudioSettings s' = myAudioSettings s.
Proof.
  unfold openDevice.
  set (s2 := set_myDeviceId _ _).
  assert (Hs2 : myAudioQueue s2 = myAudioQueue s
                /\ myResampler s2 = myResampler s
                /\ myUnderrun s2 = myUnderrun s
                /\ myCurrentFragment s2 = myCurrentFragment s
                /\ myVolumeFactor s2 = myVolumeFactor s
                /\ myAudioSettings s2 = myAudioSettings s).
  { subst s2. simpl.
    destruct (myIsInitializedFlag s); simpl; split_and!; reflexivity. }
  destruct (myDeviceId s2 =? 0).
  - cbv zeta. destruct (_ =? 0); simpl; intros [= <-]; exact Hs2.
  - destruct (deviceName s2 (myDeviceId s2)).
    + cbv zeta. destruct (_ =? 0); simpl; intros [= <-]; exact Hs2.
    + simpl. intros [= <-]. exact Hs2.
Qed.

Lemma open_without_reopen (sdl : SDL) (q : Q) (t : EmulationTiming.t) s :
  AudioSettings.sampleRate (myAudioSettings s)
  = to_uInt32 (freq (myHardwareSpec s)) ->
  AudioSettings.fragmentSize (myAudioSettings s)
  = to_uInt32 (samples (myHardwareSpec s)) ->
  AudioSettings.device (myAudioSettings s) = myDeviceId s ->
  let s3 :=
    set_myWavHandler
      (WavHandlerSDL.setSpeed
         (F64.div (F64.of_Z (262 * 60 * 2))
                  (F64.of_Z (EmulationTiming.audioSampleRate t)))
         (myWavHandler s))
      (set_myEmulationTiming (Some t) s) in
  open sdl q t s
  = if negb (AudioSettings.enabled (myAudioSettings s)) then Ok s3
    else
      initResampler
        (setVolume (AudioSettings.volume (myAudioSettings s))
           (set_myCurrentFragment None
              (set_myUnderrun true
                 (set_myAudioQueue
                    (Some (AudioQueue.ignoreOverflows q
                             (negb (AudioSettings.enabled
                                      (myAudioSettings s)))))
                    s3))))
      >>> fun s6 =>
      if about_throws s6 then Throw "out_of_range" s6
      else Ok (snd (pause false s6)).
Proof.
  intros Hrate Hsize Hdevice. unfold open.
  rewrite Hrate, Hsize, Hdevice, !Z.eqb_refl. reflexivity.
Qed.

Lemma initResampler_frame s s' :
  state_of (initResampler s) = Some s' ->
  myAudioQueue s' = myAudioQueue s
  /\ myEmulationTiming s' = myEmulationTiming s
  /\ myUnderrun s' = myUnderrun s
  /\ myCurrentFragment s' = myCurrentFragment s
  /\ myWavHandler s' = myWavHandler s
  /\ myDevice s' = myDevice s
  /\ myDeviceId s' = myDeviceId s
  /\ myDevices s' = myDevices s
  /\ myHardwareSpec s' = myHardwareSpec s
  /\ myIsInitializedFlag s' = myIsInitializedFlag s.
Proof.
  unfold initResampler.
  destruct (myEmulationTiming s) eqn:Et, (myAudioQueue s) eqn:Eq;
    try discriminate.
  repeat (destruct (_ =? _)); simpl; intros [= <-]; simpl;
    rewrite ?Et, ?Eq; split_and!; reflexivity.
Qed.

Lemma setVolume_frame s (v : Z) :
  myAudioQueue (setVolume v s) = myAudioQueue s
  /\ myEmulationTiming (setVolume v s) = myEmulationTiming s
  /\ myUnderrun (setVolume v s) = myUnderrun s
  /\ myCurrentFragment (setVolume v s) = myCurrentFragment s
  /\ myWavHandler (setVolume v s) = myWavHandler s
  /\ myDevice (setVolume v s) = myDevice s
  /\ myDeviceId (setVolume v s) = myDeviceId s
  /\ myDevices (setVolume v s) = myDevices s
  /\ myHardwareSpec (setVolume v s) = myHardwareSpec s
  /\ myIsInitializedFlag (setVolume v s) = myIsInitializedFlag s
  /\ myResampler (setVolume v s) = myResampler s.
Proof.
  unfold setVolume.
  destruct (myIsInitializedFlag s) eqn:E;
    [|simpl; rewrite ?E; split_and!; reflexivity].
  destruct (_ <=? 100); simpl; rewrite ?E; split_and!; reflexivity.
Qed.

(** A pull in underrun that finds fewer fragments than the prebuffer
    count. *)
Lemma nextFragmentCallback_starved s (q : Q) (t : EmulationTiming.t) :
  myAudioQueue s = Some q ->
  myEmulationTiming s = Some t ->
  myUnderrun s = true ->
  AudioQueue.size q < EmulationTiming.prebufferFragmentCount t ->
  nextFragmentCallback s = Some (None, s).
Proof.
  intros Hq Ht Hunder Hsize. unfold nextFragmentCallback.
  rewrite Hq, Hunder, Ht. simpl.
  destruct (Z.geb_spec (AudioQueue.size q)
              (EmulationTiming.prebufferFragmentCount t)); [lia|].
  simpl. destruct s. simpl in *. now rewrite Hq, Hunder.
Qed.

Lemma initResampler_attached s (q : Q) (t : EmulationTiming.t) :
  myAudioQueue s = Some q ->
  myEmulationTiming s = Some t ->
  exists s', state_of (initResampler s) = Some s'
             /\ (AudioSettings.recognized
                   (AudioSettings.resamplingQuality (myAudioSettings s)) ->
                 initResampler s = Ok s' /\ exists r, myResampler s' = Some r).
Proof.
  intros Hq Ht. unfold initResampler, AudioSettings.recognized.
  rewrite Hq, Ht.
  destruct (Z.eqb_spec (AudioSettings.resamplingQuality (myAudioSettings s))
              AudioSettings.nearestNeighbour);
    [eexists; split; [reflexivity|]; intros _; split; [reflexivity|];
     eexists; reflexivity|].
  destruct (Z.eqb_spec (AudioSettings.resamplingQuality (myAudioSettings s))
              AudioSettings.lanczos_2);
    [eexists; split; [reflexivity|]; intros _; split; [reflexivity|];
     eexists; reflexivity|].
  destruct (Z.eqb_spec (AudioSettings.resamplingQuality (myAudioSettings s))
              AudioSettings.lanczos_3);
    [eexists; split; [reflexivity|]; intros _; split; [reflexivity|];
     eexists; reflexivity|].
  eexists; split; [reflexivity|]. tauto.
Qed.

Lemma pause_device s (enable : bool) :
  myDevice (snd (pause enable s)) = myDevice s
  /\ myDeviceId (snd (pause enable s)) = myDeviceId s
  /\ myHardwareSpec (snd (pause enable s)) = myHardwareSpec s
  /\ myIsInitializedFlag (snd (pause enable s)) = myIsInitializedFlag s.
Proof.
  unfold pause.
  destruct (myIsInitializedFlag s) eqn:E; simpl; rewrite ?E;
    split_and!; reflexivity.
Qed.

(** X11: [open] re-opens the audio device only when it has to.  When
    sample rate, fragment size and device in the settings are those of
    the open device, [open] leaves the device handle, the device id, the
    obtained format and the initialized flag as they are, whether it
    returns or throws. *)
Theorem open_keeps_matching_device (sdl : SDL) (q : Q)
    (t : EmulationTiming.t) s :
  AudioSettings.sampleRate (myAudioSettings s)
  = to_uInt32 (freq (myHardwareSpec s)) ->
  AudioSettings.fragmentSize (myAudioSettings s)
  = to_uInt32 (samples (myHardwareSpec s)) ->
  AudioSettings.device (myAudioSettings s) = myDeviceId s ->
  exists s',
    state_of (open sdl q t s) = Some s'
    /\ myDevice s' = myDevice s
    /\ myDeviceId s' = myDeviceId s
    /\ myHardwareSpec s' = myHardwareSpec s
    /\ myIsInitializedFlag s' = myIsInitializedFlag s.
Proof.
  intros Hrate Hsize Hdevice.
  rewrite open_without_reopen by assumption. cbv zeta.
  destruct (AudioSettings.enabled (myAudioSettings s)); simpl negb; cbv iota.
  - set (s5 := setVolume _ _).
    destruct (setVolume_frame
                (set_myCurrentFragment None
                   (set_myUnderrun true
                      (set_myAudioQueue
                         (Some (AudioQueue.ignoreOverflows q false))
                         (set_myWavHandler
                            (WavHandlerSDL.setSpeed
                               (F64.div (F64.of_Z (262 * 60 * 2))
                                  (F64.of_Z
                                     (EmulationTiming.audioSampleRate t)))
                               (myWavHandler s))
                            (set_myEmulationTiming (Some t) s)))))
                (AudioSettings.volume (myAudioSettings s)))
      as (Hq5 & Ht5 & _ & _ & _ & Hdev5 & Hid5 & _ & Hspec5 & Hflag5 & _).
    fold s5 in Hq5, Ht5, Hdev5, Hid5, Hspec5, Hflag5. simpl in *.
    destruct (initResampler_attached s5 (AudioQueue.ignoreOverflows q false)
                t Hq5 Ht5) as (s6 & Hs6 & _).
    destruct (initResampler_frame s5 s6 Hs6)
      as (_ & _ & _ & _ & _ & Hdev6 & Hid6 & _ & Hspec6 & Hflag6).
    destruct (initResampler s5) as [x|what x|]; [| |discriminate];
      injection Hs6 as ->; simpl.
    + destruct (about_throws s6); simpl.
      * exists s6. split; [reflexivity|].
        rewrite Hdev6, Hid6, Hspec6, Hflag6. split_and!; assumption.
      * eexists. split; [reflexivity|].
        destruct (pause_device s6 false) as (-> & -> & -> & ->).
        rewrite Hdev6, Hid6, Hspec6, Hflag6. split_and!; assumption.
    + exists s6. split; [reflexivity|].
      rewrite Hdev6, Hid6, Hspec6, Hflag6. split_and!; assumption.
  - eexists. split; [reflexivity|]. simpl. split_and!; reflexivity.
Qed.

(** X12: with sound disabled in the settings [open] attaches nothing:
    queue, resampler, underrun flag, current fragment and volume factor
    stay as they were, whatever the quality selector says; when the
    device need not be re-opened, [open] returns, having stored the
    timing and set the clip speed. *)
Theorem open_disabled (sdl : SDL) (q : Q) (t : EmulationTiming.t) s :
  AudioSettings.enabled (myAudioSettings s) = false ->
  (forall s', state_of (open sdl q t s) = Some s' ->
     myAudioQueue s' = myAudioQueue s
     /\ myResampler s' = myResampler s
     /\ myUnderrun s' = myUnderrun s
     /\ myCurrentFragment s' = myCurrentFragment s
     /\ myVolumeFactor s' = myVolumeFactor s)
  /\ (AudioSettings.sampleRate (myAudioSettings s)
      = to_uInt32 (freq (myHardwareSpec s)) ->
      AudioSettings.fragmentSize (myAudioSettings s)
      = to_uInt32 (samples (myHardwareSpec s)) ->
      AudioSettings.device (myAudioSettings s) = myDeviceId s ->
      exists s',
        open sdl q t s = Ok s'
        /\ myEmulationTiming s' = Some t
        /\ WavHandlerSDL.mySpeed (myWavHandler s')
           = F64.div (F64.of_Z 31440)
                     (F64.of_Z (EmulationTiming.audioSampleRate t))).
Proof.
  intros Hdisabled. split.
  - intros s'. unfold open.
    set (reopened := if _ : bool then openDevice sdl s else Ok s).
    assert (Hre : forall x, state_of reopened = Some x ->
              myAudioQueue x = myAudioQueue s
              /\ myResampler x = myResampler s
              /\ myUnderrun x = myUnderrun s
              /\ myCurrentFragment x = myCurrentFragment s
              /\ myVolumeFactor x = myVolumeFactor s).
    { subst reopened. destruct (_ || _).
      - intros x Hx.
        destruct (openDevice_frame sdl s x Hx) as (? & ? & ? & ? & ? & _).
        split_and!; assumption.
      - intros x [= <-]. split_and!; reflexivity. }
    destruct reopened as [s1|what s1|]; simpl; [| |discriminate].
    + rewrite Hdisabled. simpl. intros [= <-]. simpl. now apply Hre.
    + intros [= <-]. now apply Hre.
  - intros Hrate Hsize Hdevice.
    rewrite open_without_reopen by assumption. cbv zeta.
    rewrite Hdisabled. simpl. eexists. split; [reflexivity|].
    split; reflexivity.
Qed.

(** X13: with sound enabled, a recognized quality selector, a device
    that need not be re-opened and a valid device id, [open] returns
    with the queue, the timing and a resampler attached and the pipeline
    in underrun with no current fragment; so the first pull waits: as
    long as the queue holds fewer fragments than the prebuffer count, a
    pull returns empty and changes nothing. *)
Theorem open_starts_in_underrun (sdl : SDL) (q : Q)
    (t : EmulationTiming.t) s :
  AudioSettings.enabled (myAudioSettings s) = true ->
  AudioSettings.recognized
    (AudioSettings.resamplingQuality (myAudioSettings s)) ->
  AudioSettings.sampleRate (myAudioSettings s)
  = to_uInt32 (freq (myHardwareSpec s)) ->
  AudioSettings.fragmentSize (myAudioSettings s)
  = to_uInt32 (samples (myHardwareSpec s)) ->
  AudioSettings.device (myAudioSettings s) = myDeviceId s ->
  deviceName s (myDeviceId s) <> None ->
  exists s',
    open sdl q t s = Ok s'
    /\ myAudioQueue s' = Some (AudioQueue.ignoreOverflows q false)
    /\ myEmulationTiming s' = Some t
    /\ (exists r, myResampler s' = Some r)
    /\ myUnderrun s' = true
    /\ myCurrentFragment s' = None
    /\ (AudioQueue.size (AudioQueue.ignoreOverflows q false)
        < EmulationTiming.prebufferFragmentCount t ->
        nextFragmentCallback s' = Some (None, s')).
Proof.
  intros Henabled Hquality Hrate Hsize Hdevice Hname.
  rewrite open_without_reopen by assumption. cbv zeta.
  rewrite Henabled. simpl negb. cbv iota.
  set (s4 := set_myCurrentFragment None _).
  set (s5 := setVolume _ s4).
  destruct (setVolume_frame s4 (AudioSettings.volume (myAudioSettings s)))
    as (Hq5 & Ht5 & Hu5 & Hc5 & _ & _ & Hid5 & Hdevs5 & _).
  fold s5 in Hq5, Ht5, Hu5, Hc5, Hid5, Hdevs5.
  change (myAudioQueue s4)
    with (Some (AudioQueue.ignoreOverflows q false)) in Hq5.
  change (myEmulationTiming s4) with (Some t) in Ht5.
  change (myUnderrun s4) with true in Hu5.
  change (myCurrentFragment s4) with (@None Fragment) in Hc5.
  change (myDeviceId s4) with (myDeviceId s) in Hid5.
  change (myDevices s4) with (myDevices s) in Hdevs5.
  assert (Hquality5 : AudioSettings.recognized
            (AudioSettings.resamplingQuality (myAudioSettings s5))).
  { subst s5. now rewrite setVolume_quality. }
  destruct (initResampler_attached s5 (AudioQueue.ignoreOverflows q false) t
              Hq5 Ht5) as (s6 & Hs6 & Hok).
  destruct (Hok Hquality5) as (Hcall & r & Hr).
  destruct (initResampler_frame s5 s6 Hs6)
    as (Hq6 & Ht6 & Hu6 & Hc6 & _ & _ & Hid6 & Hdevs6 & _).
  rewrite Hcall. simpl and_then.
  assert (Habout : about_throws s6 = false).
  { unfold about_throws. apply bool_decide_eq_false_2.
    unfold deviceName in *. rewrite Hid6, Hdevs6, Hid5, Hdevs5. exact Hname. }
  rewrite Habout.
  assert (Hpaused : forall x : SoundSDL Q R,
            myAudioQueue (snd (pause false x)) = myAudioQueue x
            /\ myEmulationTiming (snd (pause false x)) = myEmulationTiming x
            /\ myResampler (snd (pause false x)) = myResampler x
            /\ myUnderrun (snd (pause false x)) = myUnderrun x
            /\ myCurrentFragment (snd (pause false x))
               = myCurrentFragment x).
  { intros x. unfold pause.
    destruct (myIsInitializedFlag x); simpl; split_and!; reflexivity. }
  destruct (Hpaused s6) as (Hq7 & Ht7 & Hr7 & Hu7 & Hc7).
  set (s7 := snd (pause false s6)) in *.
  assert (Hq' : myAudioQueue s7
                = Some (AudioQueue.ignoreOverflows q false))
    by (rewrite Hq7, Hq6, Hq5; reflexivity).
  assert (Ht' : myEmulationTiming s7 = Some t)
    by (rewrite Ht7, Ht6, Ht5; reflexivity).
  assert (Hu' : myUnderrun s7 = true)
    by (rewrite Hu7, Hu6, Hu5; reflexivity).
  exists s7. split_and!.
  - reflexivity.
  - exact Hq'.
  - exact Ht'.
  - exists r. now rewrite Hr7.
  - exact Hu'.
  - rewrite Hc7, Hc6, Hc5. reflexivity.
  - intros Hstarved.
    exact (nextFragmentCallback_starved s7
             (AudioQueue.ignoreOverflows q false) t Hq' Ht' Hu' Hstarved).
Qed.

(** X14: a pull in underrun that finds fewer fragments than the
    prebuffer count returns empty and leaves the whole object as it was,
    so any number of such pulls in a row changes nothing. *)
Theorem starved_pull_changes_nothing s (q : Q) (t : EmulationTiming.t) :
  myAudioQueue s = Some q ->
  myEmulationTiming s = Some t ->
  myUnderrun s = true ->
  AudioQueue.size q < EmulationTiming.prebufferFragmentCount t ->
  nextFragmentCallback s = Some (None, s)
  /\ forall n : nat,
       Nat.iter n (fun state => state ≫= fun x =>
                     option_map snd (nextFragmentCallback x)) (Some s)
       = Some s.
Proof.
  intros Hq Ht Hunder Hsize.
  pose proof (nextFragmentCallback_starved s q t Hq Ht Hunder Hsize) as Hpull.
  split; [exact Hpull|].
  induction n as [|n IH]; [reflexivity|].
  simpl. rewrite IH. simpl. now rewrite Hpull.
Qed.

End OpenProperties.

(** * Further properties of the clip player *)

Section ClipProperties.

Import WavHandlerSDL.

(** X15: [stop] is safe to repeat and safe on an idle player.  After
    [stop] no decoded buffer and no conversion buffer is left; if a
    buffer was loaded, nothing remains to play and the device is closed;
    a second [stop] changes nothing, and [stop] on a player without
    buffers changes nothing at all. *)
Theorem stop_idempotent (w : t) :
  stop (stop w) = stop w
  /\ myBuffer (stop w) = None
  /\ myCvtBuffer (stop w) = None
  /\ (myBuffer w <> None ->
      myRemaining (stop w) = 0 /\ myDevice (stop w) = 0)
  /\ (myBuffer w = None -> myCvtBuffer w = None -> stop w = w).
Proof.
  destruct w as [name len dev buf speed cvt size spec pos rem log].
  unfold stop. simpl.
  destruct buf as [buf|], cvt as [cvt|]; simpl; split_and!;
    try reflexivity; try discriminate; try (intros _; split; reflexivity);
    intros Hne; now contradict Hne.
Qed.

(** X16: [play] rejects a position beyond the end of the clip.  When
    the clip is already loaded, the call returns false and changes
    nothing.  When the file had to be loaded first, the call returns
    false with the new buffer loaded, while file name, position,
    remaining count and device stay as they were. *)
Theorem play_beyond_clip (sdl : SDL) (fileName : string)
    (device : option string) (position length : Z) (w : t) :
  (forall buf, myFilename w = fileName -> myBuffer w = Some buf ->
     myLength w < position ->
     play sdl fileName device position length w = (false, w))
  /\ (forall spec buf,
        fileName <> myFilename w \/ myBuffer w = None ->
        SDL_LoadWAV sdl fileName = Some (spec, buf) ->
        Z.of_nat (List.length buf) < position ->
        let played := play sdl fileName device position length w in
        fst played = false
        /\ myBuffer (snd played) = Some buf
        /\ myLength (snd played) = Z.of_nat (List.length buf)
        /\ myFilename (snd played) = myFilename w
        /\ myPos (snd played) = myPos w
        /\ myRemaining (snd played) = myRemaining w
        /\ myDevice (snd played) = myDevice w).
Proof.
  split.
  - intros buf Hname Hbuf Hpos. unfold play.
    rewrite (play_load_cached sdl fileName w buf Hname Hbuf).
    destruct (Z.gtb_spec position (myLength w)); [reflexivity|lia].
  - intros spec buf Hattempt Hfile Hpos played. subst played. unfold play.
    rewrite play_load_attempt by assumption. rewrite Hfile.
    cbv beta iota zeta.
    match goal with
    | |- context [if ?p >? ?l then _ else _] =>
        destruct (Z.gtb_spec p l) as [_|Hle]; [|simpl in Hle; lia]
    end.
    destruct (myBuffer w); simpl; split_and!; reflexivity.
Qed.

Lemma play_position (sdl : SDL) (fileName : string)
    (device : option string) (position length : Z) (w x : t) :
  play_load sdl fileName w = (Some x, x) ->
  let played := play sdl fileName device position length w in
  myLength (snd played) = myLength x
  /\ (fst played = true -> myPos (snd played) = position).
Proof.
  intros Hload. unfold play. rewrite Hload.
  destruct (position >? myLength x); [simpl; split; [reflexivity|discriminate]|].
  cbv zeta. unfold pause.
  repeat match goal with
         | |- context [if ?d =? 0 then _ else _] => destruct (d =? 0)
         end; simpl; split; try reflexivity; try discriminate.
Qed.

(** X17: the playback window set by a successful [play].  The read
    position is the requested one and lies within the clip; with a
    nonzero requested length the window ends within the clip and is no
    longer than requested; with requested length 0 the remaining count
    is the whole clip length, whatever the position. *)
Theorem play_window (sdl : SDL) (fileName : string)
    (device : option string) (position length : Z) (w w' : t) :
  in_uInt32 position -> in_uInt32 length ->
  0 <= myLength w ->
  play sdl fileName device position length w = (true, w') ->
  myFilename w' = fileName
  /\ myPos w' = position
  /\ position <= myLength w'
  /\ 0 <= myRemaining w'
  /\ (length <> 0 ->
      myRemaining w' <= length
      /\ myPos w' + myRemaining w' <= myLength w')
  /\ (length = 0 -> myRemaining w' = myLength w').
Proof.
  intros Hposition Hlength Hlen Hplayed.
  unfold in_uInt32 in *.
  destruct (play_success _ _ _ _ _ _ _ Hplayed) as (Hname & _ & _).
  assert (Hloaded : exists x, play_load sdl fileName w = (Some x, x)
                              /\ 0 <= myLength x).
  { unfold play in Hplayed. unfold play_load in *.
    destruct (negb _ || bool_decide _).
    - destruct (SDL_LoadWAV sdl fileName) as [[spec buf]|]; [|discriminate].
      eexists. split; [reflexivity|]. simpl. lia.
    - exists w. split; [reflexivity|assumption]. }
  destruct Hloaded as (x & Hload & Hlenx).
  destruct (play_loaded sdl fileName device position length w x Hload)
    as (_ & Hremaining & _).
  cbv zeta in Hremaining. rewrite Hplayed in Hremaining.
  destruct (Hremaining eq_refl) as [Hpos Hrem]. simpl in Hrem.
  assert (Hkept : myPos w' = position /\ myLength w' = myLength x).
  { pose proof (play_position sdl fileName device position length w x Hload)
      as Hkept.
    rewrite Hplayed in Hkept. destruct Hkept as [Hlen' Hpos'].
    split; [now apply Hpos'|exact Hlen']. }
  destruct Hkept as [Hpos' Hlen'].
  rewrite Hpos', Hlen', Hrem.
  destruct (Z.eqb_spec length 0); split_and!; try assumption; try lia.
Qed.

(** What one callback does to the object: it reads [consumed] frames. *)
Lemma processWav_step (sdl : SDL) (volumeFactor : spec_float)
    (stream : list Z) (len : Z) (w w' : t) (out : list Z) :
  0 <= len -> 0 <= myRemaining w ->
  processWav sdl volumeFactor stream len w = Some (w', out) ->
  exists consumed,
    0 <= consumed <= myRemaining w
    /\ myRemaining w' = myRemaining w - consumed
    /\ myPos w' = myPos w + consumed
    /\ myBuffer w' = myBuffer w
    /\ myLength w' = myLength w
    /\ myFilename w' = myFilename w
    /\ myDevice w' = myDevice w
    /\ mySpeed w' = mySpeed w
    /\ calls w' = calls w
    /\ (SFeqb (mySpeed w) F64.one = true ->
        consumed = Z.min len (myRemaining w)).
Proof.
  intros Hlen Hrem. unfold processWav.
  destruct (Z.eqb_spec (myRemaining w) 0) as [Hzero|Hnonzero].
  - intros [= <- _]. exists 0. rewrite Hzero.
    split_and!; try reflexivity; lia.
  - destruct (mixVolume volumeFactor) as [volume|]; [simpl|discriminate].
    destruct (SFeqb (mySpeed w) F64.one); simpl.
    + destruct (readAtPos _ w) as [original|]; [simpl|discriminate].
      intros [= <- _]. rewrite clamp_to_remaining.
      exists (Z.min len (myRemaining w)).
      split_and!; try reflexivity; lia.
    + destruct (convertedLength len (mySpeed w)) as [len1|] eqn:Hconverted;
        [simpl|discriminate].
      apply convertedLength_rounds in Hconverted as [_ Hconverted].
      unfold in_uInt32 in Hconverted.
      destruct (newFreq _ _ _) as [rate|]; [simpl|discriminate].
      destruct (readAtPos _ w) as [original|]; [simpl|discriminate].
      rewrite clamp_to_remaining. intros [= <- _].
      exists (Z.min len1 (myRemaining w)).
      destruct (_ || _); simpl; split_and!; try reflexivity;
        try lia; discriminate.
Qed.

(** X18: a clip callback only moves the read position forward by what
    it takes from the remaining count: position plus remaining count is
    the same before and after, the remaining count never grows and
    never becomes negative, and the decoded buffer, its length, the
    file name, the device, the speed and the SDL call trace are left
    alone. *)
Theorem processWav_conserves (sdl : SDL) (volumeFactor : spec_float)
    (stream : list Z) (len : Z) (w w' : t) (out : list Z) :
  0 <= len -> 0 <= myRemaining w ->
  processWav sdl volumeFactor stream len w = Some (w', out) ->
  myPos w' + myRemaining w' = myPos w + myRemaining w
  /\ 0 <= myRemaining w' <= myRemaining w
  /\ myPos w <= myPos w'
  /\ myBuffer w' = myBuffer w
  /\ myLength w' = myLength w
  /\ myFilename w' = myFilename w
  /\ myDevice w' = myDevice w
  /\ calls w' = calls w.
Proof.
  intros Hlen Hrem Hcall.
  destruct (processWav_step _ _ _ _ _ _ _ Hlen Hrem Hcall)
    as (consumed & Hconsumed & Hrem' & Hpos' & Hbuf & Hlength & Hname
        & Hdev & _ & Hcalls & _).
  split_and!; try assumption; lia.
Qed.

(** X19: at speed 1.0 a loaded clip drains at the requested rate.  With
    the playback window inside the decoded clip, [n] callbacks of [len]
    bytes each all return; after them the remaining count is
    [max(0, remaining - n * len)] and the position has advanced by what
    was taken; once nothing remains, further callbacks change neither. *)
Theorem processWav_drains (sdl : SDL) (volumeFactor : spec_float)
    (stream : list Z) (len volume : Z) (n : nat) (w : t) (clip : list Z) :
  SFeqb (mySpeed w) F64.one = true ->
  mixVolume volumeFactor = Some volume ->
  0 <= len -> 0 <= myRemaining w ->
  myBuffer w = Some clip ->
  0 <= myPos w ->
  myPos w + myRemaining w <= Z.of_nat (length clip) ->
  exists w',
    processWav_n sdl volumeFactor stream len n w = Some w'
    /\ myRemaining w' = Z.max 0 (myRemaining w - Z.of_nat n * len)
    /\ myPos w' = myPos w + (myRemaining w - myRemaining w').
Proof.
  intros Hspeed Hvolume Hlen. revert w Hspeed.
  induction n as [|n IH]; intros w Hspeed Hrem Hclip Hpos Hwindow.
  - exists w. simpl. split_and!; [reflexivity|lia|lia].
  - assert (Hreturns : exists w1 out,
              processWav sdl volumeFactor stream len w = Some (w1, out)).
    { unfold processWav. destruct (_ =? 0); [eexists _, _; reflexivity|].
      rewrite Hvolume, Hspeed. simpl. rewrite clamp_to_remaining.
      rewrite (readAtPos_inside _ w clip Hclip Hpos) by lia.
      simpl. eexists _, _; reflexivity. }
    destruct Hreturns as (w1 & out & Hcall).
    destruct (processWav_step _ _ _ _ _ _ _ Hlen Hrem Hcall)
      as (consumed & Hconsumed & Hrem1 & Hpos1 & Hclip1 & _ & _ & _ & Hspeed1
          & _ & Hexact).
    specialize (Hexact Hspeed). subst consumed.
    destruct (IH w1) as (w' & Hrest & Hrem' & Hpos');
      [now rewrite Hspeed1|lia|now rewrite Hclip1|lia|lia|].
    exists w'. cbn [processWav_n]. rewrite Hcall. simpl.
    split_and!; [exact Hrest|lia|lia].
Qed.

(** X20: the device is opened lazily and only once.  Playing the
    loaded file again while the device is open makes no call into SDL
    at all: no decode, no device open, no unpause; it only moves the
    playback window. *)
Theorem replay_makes_no_sdl_call (sdl : SDL) (fileName : string)
    (device : option string) (position length : Z) (w : t)
    (buf : list Z) :
  myFilename w = fileName ->
  myBuffer w = Some buf ->
  myDevice w <> 0 ->
  position <= myLength w ->
  exists w',
    play sdl fileName device position length w = (true, w')
    /\ calls w' = calls w
    /\ myDevice w' = myDevice w
    /\ myBuffer w' = myBuffer w
    /\ myPos w' = position.
Proof.
  intros Hname Hbuf Hdev Hpos. unfold play.
  rewrite (play_load_cached sdl fileName w buf Hname Hbuf).
  destruct (Z.gtb_spec position (myLength w)); [lia|]. cbv zeta.
  match goal with
  | |- context [if ?d =? 0 then _ else _] =>
      destruct (Z.eqb_spec d 0) as [Hzero|_];
        [simpl in Hzero; contradiction|]
  end.
  eexists. split; [reflexivity|]. simpl. split_and!; reflexivity.
Qed.

(** X21: when the device cannot be opened, [play] returns false with the
    device still closed, but only after it has taken over the file
    name, the position and the remaining count; the loaded buffer stays
    loaded, so the next [play] of the file tries the device again
    without a new decode. *)
Theorem play_device_failure (sdl : SDL) (fileName : string)
    (device : option string) (position length : Z) (w : t)
    (buf : list Z) :
  myFilename w = fileName ->
  myBuffer w = Some buf ->
  myDevice w = 0 ->
  position <= myLength w ->
  fst (SDL_OpenAudioDevice sdl device (mySpec w)) = 0 ->
  let played := play sdl fileName device position length w in
  fst played = false
  /\ myDevice (snd played) = 0
  /\ myBuffer (snd played) = Some buf
  /\ myFilename (snd played) = fileName
  /\ myPos (snd played) = position
  /\ myRemaining (snd played)
     = (if length =? 0 then myLength w
        else Z.min length (myLength w - position))
  /\ calls (snd played) = CallOpenAudioDevice device :: calls w
  /\ decodes (snd played) = decodes w.
Proof.
  intros Hname Hbuf Hdev Hpos Hopen played. subst played. unfold play.
  rewrite (play_load_cached sdl fileName w buf Hname Hbuf).
  destruct (Z.gtb_spec position (myLength w)); [lia|]. cbv zeta.
  change (myDevice (set_myPos position _)) with (myDevice w).
  rewrite Hdev. simpl (0 =? 0). cbv iota.
  change (myDevice (set_myDevice ?d _)) with d.
  change (mySpec (set_myPos position _)) with (mySpec w).
  rewrite Hopen. simpl. rewrite ?Hopen.
  split_and!; try reflexivity; assumption.
Qed.

(** X22: [stop] before destruction releases everything once.  With a
    buffer loaded, [stop] closes the device and frees the buffer, and
    the destructor afterwards makes no call into SDL.  The destructor
    itself releases device and buffer only when the device is open:
    with the device closed it makes no call. *)
Theorem stop_then_destroy (w : t) :
  (forall buf, myBuffer w = Some buf ->
     calls (stop w)
     = CallFreeWAV :: CallCloseAudioDevice (myDevice w) :: calls w
     /\ destroy (stop w) = stop w)
  /\ (myDevice w = 0 -> destroy w = w)
  /\ (myDevice w <> 0 ->
      calls (destroy w)
      = CallFreeWAV :: CallCloseAudioDevice (myDevice w) :: calls w).
Proof.
  split_and!.
  - intros buf Hbuf. unfold stop, destroy. rewrite Hbuf.
    match goal with
    | |- context [match myCvtBuffer ?x with _ => _ end] =>
        destruct (myCvtBuffer x)
    end; simpl; split; reflexivity.
  - intros Hdev. unfold destroy. now rewrite Hdev.
  - intros Hdev. unfold destroy.
    destruct (Z.eqb_spec (myDevice w) 0); [contradiction|reflexivity].
Qed.

Lemma play_load_consistent (sdl : SDL) (fileName : string) (w : t) :
  consistent w ->
  match play_load sdl fileName w with
  | (Some x, y) =>
      x = y /\ consistent x /\ exists buf, myBuffer x = Some buf
  | (None, y) => consistent y
  end.
Proof.
  intros (Hbuf & Hrem & Hpos). unfold play_load.
  destruct (negb _ || bool_decide _) eqn:Hcond.
  - destruct (SDL_LoadWAV sdl fileName) as [[spec buf]|].
    + split; [reflexivity|]. split; [|now exists buf].
      unfold consistent. destruct (myBuffer w) eqn:Hb; simpl;
        (split_and!; [now intros ? [= <-]|assumption|assumption]).
    + unfold consistent. destruct (myBuffer w) eqn:Hb; simpl; rewrite ?Hb;
        (split_and!; [discriminate|assumption|assumption]).
  - apply orb_false_elim in Hcond as [_ Hsome].
    apply bool_decide_eq_false_1 in Hsome.
    split; [reflexivity|]. split; [now split_and!|].
    destruct (myBuffer w) as [buf|]; [now exists buf|contradiction].
Qed.

Lemma play_consistent (sdl : SDL) (fileName : string)
    (device : option string) (position length : Z) (w : t) :
  in_uInt32 position -> in_uInt32 length ->
  consistent w ->
  consistent (snd (play sdl fileName device position length w)).
Proof.
  intros Hposition Hlength Hw. unfold in_uInt32 in *.
  pose proof (play_load_consistent sdl fileName w Hw) as Hload.
  unfold play.
  destruct (play_load sdl fileName w) as [[x|] y]; [|exact Hload].
  destruct Hload as (_ & (Hbuf & Hrem & Hpos) & buf & Hloaded).
  pose proof (Hbuf buf Hloaded) as Hlen.
  destruct (Z.gtb_spec position (myLength x)); [now split_and!|].
  cbv zeta. unfold pause.
  repeat match goal with
         | |- context [if ?d =? 0 then _ else _] =>
             destruct (Z.eqb_spec d 0)
         end; unfold consistent; simpl; (split_and!; [exact Hbuf|lia|lia]).
Qed.

Lemma stop_consistent (w : t) : consistent w -> consistent (stop w).
Proof.
  intros (Hbuf & Hrem & Hpos). unfold stop, consistent.
  destruct (myBuffer w) eqn:Hloaded;
    match goal with
    | |- context [match myCvtBuffer ?x with _ => _ end] =>
        destruct (myCvtBuffer x)
    end; simpl; rewrite ?Hloaded;
    (split_and!; [first [discriminate|exact Hbuf]|lia|lia]).
Qed.

(** X23: what every clip player reachable from the initial one
    satisfies, whatever is played, stopped, paused or pulled by the
    audio device: while a buffer is loaded, [myLength] is its size; the
    remaining count and the read position are never negative. *)
Theorem reachable_consistent (w : t) : reachable w -> consistent w.
Proof.
  induction 1 as [|w w' op _ IH Htyped Hstep].
  - unfold consistent. simpl. split_and!; [discriminate|lia|lia].
  - destruct op as [sdl fileName device position length| |sdl factor stream len
                   |state|speed]; simpl in Htyped, Hstep.
    + injection Hstep as <-. destruct Htyped. now apply play_consistent.
    + injection Hstep as <-. now apply stop_consistent.
    + destruct (processWav sdl factor stream len w) as [[w1 out]|] eqn:Hcall;
        [|discriminate].
      injection Hstep as <-. destruct IH as (Hbuf & Hrem & Hpos).
      unfold in_uInt32 in Htyped.
      destruct (processWav_step _ _ _ _ _ _ _ (proj1 Htyped) Hrem Hcall)
        as (consumed & Hconsumed & Hrem' & Hpos' & Hbuf' & Hlen' & _).
      unfold consistent. rewrite Hbuf', Hlen'.
      split_and!; [exact Hbuf|lia|lia].
    + injection Hstep as <-. unfold pause, consistent in *.
      destruct (_ =? 0); simpl; exact IH.
    + injection Hstep as <-. exact IH.
Qed.

End ClipProperties.

(** * The further properties on the sample objects *)

Lemma toggleMute_twice_witness :
  myIsInitializedFlag sample_sound = true
  /\ AudioSettings.enabled (myAudioSettings sample_sound) = true
  /\ 1 <= stored_volume sample_sound <= 100
  /\ myVolumeFactor sample_sound = percent_factor (stored_volume sample_sound)
  /\ toggleMute (toggleMute sample_sound) = sample_sound.
Proof.
  assert (Hv : 1 <= stored_volume sample_sound <= 100)
    by (split; discriminate).
  assert (Hfactor : myVolumeFactor sample_sound
                    = percent_factor (stored_volume sample_sound))
    by (vm_compute; reflexivity).
  split; [reflexivity|]. split; [reflexivity|]. split; [exact Hv|].
  split; [exact Hfactor|].
  exact (proj2 (proj2 (toggleMute_twice sample_sound eq_refl eq_refl Hv
                         Hfactor))).
Defined.

Lemma disabled_audio_stays_silent_witness :
  AudioSettings.enabled (myAudioSettings sample_sound_disabled) = false
  /\ myVolumeFactor sample_sound_disabled = F32.zero
  /\ myVolumeFactor (toggleMute sample_sound_disabled) = F32.zero.
Proof.
  split; [reflexivity|]. split; [reflexivity|].
  exact (proj1 (proj2 (proj2 (disabled_audio_stays_silent
                                sample_sound_disabled eq_refl eq_refl)))).
Defined.

Lemma setVolume_last_wins_witness :
  in_uInt32 30 /\ 30 <= 100
  /\ setVolume 30 (setVolume 80 sample_sound) = setVolume 30 sample_sound.
Proof.
  assert (Hv : in_uInt32 30) by (split; [discriminate|reflexivity]).
  assert (Hle : 30 <= 100) by discriminate.
  split; [exact Hv|]. split; [exact Hle|].
  exact (setVolume_last_wins sample_sound 80 30 Hv Hle).
Defined.

Lemma adjustVolume_enabled_witness :
  AudioSettings.enabled (myAudioSettings sample_sound) = true
  /\ myIsInitializedFlag sample_sound = true
  /\ 0 <= stored_volume sample_sound <= 100
  /\ in_Int32 (1 * 2)
  /\ in_Int32 (stored_volume sample_sound + 1 * 2)
  /\ adjustVolume Ok 1 sample_sound
     = adjustVolume (fun s => Throw "never called" s) 1 sample_sound.
Proof.
  assert (Hv : 0 <= stored_volume sample_sound <= 100)
    by (split; discriminate).
  assert (Hd : in_Int32 (1 * 2)) by (split; [discriminate|reflexivity]).
  assert (Hsum : in_Int32 (stored_volume sample_sound + 1 * 2))
    by (split; [discriminate|reflexivity]).
  split; [reflexivity|]. split; [reflexivity|]. split; [exact Hv|].
  split; [exact Hd|]. split; [exact Hsum|].
  exact (proj1 (adjustVolume_enabled Ok (fun s => Throw "never called" s) 1
                  sample_sound eq_refl eq_refl Hv Hd Hsum)).
Defined.

Lemma adjustVolume_up_down_witness :
  AudioSettings.enabled (myAudioSettings sample_sound) = true
  /\ myIsInitializedFlag sample_sound = true
  /\ 0 <= stored_volume sample_sound <= 98
  /\ exists s1 s2,
       adjustVolume Ok 1 sample_sound = Ok s1
       /\ adjustVolume Ok (-1) s1 = Ok s2
       /\ stored_volume s2 = stored_volume sample_sound.
Proof.
  assert (Hv : 0 <= stored_volume sample_sound <= 98)
    by (split; discriminate).
  split; [reflexivity|]. split; [reflexivity|]. split; [exact Hv|].
  destruct (adjustVolume_up_down Ok sample_sound eq_refl eq_refl Hv)
    as (s1 & s2 & Hup & Hdown & _ & Hstored & _).
  exists s1, s2. split; [exact Hup|]. split; [exact Hdown|exact Hstored].
Defined.

Lemma setEnabled_off_on_witness :
  myIsInitializedFlag sample_sound = true
  /\ AudioSettings.enabled (myAudioSettings sample_sound) = true
  /\ 0 <= stored_volume sample_sound <= 100
  /\ myVolumeFactor (setEnabled false sample_sound) = F32.zero
  /\ myDeviceStatus (setEnabled false sample_sound) = SDL_AUDIO_PAUSED.
Proof.
  assert (Hv : 0 <= stored_volume sample_sound <= 100)
    by (split; discriminate).
  split; [reflexivity|]. split; [reflexivity|]. split; [exact Hv|].
  destruct (setEnabled_off_on sample_sound eq_refl eq_refl Hv)
    as (Hfactor & Hstatus & _).
  split; [exact Hfactor|exact Hstatus].
Defined.

Example queryHardware_two_devices :
  queryHardware 2
    (fun i => if i =? 0 then "Speakers"%string else "Headset"%string) []
  = [("Default"%string, 0); ("Speakers"%string, 1); ("Headset"%string, 2)].
Proof. reflexivity. Qed.

Lemma openDevice_with_devices_witness :
  0 < Z.of_nat (length (myDevices sample_sound)) < 2 ^ 32
  /\ 0 <= AudioSettings.device (myAudioSettings sample_sound)
  /\ exists s',
       openDevice sample_sdl sample_sound = Ok s'
       /\ 0 <= myDeviceId s' < Z.of_nat (length (myDevices s')).
Proof.
  assert (Hdevices : 0 < Z.of_nat (length (myDevices sample_sound)) < 2 ^ 32)
    by (split; reflexivity).
  assert (Hdevice : 0 <= AudioSettings.device (myAudioSettings sample_sound))
    by discriminate.
  split; [exact Hdevices|]. split; [exact Hdevice|].
  destruct (openDevice_with_devices sample_sdl sample_sound Hdevices Hdevice)
    as (s' & Hcall & Hrange & _).
  exists s'. split; [exact Hcall|exact Hrange].
Defined.

Lemma openDevice_empty_list_throws_witness :
  myDevices sample_sound_no_audio = []
  /\ 0 < AudioSettings.device (myAudioSettings sample_sound_no_audio) < 2 ^ 32
  /\ exists s',
       openDevice sample_sdl sample_sound_no_audio = Throw "out_of_range" s'
       /\ myIsInitializedFlag s' = myIsInitializedFlag sample_sound_no_audio.
Proof.
  assert (Hdevice :
    0 < AudioSettings.device (myAudioSettings sample_sound_no_audio) < 2 ^ 32)
    by (split; reflexivity).
  split; [reflexivity|]. split; [exact Hdevice|].
  exact (openDevice_empty_list_throws sample_sdl sample_sound_no_audio
           eq_refl Hdevice).
Defined.

Lemma open_keeps_matching_device_witness :
  AudioSettings.sampleRate (myAudioSettings sample_sound)
  = to_uInt32 (freq (myHardwareSpec sample_sound))
  /\ AudioSettings.fragmentSize (myAudioSettings sample_sound)
     = to_uInt32 (samples (myHardwareSpec sample_sound))
  /\ AudioSettings.device (myAudioSettings sample_sound)
     = myDeviceId sample_sound
  /\ exists s',
       state_of (open sample_sdl [4; 5]%positive sample_timing sample_sound)
       = Some s'
       /\ myDevice s' = myDevice sample_sound.
Proof.
  split; [reflexivity|]. split; [reflexivity|]. split; [reflexivity|].
  destruct (open_keeps_matching_device sample_sdl [4; 5]%positive
              sample_timing sample_sound eq_refl eq_refl eq_refl)
    as (s' & Hcall & Hdevice & _).
  exists s'. split; [exact Hcall|exact Hdevice].
Defined.

Lemma open_disabled_witness :
  AudioSettings.enabled (myAudioSettings sample_sound_disabled) = false
  /\ exists s',
       open sample_sdl [4; 5]%positive sample_timing sample_sound_disabled
       = Ok s'
       /\ myEmulationTiming s' = Some sample_timing.
Proof.
  split; [reflexivity|].
  destruct (proj2 (open_disabled sample_sdl [4; 5]%positive sample_timing
                     sample_sound_disabled eq_refl) eq_refl eq_refl eq_refl)
    as (s' & Hcall & Htiming & _).
  exists s'. split; [exact Hcall|exact Htiming].
Defined.

Lemma open_starts_in_underrun_witness :
  AudioSettings.enabled (myAudioSettings sample_sound) = true
  /\ AudioSettings.recognized
       (AudioSettings.resamplingQuality (myAudioSettings sample_sound))
  /\ deviceName sample_sound (myDeviceId sample_sound) <> None
  /\ exists s',
       open sample_sdl [4; 5]%positive sample_timing sample_sound = Ok s'
       /\ myUnderrun s' = true
       /\ nextFragmentCallback s' = Some (None, s').
Proof.
  assert (Hquality : AudioSettings.recognized
            (AudioSettings.resamplingQuality (myAudioSettings sample_sound)))
    by (right; left; reflexivity).
  assert (Hname : deviceName sample_sound (myDeviceId sample_sound) <> None)
    by discriminate.
  split; [reflexivity|]. split; [exact Hquality|]. split; [exact Hname|].
  destruct (open_starts_in_underrun sample_sdl [4; 5]%positive sample_timing
              sample_sound eq_refl Hquality eq_refl eq_refl eq_refl Hname)
    as (s' & Hcall & _ & _ & _ & Hunder & _ & Hwait).
  exists s'. split; [exact Hcall|]. split; [exact Hunder|].
  apply Hwait. reflexivity.
Defined.

Lemma starved_pull_changes_nothing_witness :
  myAudioQueue sample_sound_starved = Some [1; 2]%positive
  /\ myEmulationTiming sample_sound_starved = Some sample_timing
  /\ myUnderrun sample_sound_starved = true
  /\ AudioQueue.size [1; 2]%positive
     < EmulationTiming.prebufferFragmentCount sample_timing
  /\ nextFragmentCallback sample_sound_starved
     = Some (None, sample_sound_starved).
Proof.
  assert (Hsize : AudioQueue.size [1; 2]%positive
                  < EmulationTiming.prebufferFragmentCount sample_timing)
    by reflexivity.
  split; [reflexivity|]. split; [reflexivity|]. split; [reflexivity|].
  split; [exact Hsize|].
  exact (proj1 (starved_pull_changes_nothing sample_sound_starved
                  [1; 2]%positive sample_timing eq_refl eq_refl eq_refl
                  Hsize)).
Defined.

Lemma play_window_witness :
  in_uInt32 2 /\ in_uInt32 4
  /\ 0 <= WavHandlerSDL.myLength WavHandlerSDL.init
  /\ WavHandlerSDL.play sample_sdl "clip.wav" None 2 4 WavHandlerSDL.init
     = (true, sample_wav)
  /\ WavHandlerSDL.myPos sample_wav + WavHandlerSDL.myRemaining sample_wav
     <= WavHandlerSDL.myLength sample_wav.
Proof.
  assert (Hposition : in_uInt32 2) by (split; [discriminate|reflexivity]).
  assert (Hlength : in_uInt32 4) by (split; [discriminate|reflexivity]).
  assert (Hlen : 0 <= WavHandlerSDL.myLength WavHandlerSDL.init)
    by discriminate.
  assert (Hplayed :
    WavHandlerSDL.play sample_sdl "clip.wav" None 2 4 WavHandlerSDL.init
    = (true, sample_wav)) by (vm_compute; reflexivity).
  split; [exact Hposition|]. split; [exact Hlength|]. split; [exact Hlen|].
  split; [exact Hplayed|].
  destruct (play_window sample_sdl "clip.wav" None 2 4 WavHandlerSDL.init
              sample_wav Hposition Hlength Hlen Hplayed)
    as (_ & _ & _ & _ & Hwindow & _).
  apply Hwindow. discriminate.
Defined.

Lemma processWav_conserves_witness :
  0 <= 3 /\ 0 <= WavHandlerSDL.myRemaining sample_wav
  /\ WavHandlerSDL.processWav sample_sdl one_half (replicate 6 0) 3 sample_wav
     = Some (WavHandlerSDL.advance 3 sample_wav, [30; 40; 50; 0; 0; 0])
  /\ WavHandlerSDL.myPos (WavHandlerSDL.advance 3 sample_wav)
     + WavHandlerSDL.myRemaining (WavHandlerSDL.advance 3 sample_wav)
     = WavHandlerSDL.myPos sample_wav + WavHandlerSDL.myRemaining sample_wav.
Proof.
  assert (Hlen : 0 <= 3) by discriminate.
  assert (Hrem : 0 <= WavHandlerSDL.myRemaining sample_wav)
    by (vm_compute; discriminate).
  assert (Hcall :
    WavHandlerSDL.processWav sample_sdl one_half (replicate 6 0) 3 sample_wav
    = Some (WavHandlerSDL.advance 3 sample_wav, [30; 40; 50; 0; 0; 0]))
    by (vm_compute; reflexivity).
  split; [exact Hlen|]. split; [exact Hrem|]. split; [exact Hcall|].
  exact (proj1 (processWav_conserves sample_sdl one_half (replicate 6 0) 3
                  sample_wav _ _ Hlen Hrem Hcall)).
Defined.

Lemma processWav_drains_witness :
  let clip := [10; 20; 30; 40; 50; 60; 70; 80] in
  SFeqb (WavHandlerSDL.mySpeed sample_wav) F64.one = true
  /\ WavHandlerSDL.mixVolume one_half = Some 64
  /\ 0 <= 3 /\ 0 <= WavHandlerSDL.myRemaining sample_wav
  /\ WavHandlerSDL.myBuffer sample_wav = Some clip
  /\ 0 <= WavHandlerSDL.myPos sample_wav
  /\ WavHandlerSDL.myPos sample_wav + WavHandlerSDL.myRemaining sample_wav
     <= Z.of_nat (length clip)
  /\ exists w',
       WavHandlerSDL.processWav_n sample_sdl one_half (replicate 6 0) 3 2
         sample_wav = Some w'
       /\ WavHandlerSDL.myRemaining w'
          = Z.max 0 (WavHandlerSDL.myRemaining sample_wav - Z.of_nat 2 * 3).
Proof.
  intros clip.
  assert (Hspeed : SFeqb (WavHandlerSDL.mySpeed sample_wav) F64.one = true)
    by (vm_compute; reflexivity).
  assert (Hvolume : WavHandlerSDL.mixVolume one_half = Some 64)
    by (vm_compute; reflexivity).
  assert (Hlen : 0 <= 3) by discriminate.
  assert (Hrem : 0 <= WavHandlerSDL.myRemaining sample_wav)
    by (vm_compute; discriminate).
  assert (Hclip : WavHandlerSDL.myBuffer sample_wav = Some clip)
    by (vm_compute; reflexivity).
  assert (Hpos : 0 <= WavHandlerSDL.myPos sample_wav)
    by (vm_compute; discriminate).
  assert (Hwindow :
    WavHandlerSDL.myPos sample_wav + WavHandlerSDL.myRemaining sample_wav
    <= Z.of_nat (length clip)) by (vm_compute; discriminate).
  split; [exact Hspeed|]. split; [exact Hvolume|]. split; [exact Hlen|].
  split; [exact Hrem|]. split; [exact Hclip|]. split; [exact Hpos|].
  split; [exact Hwindow|].
  destruct (processWav_drains sample_sdl one_half (replicate 6 0) 3 64 2
              sample_wav clip Hspeed Hvolume Hlen Hrem Hclip Hpos Hwindow)
    as (w' & Hcall & Hremaining & _).
  exists w'. split; [exact Hcall|exact Hremaining].
Defined.

(** Without a decoded buffer a callback with frames left to play reads
    through a dangling pointer: the model gives no result. *)
Example processWav_without_buffer :
  WavHandlerSDL.processWav sample_sdl one_half (replicate 6 0) 3
    (WavHandlerSDL.set_myBuffer None sample_wav) = None
  /\ WavHandlerSDL.processWav sample_sdl one_half (replicate 6 0) 3
       (WavHandlerSDL.set_myPos 7 sample_wav) = None.
Proof. split; vm_compute; reflexivity. Qed.

Lemma replay_makes_no_sdl_call_witness :
  WavHandlerSDL.myFilename sample_wav = "clip.wav"%string
  /\ WavHandlerSDL.myBuffer sample_wav = Some [10; 20; 30; 40; 50; 60; 70; 80]
  /\ WavHandlerSDL.myDevice sample_wav <> 0
  /\ 0 <= WavHandlerSDL.myLength sample_wav
  /\ exists w',
       WavHandlerSDL.play sample_sdl "clip.wav" None 0 0 sample_wav
       = (true, w')
       /\ WavHandlerSDL.calls w' = WavHandlerSDL.calls sample_wav.
Proof.
  assert (Hname : WavHandlerSDL.myFilename sample_wav = "clip.wav"%string)
    by (vm_compute; reflexivity).
  assert (Hbuf : WavHandlerSDL.myBuffer sample_wav
                 = Some [10; 20; 30; 40; 50; 60; 70; 80])
    by (vm_compute; reflexivity).
  assert (Hdev : WavHandlerSDL.myDevice sample_wav <> 0)
    by (vm_compute; discriminate).
  assert (Hpos : 0 <= WavHandlerSDL.myLength sample_wav)
    by (vm_compute; discriminate).
  split; [exact Hname|]. split; [exact Hbuf|]. split; [exact Hdev|].
  split; [exact Hpos|].
  destruct (replay_makes_no_sdl_call sample_sdl "clip.wav" None 0 0
              sample_wav _ Hname Hbuf Hdev Hpos)
    as (w' & Hcall & Hcalls & _).
  exists w'. split; [exact Hcall|exact Hcalls].
Defined.

Lemma play_device_failure_witness :
  WavHandlerSDL.myFilename sample_wav_no_device = "clip.wav"%string
  /\ WavHandlerSDL.myBuffer sample_wav_no_device
     = Some [10; 20; 30; 40; 50; 60; 70; 80]
  /\ WavHandlerSDL.myDevice sample_wav_no_device = 0
  /\ 3 <= WavHandlerSDL.myLength sample_wav_no_device
  /\ fst (SDL_OpenAudioDevice sample_sdl_no_device None
            (WavHandlerSDL.mySpec sample_wav_no_device)) = 0
  /\ fst (WavHandlerSDL.play sample_sdl_no_device "clip.wav" None 3 0
            sample_wav_no_device) = false
  /\ WavHandlerSDL.myPos
       (snd (WavHandlerSDL.play sample_sdl_no_device "clip.wav" None 3 0
               sample_wav_no_device)) = 3.
Proof.
  assert (Hname : WavHandlerSDL.myFilename sample_wav_no_device
                  = "clip.wav"%string) by (vm_compute; reflexivity).
  assert (Hbuf : WavHandlerSDL.myBuffer sample_wav_no_device
                 = Some [10; 20; 30; 40; 50; 60; 70; 80])
    by (vm_compute; reflexivity).
  assert (Hdev : WavHandlerSDL.myDevice sample_wav_no_device = 0)
    by (vm_compute; reflexivity).
  assert (Hpos : 3 <= WavHandlerSDL.myLength sample_wav_no_device)
    by (vm_compute; discriminate).
  assert (Hopen : fst (SDL_OpenAudioDevice sample_sdl_no_device None
                         (WavHandlerSDL.mySpec sample_wav_no_device)) = 0)
    by reflexivity.
  split; [exact Hname|]. split; [exact Hbuf|]. split; [exact Hdev|].
  split; [exact Hpos|]. split; [exact Hopen|].
  destruct (play_device_failure sample_sdl_no_device "clip.wav" None 3 0
              sample_wav_no_device _ Hname Hbuf Hdev Hpos Hopen)
    as (Hfalse & _ & _ & _ & Hposition & _).
  split; [exact Hfalse|exact Hposition].
Defined.

Lemma reachable_consistent_witness :
  WavHandlerSDL.reachable sample_wav /\ WavHandlerSDL.consistent sample_wav.
Proof.
  assert (Hreach : WavHandlerSDL.reachable sample_wav).
  { apply (WavHandlerSDL.reachable_perform WavHandlerSDL.init sample_wav
             (WavHandlerSDL.OpPlay sample_sdl "clip.wav" None 2 4)).
    - apply WavHandlerSDL.reachable_init.
    - split; (split; [discriminate|reflexivity]).
    - vm_compute. reflexivity. }
  split; [exact Hreach|].
  exact (reachable_consistent sample_wav Hreach).
Defined.

(** * Volume without a device, and volume zero *)

Section EdgeVolumeProperties.

Context {Q R : Type} `{!AudioQueue.Ops Q} `{!Resampler.Ops R}.

Implicit Types s : SoundSDL Q R.

(** X24: on an object whose device is not initialized the volume
    controls do nothing: [setVolume], [mute(false)], [pause],
    [setEnabled(true)] and, with sound enabled in the settings,
    [adjustVolume] return the object unchanged.  Only [mute(true)] still
    acts: it sets the factor to 0 and leaves the stored volume alone. *)
Theorem not_initialized_volume_controls s :
  myIsInitializedFlag s = false ->
  (forall v, setVolume v s = s)
  /\ mute false s = s
  /\ (forall enable, snd (pause enable s) = s)
  /\ setEnabled true s = s
  /\ (forall initializeAudio direction,
        AudioSettings.enabled (myAudioSettings s) = true ->
        adjustVolume initializeAudio direction s = Ok s)
  /\ myVolumeFactor (mute true s) = F32.zero
  /\ stored_volume (mute true s) = stored_volume s.
Proof.
  intros Hinit.
  assert (Hset : forall v, setVolume v s = s)
    by (intros v; now apply setVolume_not_initialized).
  assert (Hpause : forall enable (x : SoundSDL Q R),
            myIsInitializedFlag x = false -> snd (pause enable x) = x)
    by (intros enable x Hx; unfold pause; now rewrite Hx).
  split_and!.
  - exact Hset.
  - apply Hset.
  - intros enable. now apply Hpause.
  - unfold setEnabled. simpl. rewrite Hset. now apply Hpause.
  - intros initializeAudio direction Henabled. unfold adjustVolume.
    rewrite Henabled, andb_false_r. simpl. now rewrite Hset.
  - reflexivity.
  - reflexivity.
Qed.

(** X25: volume 0 is a mute.  On an initialized device [setVolume(0)]
    gives the same factor as [mute(true)], namely 0; and with the stored
    volume at 0 and the output silent, [toggleMute] does not bring the
    sound back. *)
Theorem volume_zero_is_mute s :
  myIsInitializedFlag s = true ->
  myVolumeFactor (setVolume 0 s) = F32.zero
  /\ myVolumeFactor (setVolume 0 s) = myVolumeFactor (mute true s)
  /\ stored_volume (setVolume 0 s) = 0
  /\ (stored_volume s = 0 -> myVolumeFactor s = F32.zero ->
      myVolumeFactor (toggleMute s) = F32.zero).
Proof.
  intros Hinit.
  assert (Hzero : forall x : SoundSDL Q R,
            myIsInitializedFlag x = true ->
            myVolumeFactor (setVolume 0 x) = F32.zero
            /\ stored_volume (setVolume 0 x) = 0).
  { intros x Hx. unfold setVolume, stored_volume.
    change (to_uInt32 0) with 0. rewrite Hx. simpl.
    split; [|reflexivity].
    now destruct (AudioSettings.enabled (myAudioSettings x)). }
  destruct (Hzero s Hinit) as [Hfactor Hstored].
  split_and!.
  - exact Hfactor.
  - now rewrite Hfactor.
  - exact Hstored.
  - intros Hvolume Hsilent. unfold toggleMute. rewrite Hsilent.
    simpl. unfold stored_volume in Hvolume. rewrite Hvolume.
    now apply Hzero.
Qed.

End EdgeVolumeProperties.

Lemma not_initialized_volume_controls_witness :
  myIsInitializedFlag sample_sound_no_device = false
  /\ setVolume 80 sample_sound_no_device = sample_sound_no_device.
Proof.
  split; [reflexivity|].
  exact (proj1 (not_initialized_volume_controls sample_sound_no_device
                  eq_refl) 80).
Defined.

Lemma volume_zero_is_mute_witness :
  myIsInitializedFlag sample_sound = true
  /\ myVolumeFactor (setVolume 0 sample_sound) = F32.zero.
Proof.
  split; [reflexivity|].
  exact (proj1 (volume_zero_is_mute sample_sound eq_refl)).
Defined.
